(** * pg_sqlite_fs: a filesystem index kept in an SQLite file, driven from PostgreSQL

    Shallow embedding of [src/pg.c] (module [Pg]) and of the older revision
    [src/pg_sqlite_fs.c] (module [PgSqliteFs]).

    What is embedded:
    - the SQL statements the C code hands to SQLite, each as a function on
      the tables it touches (its text is quoted above the definition);
    - the control flow of every exported function: the [rc] variable, the
      [goto] labels and the value finally given to [PG_RETURN_BOOL];
    - the SPI row-set the bulk loaders read ([SPI_tuptable], [SPI_processed]).

    What is taken as given:
    - [convert_and_check_path] (path confinement) has accepted the path, and
      the path names one file, whose state is [option database]
      ([None]: the file does not exist);
    - the SQLite engine never fails for a reason of its own (I/O error, busy
      file): a call fails only for the reasons the statement itself gives
      (missing file, missing table, violated uniqueness, no open
      transaction). The shell of the bulk loaders is also given with such
      failures of [sqlite3_open] and of the transaction statements
      ([in_transaction_in]);
    - a backend that dies on a memory fault leaves the SQLite file to the
      next connection, which rolls the interrupted transaction back. The
      loaders apply [DatumGetTextPP] and [DatumGetByteaP] to the zero word
      of a null column before they look at the null flag (name in the
      entries loaders; mountpoint, rel_path, header, prepend and append in
      the files loader; path and header in the older files loader;
      decrypted_size in the older entries loader): the backend dies there;
    - a database file has the typed tables below or lacks them; tables of
      another shape, which [pg_sqlite_fs_exec] could create, are not
      represented. *)

From stdpp Require Import base option list strings gmap fin_maps.
From Stdlib Require Import ZArith Lia.

Local Open Scope Z_scope.

(** ** Result codes and type identifiers (sqlite3.h, spi.h, pg_type_d.h) *)

Definition SQLITE_OK : Z := 0.
Definition SQLITE_ERROR : Z := 1.
Definition SQLITE_CANTOPEN : Z := 14.
Definition SQLITE_CONSTRAINT : Z := 19.
Definition SQLITE_MISUSE : Z := 21.
Definition SQLITE_ROW : Z := 100.
Definition SQLITE_DONE : Z := 101.

Definition SPI_OK_CONNECT : Z := 1.
Definition SPI_OK_SELECT : Z := 5.

Definition Oid := Z.
Definition BOOLOID : Oid := 16.
Definition BYTEAOID : Oid := 17.
Definition INT8OID : Oid := 20.
Definition INT4OID : Oid := 23.
Definition TEXTOID : Oid := 25.

(** ** C integers *)

(** Conversion of a value to [int64] and to [int] (two's complement). *)
Definition to_int64 (z : Z) : Z := (z + 2 ^ 63) mod 2 ^ 64 - 2 ^ 63.
Definition to_int32 (z : Z) : Z := (z + 2 ^ 31) mod 2 ^ 32 - 2 ^ 31.
Definition to_uint64 (z : Z) : Z := z mod 2 ^ 64.
Definition to_uint32 (z : Z) : Z := z mod 2 ^ 32.

(** The values an [int64] argument can carry. *)
Definition int64 (z : Z) : Prop := -2 ^ 63 ≤ z < 2 ^ 63.

(** [a || b] on ints. *)
Definition c_or (a b : Z) : Z := if decide (a = 0) then (if decide (b = 0) then 0 else 1) else 1.

(** [(rc) ? false : true], the argument of every [PG_RETURN_BOOL]. *)
Definition rc_bool (rc : Z) : bool := bool_decide (rc = 0).

(** ** How a call ends *)

(** A function either returns its boolean, or leaves through [E(...)]
    ([elog(ERROR, ...)]), which does not return to the caller, or the
    backend process dies in it on a memory fault (SIGSEGV). *)
Inductive outcome : Type :=
  | Ret (b : bool)
  | Raised
  | Crashed.

(** ** PostgreSQL values *)

Inductive Datum : Type :=
  | DInt8 (z : Z)
  | DInt4 (z : Z)
  | DBool (b : bool)
  | DText (s : string)
  | DBytea (b : list Byte.byte).

(** The zero word: what [SPI_getbinval] returns with [*isnull = true]. *)
Definition DNull : Datum := DInt8 0.

Definition datum_word (d : Datum) : Z :=
  match d with
  | DInt8 z | DInt4 z => z
  | DBool b => if b then 1 else 0
  | DText _ | DBytea _ => 0
  end.

(** The accessors of the types passed by value read the word itself. *)
Definition DatumGetUInt64 (d : Datum) : Z := to_uint64 (datum_word d).
Definition DatumGetUInt32 (d : Datum) : Z := to_uint32 (datum_word d).
Definition DatumGetBool (d : Datum) : bool := bool_decide (datum_word d ≠ 0).

(** The accessors of the types passed by reference follow the word as a
    pointer to a varlena and look at its header ([pg_detoast_datum_packed],
    [pg_detoast_datum]): on a text or a bytea they give its bytes; the word
    of a value passed by value, the zero word of a null among them, points
    to no varlena, and following it kills the backend ([None]). *)
Definition DatumGetTextPP (d : Datum) : option string :=
  match d with
  | DText s => Some s
  | DBytea b => Some (String.string_of_list_byte b)
  | DInt8 _ | DInt4 _ | DBool _ => None
  end.
Definition DatumGetByteaP (d : Datum) : option (list Byte.byte) :=
  match d with
  | DBytea b => Some b
  | DText s => Some (String.list_byte_of_string s)
  | DInt8 _ | DInt4 _ | DBool _ => None
  end.

(** An accessor that cannot fail, for the columns passed by value. *)
Definition by_value {B} (get : Datum → B) : Datum → option B := λ d, Some (get d).

(** An argument slot of [fcinfo]: the word and its null flag.
    [PG_GETARG_*] reads [value] whatever [isnull] says. *)
Record NullableDatum (A : Type) : Type := mkArg { value : A; isnull : bool }.
Arguments mkArg {A} _ _.
Arguments value {A} _.
Arguments isnull {A} _.

(** ** The row-set of a query run through SPI *)

(** [attrs] are the declared column types, [natts] their number.
    [TupleDescAttr] does not check its index: [past_end k] is what lies in
    memory [k] slots after the last attribute. *)
Record TupleDesc : Type := mkTupleDesc {
  attrs : list Oid;
  past_end : nat → Oid
}.

Definition natts (td : TupleDesc) : Z := Z.of_nat (length (attrs td)).

Definition TupleDescAttr (td : TupleDesc) (p : nat) : Oid :=
  match attrs td !! p with
  | Some t => t
  | None => past_end td (p - length (attrs td))%nat
  end.

(** A row: one value per column, [None] for SQL NULL. *)
Abbreviation HeapTuple := (list (option Datum)).

Record SPITupleTable : Type := mkTupTable {
  tupdesc : TupleDesc;
  vals : list HeapTuple
}.

(** [SPI_getbinval(tuple, tupdesc, fnumber, &isnull)]: columns are numbered
    from 1; a number past [natts] gives a null. *)
Definition SPI_getbinval (t : HeapTuple) (td : TupleDesc) (fnumber : nat) : Datum * bool :=
  if decide (Z.of_nat fnumber > natts td ∨ fnumber = 0%nat) then (DNull, true)
  else match t !! (fnumber - 1)%nat with
       | Some (Some d) => (d, false)
       | _ => (DNull, true)
       end.

(** What the hosting engine answers to the caller's query: the codes of
    [SPI_connect] and [SPI_execute], and the row-set. *)
Record spi_result : Type := mkSpi {
  connect_rc : Z;
  execute_rc : Z;
  SPI_tuptable : SPITupleTable
}.

(** A query that ran and returned the rows [rows] under the columns [cols]. *)
Definition spi_select (cols : list Oid) (rows : list HeapTuple) : spi_result :=
  {| connect_rc := SPI_OK_CONNECT;
     execute_rc := SPI_OK_SELECT;
     SPI_tuptable := {| tupdesc := {| attrs := cols; past_end := λ _, 0 |};
                        vals := rows |} |}.

(** What comes of reading the columns of a row, before anything is bound:
    the backend dies, or control leaves for the exit label with [rc], or
    the values are there. *)
Inductive fetched (A : Type) : Type :=
  | died
  | leaves (rc : Z)
  | got (a : A).
Arguments died {A}.
Arguments leaves {A} _.
Arguments got {A} _.

(** ** Arguments of the exported functions *)

(** [PG_GETARG_INT64(n)] *)
Definition PG_GETARG_INT64 (a : NullableDatum Z) : Z := to_int64 (value a).

(** [(PG_ARGISNULL(n)) ? sqlite3_bind_null(...) : sqlite3_bind_text/blob(...)] *)
Definition null_or_value {A} (a : NullableDatum A) : option A :=
  if isnull a then None else Some (value a).

(** [fcinfo] of the functions that take the path alone. *)
Record path_args : Type := mkPathArgs {
  nargs : Z;
  db_path : NullableDatum string
}.

(** [fcinfo] of the bulk loaders: the path and the text of the query. *)
Record loader_args : Type := mkLoaderArgs {
  ld_nargs : Z;
  ld_db_path : NullableDatum string;
  ld_query : NullableDatum string
}.

(** ** The SQLite side *)

(** The two columns of an [entries] row that the engine itself looks at
    (the unique index [names] is on them); the other columns differ between
    the two revisions of the code. *)
Class EntryRow (E : Type) : Type := {
  index_parent_inode : E → Z;
  index_name : E → string
}.

Module Sqlite.
Section Engine.
Context {E F : Type} `{EntryRow E}.

(** The [entries] table: its rows under the primary key [inode], and
    which of its two indexes exist. *)
Record entries_table : Type := mkEntries {
  rows : gmap Z E;
  names : bool;      (* UNIQUE INDEX names ON entries(parent_inode, name) *)
  listing : bool     (* INDEX listing ON entries(parent_inode, inode, name) *)
}.

(** A database file: each table is [None] until it is created.
    [REFERENCES entries(inode)] is not enforced: the code never turns
    [PRAGMA foreign_keys] on. *)
Record database : Type := mkDb {
  files : option (gmap Z F);
  extended_attributes : option (gmap (Z * string) string);
  entries : option entries_table
}.

(** What [sqlite3_open] finds after creating the file. *)
Definition empty_database : database :=
  {| files := None; extended_attributes := None; entries := None |}.

(** A connection: the content as this connection sees it, and, inside a
    transaction, the content to go back to. *)
Record sqlite3 : Type := mkConn {
  main : database;
  journal : option database
}.

(** [sqlite3_open(path, &db)]: SQLITE_OPEN_READWRITE | SQLITE_OPEN_CREATE.
    A missing file is created, empty. *)
Definition sqlite3_open (fs : option database) : Z * sqlite3 :=
  (SQLITE_OK, {| main := default empty_database fs; journal := None |}).

(** [sqlite3_open_v2(path, &db, SQLITE_OPEN_READWRITE, NULL)]: a missing
    file is not created. *)
Definition sqlite3_open_v2 (fs : option database) : Z * option sqlite3 :=
  match fs with
  | Some d => (SQLITE_OK, Some {| main := d; journal := None |})
  | None => (SQLITE_CANTOPEN, None)
  end.

(** [sqlite3_close(db)]: an open transaction is rolled back. *)
Definition sqlite3_close (c : sqlite3) : option database :=
  Some (default (main c) (journal c)).

Inductive txn_cmd : Type := BEGIN | COMMIT | ROLLBACK.

(** [sqlite3_exec] of "BEGIN TRANSACTION;", "COMMIT;" and "ROLLBACK;". *)
Definition sqlite3_exec_txn (cmd : txn_cmd) (c : sqlite3) : sqlite3 * Z :=
  match cmd, journal c with
  | BEGIN, None => ({| main := main c; journal := Some (main c) |}, SQLITE_OK)
  | BEGIN, Some _ => (c, SQLITE_ERROR)
  | COMMIT, Some _ => ({| main := main c; journal := None |}, SQLITE_OK)
  | ROLLBACK, Some d => ({| main := d; journal := None |}, SQLITE_OK)
  | COMMIT, None | ROLLBACK, None => (c, SQLITE_ERROR)
  end.

(** A statement on the content: the new content and a result code. A
    statement that fails changes nothing (conflict resolution ABORT). *)
Definition sql : Type := database → database * Z.

Definition sqlite3_exec (s : sql) (c : sqlite3) : sqlite3 * Z :=
  let '(d, rc) := s (main c) in
  ({| main := d; journal := journal c |}, rc).

(** A statement with parameters: [compiles] says whether
    [sqlite3_prepare_v2] accepts it on this content (its table exists),
    [run] is one [sqlite3_step] under the bound values. *)
Record stmt_sql (P : Type) : Type := mkStmt {
  compiles : database → bool;
  run : P → sql
}.
Arguments compiles {P} _ _.
Arguments run {P} _ _ _.

(** [sqlite3_prepare_v2]: the code and the statement handle ([None] is the
    NULL handle left by a failed compilation). *)
Definition sqlite3_prepare_v2 {P} (c : sqlite3) (s : stmt_sql P) : Z * option (stmt_sql P) :=
  if compiles s (main c) then (SQLITE_OK, Some s) else (SQLITE_ERROR, None).

(** Any [sqlite3_bind_*] with an index the statement has. *)
Definition sqlite3_bind {P} (stmt : option (stmt_sql P)) : Z :=
  match stmt with Some _ => SQLITE_OK | None => SQLITE_MISUSE end.

(** [sqlite3_step] of a statement that returns no row. *)
Definition sqlite3_step {P} (stmt : option (stmt_sql P)) (p : P) (c : sqlite3) : sqlite3 * Z :=
  match stmt with
  | None => (c, SQLITE_MISUSE)
  | Some s =>
      let '(c', rc) := sqlite3_exec (run s p) c in
      (c', if decide (rc = SQLITE_OK) then SQLITE_DONE else rc)
  end.

(** *** The statements of the code *)

(** Some row other than [i] already has the pair (parent_inode, name) of [e]. *)
Definition names_taken (t : gmap Z E) (i : Z) (e : E) : Prop :=
  map_Exists (λ k e', k ≠ i ∧ index_parent_inode e' = index_parent_inode e
                          ∧ index_name e' = index_name e) t.

Definition names_unique (t : gmap Z E) : Prop :=
  map_Forall (λ k e, ¬ names_taken t k e) t.

(** "INSERT INTO entries(inode, ...) VALUES(?, ...)
     ON CONFLICT(inode) DO UPDATE SET name=excluded.name, ... ;"
    with every column other than [inode] in the SET list: the row [i]
    becomes [e], whether it existed or not. The ON CONFLICT clause speaks
    of [inode] only, so a clash on the index [names] aborts the
    statement with SQLITE_CONSTRAINT. *)
Definition upsert_entries : stmt_sql (Z * E) :=
  {| compiles := λ d, bool_decide (is_Some (entries d));
     run := λ '(i, e) d,
       match entries d with
       | None => (d, SQLITE_ERROR)
       | Some t =>
           if decide (names t = true ∧ names_taken (rows t) i e) then (d, SQLITE_CONSTRAINT)
           else ({| files := files d;
                    extended_attributes := extended_attributes d;
                    entries := Some {| rows := <[i := e]> (rows t);
                                       names := names t; listing := listing t |} |},
                 SQLITE_OK)
       end |}.

(** "INSERT INTO files(inode, ...) VALUES(?, ...)
     ON CONFLICT(inode) DO UPDATE SET ... ;" with every other column in
    the SET list. *)
Definition upsert_files : stmt_sql (Z * F) :=
  {| compiles := λ d, bool_decide (is_Some (files d));
     run := λ '(i, f) d,
       match files d with
       | None => (d, SQLITE_ERROR)
       | Some t => ({| files := Some (<[i := f]> t);
                       extended_attributes := extended_attributes d;
                       entries := entries d |}, SQLITE_OK)
       end |}.

(** "DELETE FROM entries WHERE <cond>", [cond] on the pair of the key
    [inode] and the rest of the row. *)
Definition delete_from_entries (cond : Z * E → Prop) `{!∀ x, Decision (cond x)} : sql :=
  λ d, match entries d with
       | None => (d, SQLITE_ERROR)
       | Some t => ({| files := files d;
                       extended_attributes := extended_attributes d;
                       entries := Some {| rows := filter (λ x, ¬ cond x) (rows t);
                                          names := names t; listing := listing t |} |},
                    SQLITE_OK)
       end.

(** "DELETE FROM files WHERE <cond>" *)
Definition delete_from_files (cond : Z * F → Prop) `{!∀ x, Decision (cond x)} : sql :=
  λ d, match files d with
       | None => (d, SQLITE_ERROR)
       | Some t => ({| files := Some (filter (λ x, ¬ cond x) t);
                       extended_attributes := extended_attributes d;
                       entries := entries d |}, SQLITE_OK)
       end.

(** "DELETE FROM files WHERE inode = ?;" *)
Definition delete_files_inode : stmt_sql Z :=
  {| compiles := λ d, bool_decide (is_Some (files d));
     run := λ inode, delete_from_files (λ '(k, _), k = inode) |}.

(** "DELETE FROM entries WHERE inode = ?1 OR parent_inode = ?1;" *)
Definition delete_entries_inode_or_parent : stmt_sql Z :=
  {| compiles := λ d, bool_decide (is_Some (entries d));
     run := λ inode, delete_from_entries (λ '(k, e), k = inode ∨ index_parent_inode e = inode) |}.

(** "DELETE FROM extended_attributes" *)
Definition delete_from_extended_attributes : sql :=
  λ d, match extended_attributes d with
       | None => (d, SQLITE_ERROR)
       | Some _ => ({| files := files d;
                       extended_attributes := Some ∅;
                       entries := entries d |}, SQLITE_OK)
       end.

(** "CREATE TABLE IF NOT EXISTS files (...);" *)
Definition create_table_files : sql :=
  λ d, ({| files := Some (default ∅ (files d));
           extended_attributes := extended_attributes d;
           entries := entries d |}, SQLITE_OK).

(** "CREATE TABLE IF NOT EXISTS extended_attributes (...);" *)
Definition create_table_extended_attributes : sql :=
  λ d, ({| files := files d;
           extended_attributes := Some (default ∅ (extended_attributes d));
           entries := entries d |}, SQLITE_OK).

(** "CREATE TABLE IF NOT EXISTS entries (...);" *)
Definition create_table_entries : sql :=
  λ d, ({| files := files d;
           extended_attributes := extended_attributes d;
           entries := Some (default {| rows := ∅; names := false; listing := false |}
                                    (entries d)) |}, SQLITE_OK).

(** "CREATE UNIQUE INDEX IF NOT EXISTS names ON entries(parent_inode, name);"
    Building the index fails when two rows share the pair. *)
Definition create_index_names : sql :=
  λ d, match entries d with
       | None => (d, SQLITE_ERROR)
       | Some t =>
           if decide (names t = false ∧ ¬ names_unique (rows t)) then (d, SQLITE_CONSTRAINT)
           else ({| files := files d;
                    extended_attributes := extended_attributes d;
                    entries := Some {| rows := rows t; names := true; listing := listing t |} |},
                 SQLITE_OK)
       end.

(** "CREATE INDEX IF NOT EXISTS listing ON entries(parent_inode, inode, name);" *)
Definition create_index_listing : sql :=
  λ d, match entries d with
       | None => (d, SQLITE_ERROR)
       | Some t =>
           ({| files := files d;
               extended_attributes := extended_attributes d;
               entries := Some {| rows := rows t; names := names t; listing := true |} |},
            SQLITE_OK)
       end.

(** "INSERT INTO entries(inode, name, parent_inode) VALUES (1, '/', 1)
     ON CONFLICT DO NOTHING;"  [root] is the row with the column defaults
    of the table. With no conflict target, a clash on the primary key or
    on the index [names] both leave the table as it is, with SQLITE_OK. *)
Definition insert_root (root : E) : sql :=
  λ d, match entries d with
       | None => (d, SQLITE_ERROR)
       | Some t =>
           if decide (is_Some (rows t !! 1) ∨ (names t = true ∧ names_taken (rows t) 1 root))
           then (d, SQLITE_OK)
           else ({| files := files d;
                    extended_attributes := extended_attributes d;
                    entries := Some {| rows := <[1 := root]> (rows t);
                                       names := names t; listing := listing t |} |},
                 SQLITE_OK)
       end.

(** The index [names], when it exists, holds: no two rows share the pair
    (parent_inode, name). *)
Definition names_hold (fs : option database) : Prop :=
  match fs with
  | Some d => match entries d with
              | Some t => names t = true → names_unique (rows t)
              | None => True
              end
  | None => True
  end.

(** The index [names] exists. *)
Definition names_indexed (fs : option database) : Prop :=
  match fs with
  | Some d => match entries d with Some t => names t = true | None => False end
  | None => False
  end.

(** *** Straight-line code with [goto bailout] *)

(** A piece of a function body: it works on the open connection and
    either falls through with a value or jumps to the exit label with
    the [rc] it has set. *)
Definition body (A : Type) : Type := sqlite3 → sqlite3 * (Z + A).

#[export] Instance body_ret : MRet body := λ A a c, (c, inr a).
#[export] Instance body_bind : MBind body := λ A B k m c,
  match m c with
  | (c', inl rc) => (c', inl rc)
  | (c', inr a) => k a c'
  end.
Definition goto_bailout {A} (rc : Z) : body A := λ c, (c, inl rc).
Definition call {A} (f : sqlite3 → sqlite3 * A) : body A :=
  λ c, let '(c', a) := f c in (c', inr a).
Definition prepare {P} (s : stmt_sql P) : body (Z * option (stmt_sql P)) :=
  λ c, (c, inr (sqlite3_prepare_v2 c s)).

(** [if (cond) { rc = code; goto bailout; }] *)
Definition bail_if (cond : Prop) `{Decision cond} (code : Z) : body unit :=
  if decide cond then goto_bailout code else mret tt.

(** The [rc] with which control reaches the exit label. *)
Definition at_bailout (m : body Z) (c : sqlite3) : sqlite3 * Z :=
  match m c with
  | (c', inl rc) | (c', inr rc) => (c', rc)
  end.

(** A piece of code that leaves the transaction state of the connection
    alone: it neither begins nor ends a transaction. *)
Definition keeps_journal {A} (m : body A) : Prop :=
  ∀ c, journal (m c).1 = journal c.

(** A shape check only looks at the descriptor. *)
Definition pure_check (check : TupleDesc → body unit) : Prop :=
  ∀ td c, ∃ r, check td c = (c, r).

(** *** Code shared by the exported functions *)

(** [rc = (bind || bind || ...)] over [n] calls on the same handle. *)
Fixpoint bind_all {P} (stmt : option (stmt_sql P)) (n : nat) : Z :=
  match n with
  | O => 0
  | S n' => c_or (sqlite3_bind stmt) (bind_all stmt n')
  end.

(** [E(...)] after a failed [sqlite3_open_v2] leaves the function. *)
Definition open_existing (fs : option database) (k : sqlite3 → option database * outcome)
  : option database * outcome :=
  match sqlite3_open_v2 fs with
  | (_, Some db) => k db
  | (_, None) => (fs, Raised)
  end.

(** [SQLITE_FS_CHECK_TYPE(p, t, n)]:
    [if (TupleDescAttr(tupdesc, p)->atttypid != t) { rc = 4; goto bailout_spi; }] *)
Definition SQLITE_FS_CHECK_TYPE (td : TupleDesc) (p : nat) (t : Oid) : body unit :=
  bail_if (TupleDescAttr td p ≠ t) 4.

(** *** The loop over the rows of the query *)

(** [x = DatumGet...(SPI_getbinval(..., fnumber, &isnull)); if (isnull) goto bailout_spi;]
    with [rc = 1] since the top of the loop body. The accessor is applied
    to the word that [SPI_getbinval] returns, and the flag is looked at
    afterwards. *)
Definition required_column {A B} (get : Datum → option B) (t : HeapTuple) (td : TupleDesc)
    (fnumber : nat) (next : B → fetched A) : fetched A :=
  let '(d, isnull) := SPI_getbinval t td fnumber in
  match get d with
  | None => died
  | Some x => if isnull then leaves 1 else next x
  end.

(** [x = DatumGet...(SPI_getbinval(..., fnumber, &x_isnull));] for a column
    that may be null: the accessor is applied all the same, and the flag is
    kept for the bind. *)
Definition optional_column {A B} (get : Datum → option B) (t : HeapTuple) (td : TupleDesc)
    (fnumber : nat) (next : option B → fetched A) : fetched A :=
  let '(d, isnull) := SPI_getbinval t td fnumber in
  match get d with
  | None => died
  | Some x => next (if isnull then None else Some x)
  end.

(** A piece of code in which the backend can die: [None] when it does. *)
Definition mortal (A : Type) : Type := sqlite3 → option (sqlite3 * (Z + A)).

(** The [rc] with which control has reached the exit label. *)
Definition exit_code (r : Z + Z) : Z :=
  match r with inl rc | inr rc => rc end.

(** [for (i = 0; i < SPI_processed; i++) { ... }] over [SPI_tuptable->vals]:
    each iteration reads its row and then, with the values, binds and
    steps; [rc] is what the last completed iteration left, or the value on
    entry. *)
Fixpoint for_each_row (row_body : HeapTuple → fetched (body Z)) (rows : list HeapTuple)
    (rc : Z) (c : sqlite3) : option (sqlite3 * (Z + Z)) :=
  match rows with
  | [] => Some (c, inr rc)
  | t :: rest =>
      match row_body t with
      | died => None
      | leaves rc' => Some (c, inl rc')
      | got write =>
          match write c with
          | (c', inl rc') => Some (c', inl rc')
          | (c', inr rc') => for_each_row row_body rest rc' c'
          end
      end
  end.

(** The statements of a bulk loader between BEGIN and the loop: prepare
    the upsert, connect to SPI, run the query, check the shape of the
    row-set. *)
Definition before_the_loop {P} (s : stmt_sql P) (check : TupleDesc → body unit)
    (q : spi_result) : body (option (stmt_sql P)) :=
  '(rc, stmt) ← prepare s;
  bail_if (rc ≠ SQLITE_OK) 1;;
  let rc := connect_rc q in
  bail_if (rc ≠ SPI_OK_CONNECT) rc;;
  let rc := execute_rc q in
  bail_if (rc ≠ SPI_OK_SELECT) 2;;
  check (tupdesc (SPI_tuptable q));;
  mret stmt.

(** The statements of a bulk loader between BEGIN and the exit labels.
    The two loaders differ in the statement, the shape check and the loop
    body only. *)
Definition loader_statements {P} (s : stmt_sql P) (check : TupleDesc → body unit)
    (row_body : option (stmt_sql P) → TupleDesc → HeapTuple → fetched (body Z))
    (q : spi_result) : mortal Z :=
  λ c, match before_the_loop s check q c with
       | (c', inl rc) => Some (c', inl rc)
       | (c', inr stmt) =>
           for_each_row (row_body stmt (tupdesc (SPI_tuptable q)))
             (vals (SPI_tuptable q)) (execute_rc q) c'
       end.

(** What the next connection finds in the file of a process that died:
    the engine rolls the interrupted transaction back. *)
Definition process_killed (c : sqlite3) : option database :=
  Some (default (main c) (journal c)).

(** What both loaders do around their statements: open (creating the file
    if need be), BEGIN, the statements, then ROLLBACK or COMMIT on [rc], and
    the return value taken from the result of that last statement. *)
Definition in_transaction (statements : mortal Z) (fs : option database)
  : option database * outcome :=
  let '(rc, db) := sqlite3_open fs in
  if decide (rc ≠ 0) then (fs, Ret false)
  else
    let '(db, rc) := sqlite3_exec_txn BEGIN db in
    if decide (rc ≠ SQLITE_OK) then (sqlite3_close db, Ret (rc_bool 1))
    else
      match statements db with
      | None => (process_killed db, Crashed)
      | Some (db, r) =>
          let rc := exit_code r in
          let '(db, rc) :=
            sqlite3_exec_txn (if decide (rc ≠ 0) then ROLLBACK else COMMIT) db in
          let rc := if decide (rc ≠ SQLITE_OK) then 1 else 0 in
          (sqlite3_close db, Ret (rc_bool rc))
      end.

(** What the surroundings of a call make of [sqlite3_open] and of the
    transaction statements: [SQLITE_OK] where they let the engine do its
    work, the code of the failure where they do not (a directory that
    cannot be written, a file locked by another connection, a full
    disk). *)
Record surroundings : Type := mkSurroundings {
  open_rc : Z;    (* sqlite3_open *)
  begin_rc : Z;   (* sqlite3_exec "BEGIN TRANSACTION;" *)
  end_rc : Z      (* sqlite3_exec "ROLLBACK;" or "COMMIT;" *)
}.

Definition undisturbed : surroundings :=
  {| open_rc := SQLITE_OK; begin_rc := SQLITE_OK; end_rc := SQLITE_OK |}.

(** One of the three calls fails. *)
Definition engine_fails (s : surroundings) : Prop :=
  open_rc s ≠ SQLITE_OK ∨ begin_rc s ≠ SQLITE_OK ∨ end_rc s ≠ SQLITE_OK.

(** [sqlite3_open] in its surroundings: a failed open returns its code and
    leaves the file alone. *)
Definition sqlite3_open_in (s : surroundings) (fs : option database) : Z * sqlite3 :=
  if decide (open_rc s ≠ SQLITE_OK)
  then (open_rc s, {| main := default empty_database fs; journal := None |})
  else sqlite3_open fs.

(** A transaction statement in its surroundings: a failed statement
    returns its code and leaves the connection as it is. *)
Definition sqlite3_exec_txn_in (failure : Z) (cmd : txn_cmd) (c : sqlite3) : sqlite3 * Z :=
  if decide (failure ≠ SQLITE_OK) then (c, failure) else sqlite3_exec_txn cmd c.

(** The shell of both loaders once more, with the three calls in their
    surroundings: a failed open returns [false] at once; a failed BEGIN
    sets [rc = 1] and goes to the close; the code of ROLLBACK or COMMIT is
    the one that decides the value returned. *)
Definition in_transaction_in (s : surroundings) (statements : mortal Z)
    (fs : option database) : option database * outcome :=
  let '(rc, db) := sqlite3_open_in s fs in
  if decide (rc ≠ 0) then (fs, Ret false)
  else
    let '(db, rc) := sqlite3_exec_txn_in (begin_rc s) BEGIN db in
    if decide (rc ≠ SQLITE_OK) then (sqlite3_close db, Ret (rc_bool 1))
    else
      match statements db with
      | None => (process_killed db, Crashed)
      | Some (db, r) =>
          let rc := exit_code r in
          let '(db, rc) :=
            sqlite3_exec_txn_in (end_rc s)
              (if decide (rc ≠ 0) then ROLLBACK else COMMIT) db in
          let rc := if decide (rc ≠ SQLITE_OK) then 1 else 0 in
          (sqlite3_close db, Ret (rc_bool rc))
      end.

(** A bulk loader in its surroundings: the argument checks, then the
    shell around the statements of the loader. *)
Definition loader_in (s : surroundings) (statements : mortal Z) (a : loader_args)
    (fs : option database) : option database * outcome :=
  if decide (ld_nargs a ≠ 2) then (fs, Raised)
  else if isnull (ld_db_path a) || isnull (ld_query a) then (fs, Raised)
  else in_transaction_in s statements fs.

(** Statements in which the backend does not die and which leave the
    transaction state of the connection alone. *)
Definition mortal_keeps_journal {A} (m : mortal A) : Prop :=
  ∀ c c' r, m c = Some (c', r) → journal c' = journal c.

(** Statements that, when the backend survives them, end with [rc] not 0
    or without having written. *)
Definition writes_nothing (statements : mortal Z) : Prop :=
  ∀ c c' r, statements c = Some (c', r) → exit_code r ≠ 0 ∨ c' = c.

(** Statements that the backend survives. *)
Definition survives {A} (m : mortal A) : Prop :=
  ∀ c, is_Some (m c).

(** *** Properties of the content kept by a piece of code *)

(** A statement that keeps a property of the content. *)
Definition sql_keeps (I : database → Prop) (s : sql) : Prop :=
  ∀ d, I d → I (s d).1.

(** A piece of a function body that keeps a property of the content the
    connection sees. *)
Definition keeps_content {A} (I : database → Prop) (m : body A) : Prop :=
  ∀ c, I (main c) → I (main (m c).1).

Definition mortal_keeps_content {A} (I : database → Prop) (m : mortal A) : Prop :=
  ∀ c c' r, I (main c) → m c = Some (c', r) → I (main c').

(** The store file after a call: the file as it was (the call left through
    [E(...)] before opening it), or a file whose content has the property. *)
Definition left_with (I : database → Prop) (fs fs' : option database) : Prop :=
  fs' = fs ∨ ∃ d, fs' = Some d ∧ I d.

(** Two states of the store file with the same tables [files] and
    [extended_attributes]; a missing file counts as an empty one, which is
    what [sqlite3_open] makes of it. *)
Definition same_files (fs fs' : option database) : Prop :=
  files (default empty_database fs) = files (default empty_database fs')
  ∧ extended_attributes (default empty_database fs)
    = extended_attributes (default empty_database fs').

(** Two states of the store file with the same table [entries]. *)
Definition same_entries (fs fs' : option database) : Prop :=
  entries (default empty_database fs) = entries (default empty_database fs').

End Engine.
Arguments entries_table : clear implicits.
Arguments database : clear implicits.
Arguments sqlite3 : clear implicits.
Arguments sql : clear implicits.
Arguments stmt_sql : clear implicits.
Arguments body : clear implicits.
Arguments mortal : clear implicits.
Arguments compiles {E F P} _ _.
Arguments run {E F P} _ _ _.
End Sqlite.

(** * src/pg.c *)

Module Pg.
Import Sqlite.

(** ** Rows *)

(** A row of [entries], without its key [inode]. *)
Record entry : Type := mkEntry {
  name : string;
  parent_inode : Z;
  ctime : Z;
  mtime : Z;
  nlink : Z;
  size : Z;
  is_dir : Z
}.

(** A row of [files], without its key [inode]; [None] is SQL NULL. *)
Record file : Type := mkFile {
  mountpoint : option string;
  rel_path : option string;
  header : option (list Byte.byte);
  payload_size : Z;
  prepend : option (list Byte.byte);
  append : option (list Byte.byte)
}.

#[global] Instance entry_row : EntryRow entry :=
  {| index_parent_inode := parent_inode; index_name := name |}.

Abbreviation database := (Sqlite.database entry file).
Abbreviation sqlite3 := (Sqlite.sqlite3 entry file).
Abbreviation sql := (Sqlite.sql entry file).
Abbreviation body := (Sqlite.body entry file).
Abbreviation stmt_sql := (Sqlite.stmt_sql entry file).

(** The row "VALUES (1, '/', 1)" with the DEFAULTs of the other columns. *)
Definition root_entry : entry :=
  {| name := "/"; parent_inode := 1; ctime := 0; mtime := 0; nlink := 1; size := 0; is_dir := 1 |}.

(** ** pg_sqlite_fs_create *)

(** The six statements, each followed by
    [if (rc != SQLITE_OK) { rc = 2; goto bailout; }]. *)
Definition create_statements : body Z :=
  rc ← call (sqlite3_exec create_table_files);
  bail_if (rc ≠ SQLITE_OK) 2;;
  rc ← call (sqlite3_exec create_table_extended_attributes);
  bail_if (rc ≠ SQLITE_OK) 2;;
  rc ← call (sqlite3_exec create_table_entries);
  bail_if (rc ≠ SQLITE_OK) 2;;
  rc ← call (sqlite3_exec create_index_names);
  bail_if (rc ≠ SQLITE_OK) 2;;
  rc ← call (sqlite3_exec create_index_listing);
  bail_if (rc ≠ SQLITE_OK) 2;;
  rc ← call (sqlite3_exec (insert_root root_entry));
  bail_if (rc ≠ SQLITE_OK) 2;;
  mret 0.

(** pg.c 146-273. Argument checks, [sqlite3_open], the statements,
    [sqlite3_close]. *)
Definition pg_sqlite_fs_create (a : path_args) (fs : option database)
  : option database * outcome :=
  if decide (nargs a ≠ 1) then (fs, Raised)
  else if isnull (db_path a) then (fs, Raised)
  else
    let '(rc, db) := sqlite3_open fs in
    let '(db, rc) :=
      if decide (rc ≠ 0) then (db, 1) else at_bailout create_statements db in
    (sqlite3_close db, Ret (rc_bool rc)).

(** ** pg_sqlite_fs_remove *)

(** pg.c 276-296. [unlink(db_path)] fails on a missing file. *)
Definition pg_sqlite_fs_remove (a : path_args) (fs : option database)
  : option database * outcome :=
  if decide (nargs a ≠ 1) then (fs, Raised)
  else if isnull (db_path a) then (fs, Raised)
  else match fs with
       | Some _ => (None, Ret true)
       | None => (None, Ret false)
       end.

(** ** pg_sqlite_fs_insert_file *)

Record insert_file_args : Type := mkInsertFileArgs {
  if_nargs : Z;
  if_db_path : NullableDatum string;
  if_inode : NullableDatum Z;
  if_mountpoint : NullableDatum string;
  if_rel_path : NullableDatum string;
  if_header : NullableDatum (list Byte.byte);
  if_payload_size : NullableDatum Z;
  if_prepend : NullableDatum (list Byte.byte);
  if_append : NullableDatum (list Byte.byte)
}.

(** pg.c 347-402: prepare, the seven binds joined by [||], step. *)
Definition insert_file_statements (a : insert_file_args) : body Z :=
  '(rc, stmt) ← prepare upsert_files;
  bail_if (rc ≠ SQLITE_OK) 1;;
  let rc := bind_all stmt 7 in
  bail_if (rc ≠ SQLITE_OK) 2;;
  rc ← call (sqlite3_step stmt
                   (PG_GETARG_INT64 (if_inode a),
                    {| mountpoint := null_or_value (if_mountpoint a);
                       rel_path := null_or_value (if_rel_path a);
                       header := null_or_value (if_header a);
                       payload_size := if isnull (if_payload_size a) then 0
                                       else PG_GETARG_INT64 (if_payload_size a);
                       prepend := null_or_value (if_prepend a);
                       append := null_or_value (if_append a) |}));
  bail_if (rc ≠ SQLITE_DONE) 3;;
  mret 0.

(** pg.c 299-408. *)
Definition pg_sqlite_fs_insert_file (a : insert_file_args) (fs : option database)
  : option database * outcome :=
  if decide (if_nargs a ≠ 8) then (fs, Raised)
  else if isnull (if_db_path a) || isnull (if_inode a) then (fs, Raised)
  else
    let '(rc, db) := sqlite3_open fs in
    let '(db, rc) :=
      if decide (rc ≠ 0) then (db, 1) else at_bailout (insert_file_statements a) db in
    (sqlite3_close db, Ret (rc_bool rc)).

(** ** pg_sqlite_fs_insert_entry *)

Record insert_entry_args : Type := mkInsertEntryArgs {
  ie_nargs : Z;
  ie_db_path : NullableDatum string;
  ie_inode : NullableDatum Z;
  ie_name : NullableDatum string;
  ie_parent_inode : NullableDatum Z;
  ie_ctime : NullableDatum Z;
  ie_mtime : NullableDatum Z;
  ie_nlink : NullableDatum Z;
  ie_size : NullableDatum Z;
  ie_is_dir : NullableDatum bool
}.

(** The row bound to the statement: arguments 4 to 8 are read without a
    look at their null flag. *)
Definition entry_of_args (a : insert_entry_args) : Z * entry :=
  (PG_GETARG_INT64 (ie_inode a),
   {| name := value (ie_name a);
      parent_inode := PG_GETARG_INT64 (ie_parent_inode a);
      ctime := PG_GETARG_INT64 (ie_ctime a);
      mtime := PG_GETARG_INT64 (ie_mtime a);
      nlink := PG_GETARG_INT64 (ie_nlink a);
      size := PG_GETARG_INT64 (ie_size a);
      is_dir := if value (ie_is_dir a) then 1 else 0 |}).

(** pg.c 452-499: prepare, [rc = rc || (the eight binds)], step. *)
Definition insert_entry_statements (a : insert_entry_args) : body Z :=
  '(rc, stmt) ← prepare upsert_entries;
  bail_if (rc ≠ SQLITE_OK) 1;;
  let rc := c_or rc (bind_all stmt 8) in
  bail_if (rc ≠ SQLITE_OK) 2;;
  rc ← call (sqlite3_step stmt (entry_of_args a));
  bail_if (rc ≠ SQLITE_DONE) 3;;
  mret 0.

(** pg.c 411-505. *)
Definition pg_sqlite_fs_insert_entry (a : insert_entry_args) (fs : option database)
  : option database * outcome :=
  if decide (ie_nargs a < 4) then (fs, Raised)
  else if isnull (ie_db_path a) || isnull (ie_inode a)
          || isnull (ie_name a) || isnull (ie_parent_inode a) then (fs, Raised)
  else
    let '(rc, db) := sqlite3_open fs in
    let '(db, rc) :=
      if decide (rc ≠ 0) then (db, 1) else at_bailout (insert_entry_statements a) db in
    (sqlite3_close db, Ret (rc_bool rc)).

(** ** pg_sqlite_fs_delete_file *)

(** pg.c 529-548. The result of [sqlite3_prepare_v2] is not looked at; a NULL handle
    shows in the [sqlite3_bind_int64] that follows. After the step, [rc] is
    set to 0 whatever the step returned. *)
Definition delete_file_statements (inode : Z) : body Z :=
  '(_, stmt) ← prepare delete_files_inode;
  let rc := sqlite3_bind stmt in
  bail_if (rc ≠ SQLITE_OK) rc;;
  rc ← call (sqlite3_step stmt inode);
  let rc := if decide (rc ≠ SQLITE_DONE) then 1 else rc in
  mret 0.

(** pg.c 508-554. *)
Definition pg_sqlite_fs_delete_file (inode : Z) (fs : option database)
  : option database * outcome :=
  open_existing fs (λ db,
    let '(db, rc) := at_bailout (delete_file_statements inode) db in
    (sqlite3_close db, Ret (rc_bool rc))).

(** ** pg_sqlite_fs_delete_entry *)

(** pg.c 573-600. [while(1)] around [sqlite3_step]: a DELETE returns no row, so the first
    step is SQLITE_DONE or an error, and the loop body runs once. *)
Definition delete_entry_statements (inode : Z) : body Z :=
  '(_, stmt) ← prepare delete_entries_inode_or_parent;
  let rc := sqlite3_bind stmt in
  bail_if (rc ≠ SQLITE_OK) rc;;
  rc ← call (sqlite3_step stmt inode);
  bail_if (rc = SQLITE_DONE) 0;;
  bail_if (rc ≠ SQLITE_ROW) 1;;
  mret 1.

(** pg.c 556-606. *)
Definition pg_sqlite_fs_delete_entry (inode : Z) (fs : option database)
  : option database * outcome :=
  open_existing fs (λ db,
    let '(db, rc) := at_bailout (delete_entry_statements inode) db in
    (sqlite3_close db, Ret (rc_bool rc))).

(** ** pg_sqlite_fs_truncate_table and its three callers *)

(** pg.c 609-636: open without the create flag, one [sqlite3_exec], and
    [(rc == SQLITE_OK) ? true : false]. *)
Definition pg_sqlite_fs_truncate_table (s : sql) (fs : option database)
  : option database * outcome :=
  open_existing fs (λ db,
    let '(db, rc) := sqlite3_exec s db in
    (sqlite3_close db, Ret (bool_decide (rc = SQLITE_OK)))).

(** pg.c 638-643: "DELETE FROM entries WHERE inode > 1" *)
Definition pg_sqlite_fs_truncate_entries : option database → option database * outcome :=
  pg_sqlite_fs_truncate_table (delete_from_entries (λ '(inode, _), inode > 1)).

(** pg.c 645-651: "DELETE FROM files" *)
Definition pg_sqlite_fs_truncate_files : option database → option database * outcome :=
  pg_sqlite_fs_truncate_table (delete_from_files (λ _, True)).

(** pg.c 653-658: "DELETE FROM extended_attributes" *)
Definition pg_sqlite_fs_truncate_attributes : option database → option database * outcome :=
  pg_sqlite_fs_truncate_table delete_from_extended_attributes.

(** ** pg_sqlite_fs_exec *)

Record exec_args : Type := mkExecArgs {
  ex_nargs : Z;
  ex_db_path : NullableDatum string;
  ex_sql : NullableDatum string
}.

Section RawExec.
(** What the engine makes of a statement given as text. *)
Variable meaning : string → sql.

(** pg.c 698-707. *)
Definition exec_statements (a : exec_args) : body Z :=
  rc ← call (sqlite3_exec (meaning (value (ex_sql a))));
  bail_if (rc ≠ SQLITE_OK) 2;;
  mret 0.

(** pg.c 661-713. *)
Definition pg_sqlite_fs_exec (a : exec_args) (fs : option database)
  : option database * outcome :=
  if decide (ex_nargs a ≠ 2) then (fs, Raised)
  else if isnull (ex_db_path a) || isnull (ex_sql a) then (fs, Raised)
  else
    let '(rc, db) := sqlite3_open fs in
    let '(db, rc) :=
      if decide (rc ≠ 0) then (db, 1) else at_bailout (exec_statements a) db in
    (sqlite3_close db, Ret (rc_bool rc)).
End RawExec.

(** ** The bulk loaders *)

(** *** pg_sqlite_fs_insert_files *)

(** pg.c 861-890: the binds and the step of one iteration, with the
    values read. *)
Definition insert_files_write (stmt : option (stmt_sql (Z * file))) (row : Z * file)
  : body Z :=
  let rc := bind_all stmt 7 in
  bail_if (rc ≠ SQLITE_OK) 6;;
  rc ← call (sqlite3_step stmt row);
  bail_if (rc ≠ SQLITE_DONE) 3;;
  mret 0.

(** pg.c 825-891: one iteration of the loop. The three required columns
    are read and tested one after the other; header, prepend and append
    keep their own null flags; a null payload_size becomes 0. Mountpoint,
    rel_path, header, prepend and append go through [DatumGetTextPP] or
    [DatumGetByteaP] whatever their flag says. *)
Definition insert_files_row (stmt : option (stmt_sql (Z * file))) (td : TupleDesc)
    (t : HeapTuple) : fetched (body Z) :=
  required_column (by_value DatumGetUInt64) t td 1 (λ inode,
  required_column DatumGetTextPP t td 2 (λ mountpoint,
  required_column DatumGetTextPP t td 3 (λ path,
  optional_column DatumGetByteaP t td 4 (λ header,
  optional_column (by_value DatumGetUInt64) t td 5 (λ payload_size,
  optional_column DatumGetByteaP t td 6 (λ prepend,
  optional_column DatumGetByteaP t td 7 (λ append,
  got (insert_files_write stmt
         (to_int64 inode,
          {| mountpoint := Some mountpoint;
             rel_path := Some path;
             header := header;
             payload_size := from_option to_int64 0 payload_size;
             prepend := prepend;
             append := append |}))))))))).

(** pg.c 809-822: the shape check, the column count against 4 and then
    seven types. *)
Definition insert_files_check (td : TupleDesc) : body unit :=
  bail_if (natts td ≠ 4) 3;;
  SQLITE_FS_CHECK_TYPE td 0 INT8OID;;
  SQLITE_FS_CHECK_TYPE td 1 TEXTOID;;
  SQLITE_FS_CHECK_TYPE td 2 TEXTOID;;
  SQLITE_FS_CHECK_TYPE td 3 BYTEAOID;;
  SQLITE_FS_CHECK_TYPE td 4 INT8OID;;
  SQLITE_FS_CHECK_TYPE td 5 BYTEAOID;;
  SQLITE_FS_CHECK_TYPE td 6 BYTEAOID.

(** pg.c 768-891. *)
Definition insert_files_statements : spi_result → Sqlite.mortal entry file Z :=
  loader_statements upsert_files insert_files_check insert_files_row.

(** pg.c 727-918. *)
Definition pg_sqlite_fs_insert_files (a : loader_args) (q : spi_result)
    (fs : option database) : option database * outcome :=
  if decide (ld_nargs a ≠ 2) then (fs, Raised)
  else if isnull (ld_db_path a) || isnull (ld_query a) then (fs, Raised)
  else in_transaction (insert_files_statements q) fs.

(** *** pg_sqlite_fs_insert_entries *)

(** pg.c 1073-1100: the binds and the step of one iteration, with the
    values read. *)
Definition insert_entries_write (stmt : option (stmt_sql (Z * entry))) (row : Z * entry)
  : body Z :=
  let rc := bind_all stmt 8 in
  bail_if (rc ≠ SQLITE_OK) 6;;
  rc ← call (sqlite3_step stmt row);
  bail_if (rc ≠ SQLITE_DONE) 3;;
  mret 0.

(** pg.c 1024-1101: one iteration of the loop. The eight columns are read
    and tested one after the other; the name goes through [DatumGetTextPP]
    before its flag is tested. [nlink] is an [int64] filled from
    [DatumGetUInt32] and bound with [sqlite3_bind_int]. *)
Definition insert_entries_row (stmt : option (stmt_sql (Z * entry))) (td : TupleDesc)
    (t : HeapTuple) : fetched (body Z) :=
  required_column (by_value DatumGetUInt64) t td 1 (λ inode,
  required_column DatumGetTextPP t td 2 (λ name,
  required_column (by_value DatumGetUInt64) t td 3 (λ parent_inode,
  required_column (by_value DatumGetUInt64) t td 4 (λ ctime,
  required_column (by_value DatumGetUInt64) t td 5 (λ mtime,
  required_column (by_value DatumGetUInt32) t td 6 (λ nlink,
  required_column (by_value DatumGetUInt64) t td 7 (λ size,
  required_column (by_value DatumGetBool) t td 8 (λ is_dir,
  got (insert_entries_write stmt
         (to_int64 inode,
          {| name := name;
             parent_inode := to_int64 parent_inode;
             ctime := to_int64 ctime;
             mtime := to_int64 mtime;
             nlink := to_int32 (to_int64 nlink);
             size := to_int64 size;
             is_dir := if is_dir then 1 else 0 |})))))))))).

(** pg.c 1008-1022: the shape check, the column count against 9 and then
    eight types; position 8 is not looked at. *)
Definition insert_entries_check (td : TupleDesc) : body unit :=
  bail_if (natts td ≠ 9) 3;;
  SQLITE_FS_CHECK_TYPE td 0 INT8OID;;
  SQLITE_FS_CHECK_TYPE td 1 TEXTOID;;
  SQLITE_FS_CHECK_TYPE td 2 INT8OID;;
  SQLITE_FS_CHECK_TYPE td 3 INT8OID;;
  SQLITE_FS_CHECK_TYPE td 4 INT8OID;;
  SQLITE_FS_CHECK_TYPE td 5 INT4OID;;
  SQLITE_FS_CHECK_TYPE td 6 INT8OID;;
  SQLITE_FS_CHECK_TYPE td 7 BOOLOID.

(** pg.c 964-1101. *)
Definition insert_entries_statements : spi_result → Sqlite.mortal entry file Z :=
  loader_statements upsert_entries insert_entries_check insert_entries_row.

(** pg.c 922-1128. *)
Definition pg_sqlite_fs_insert_entries (a : loader_args) (q : spi_result)
    (fs : option database) : option database * outcome :=
  if decide (ld_nargs a ≠ 2) then (fs, Raised)
  else if isnull (ld_db_path a) || isnull (ld_query a) then (fs, Raised)
  else in_transaction (insert_entries_statements q) fs.

(** ** Reading the store *)

(** The rows of [entries] and of [files] in a store file; a missing file
    and a missing table have none. *)
Definition entries_of (fs : option database) : gmap Z entry :=
  match fs with
  | Some d => match entries d with Some t => rows t | None => ∅ end
  | None => ∅
  end.

Definition files_of (fs : option database) : gmap Z file :=
  match fs with
  | Some d => default ∅ (files d)
  | None => ∅
  end.

End Pg.

(** * src/pg_sqlite_fs.c *)

(** The older revision: [entries] carries [decrypted_size], [files] has the
    three columns (inode, path, header), and there is no
    [extended_attributes] table. Its delete, truncate and exec functions are
    those of [src/pg.c]. *)

Module PgSqliteFs.
Import Sqlite.

(** A row of [entries], without its key [inode]. *)
Record entry : Type := mkEntry {
  name : string;
  parent_inode : Z;
  decrypted_size : option string;
  ctime : Z;
  mtime : Z;
  nlink : Z;
  size : Z;
  is_dir : Z
}.

(** A row of [files], without its key [inode]; both columns are NOT NULL. *)
Record file : Type := mkFile {
  path : string;
  header : list Byte.byte
}.

#[global] Instance entry_row : EntryRow entry :=
  {| index_parent_inode := parent_inode; index_name := name |}.

Abbreviation database := (Sqlite.database entry file).
Abbreviation sqlite3 := (Sqlite.sqlite3 entry file).
Abbreviation sql := (Sqlite.sql entry file).
Abbreviation body := (Sqlite.body entry file).
Abbreviation stmt_sql := (Sqlite.stmt_sql entry file).

Definition root_entry : entry :=
  {| name := "/"; parent_inode := 1; decrypted_size := None;
     ctime := 0; mtime := 0; nlink := 1; size := 0; is_dir := 1 |}.

(** ** pg_sqlite_fs_create *)

(** pg_sqlite_fs.c 178-243: the five statements. *)
Definition create_statements : body Z :=
  rc ← call (sqlite3_exec create_table_files);
  bail_if (rc ≠ SQLITE_OK) 2;;
  rc ← call (sqlite3_exec create_table_entries);
  bail_if (rc ≠ SQLITE_OK) 2;;
  rc ← call (sqlite3_exec create_index_names);
  bail_if (rc ≠ SQLITE_OK) 2;;
  rc ← call (sqlite3_exec create_index_listing);
  bail_if (rc ≠ SQLITE_OK) 2;;
  rc ← call (sqlite3_exec (insert_root root_entry));
  bail_if (rc ≠ SQLITE_OK) 2;;
  mret 0.

(** pg_sqlite_fs.c 141-250. *)
Definition pg_sqlite_fs_create (a : path_args) (fs : option database)
  : option database * outcome :=
  if decide (nargs a ≠ 1) then (fs, Raised)
  else if isnull (db_path a) then (fs, Raised)
  else
    let '(rc, db) := sqlite3_open fs in
    let '(db, rc) :=
      if decide (rc ≠ 0) then (db, 1) else at_bailout create_statements db in
    (sqlite3_close db, Ret (rc_bool rc)).

(** ** pg_sqlite_fs_insert_entry *)

Record insert_entry_args : Type := mkInsertEntryArgs {
  ie_nargs : Z;
  ie_db_path : NullableDatum string;
  ie_inode : NullableDatum Z;
  ie_name : NullableDatum string;
  ie_parent_inode : NullableDatum Z;
  ie_decrypted_size : NullableDatum string;
  ie_ctime : NullableDatum Z;
  ie_mtime : NullableDatum Z;
  ie_nlink : NullableDatum Z;
  ie_size : NullableDatum Z;
  ie_is_dir : NullableDatum bool
}.

(** The row bound to the statement; argument 4 is decrypted_size. *)
Definition entry_of_args (a : insert_entry_args) : Z * entry :=
  (PG_GETARG_INT64 (ie_inode a),
   {| name := value (ie_name a);
      parent_inode := PG_GETARG_INT64 (ie_parent_inode a);
      decrypted_size := null_or_value (ie_decrypted_size a);
      ctime := PG_GETARG_INT64 (ie_ctime a);
      mtime := PG_GETARG_INT64 (ie_mtime a);
      nlink := PG_GETARG_INT64 (ie_nlink a);
      size := PG_GETARG_INT64 (ie_size a);
      is_dir := if value (ie_is_dir a) then 1 else 0 |}).

(** pg_sqlite_fs.c 397-455. Parameter 4 is bound first, on either branch of [PG_ARGISNULL(4)];
    then [rc = rc || (the eight other binds)]. *)
Definition insert_entry_statements (a : insert_entry_args) : body Z :=
  '(rc, stmt) ← prepare upsert_entries;
  bail_if (rc ≠ SQLITE_OK) 1;;
  let rc := sqlite3_bind stmt in
  let rc := c_or rc (bind_all stmt 8) in
  bail_if (rc ≠ SQLITE_OK) 2;;
  rc ← call (sqlite3_step stmt (entry_of_args a));
  bail_if (rc ≠ SQLITE_DONE) 3;;
  mret 0.

(** pg_sqlite_fs.c 356-461. *)
Definition pg_sqlite_fs_insert_entry (a : insert_entry_args) (fs : option database)
  : option database * outcome :=
  if decide (ie_nargs a < 4) then (fs, Raised)
  else if isnull (ie_db_path a) || isnull (ie_inode a)
          || isnull (ie_name a) || isnull (ie_parent_inode a) then (fs, Raised)
  else
    let '(rc, db) := sqlite3_open fs in
    let '(db, rc) :=
      if decide (rc ≠ 0) then (db, 1) else at_bailout (insert_entry_statements a) db in
    (sqlite3_close db, Ret (rc_bool rc)).

(** ** The bulk loaders *)

(** *** pg_sqlite_fs_insert_files *)

(** pg_sqlite_fs.c 800-822: the binds and the step of one iteration. *)
Definition insert_files_write (stmt : option (stmt_sql (Z * file))) (row : Z * file)
  : body Z :=
  let rc := bind_all stmt 3 in
  bail_if (rc ≠ SQLITE_OK) 6;;
  rc ← call (sqlite3_step stmt row);
  bail_if (rc ≠ SQLITE_DONE) 3;;
  mret 0.

(** pg_sqlite_fs.c 774-823: one iteration; the three columns are required. *)
Definition insert_files_row (stmt : option (stmt_sql (Z * file))) (td : TupleDesc)
    (t : HeapTuple) : fetched (body Z) :=
  required_column (by_value DatumGetUInt64) t td 1 (λ inode,
  required_column DatumGetTextPP t td 2 (λ path,
  required_column DatumGetByteaP t td 3 (λ header,
  got (insert_files_write stmt (to_int64 inode, {| path := path; header := header |}))))).

(** pg_sqlite_fs.c 762-771: the column count against 3, then three types. *)
Definition insert_files_check (td : TupleDesc) : body unit :=
  bail_if (natts td ≠ 3) 3;;
  SQLITE_FS_CHECK_TYPE td 0 INT8OID;;
  SQLITE_FS_CHECK_TYPE td 1 TEXTOID;;
  SQLITE_FS_CHECK_TYPE td 2 BYTEAOID.

(** pg_sqlite_fs.c 726-823. *)
Definition insert_files_statements : spi_result → Sqlite.mortal entry file Z :=
  loader_statements upsert_files insert_files_check insert_files_row.

(** pg_sqlite_fs.c 684-850. *)
Definition pg_sqlite_fs_insert_files (a : loader_args) (q : spi_result)
    (fs : option database) : option database * outcome :=
  if decide (ld_nargs a ≠ 2) then (fs, Raised)
  else if isnull (ld_db_path a) || isnull (ld_query a) then (fs, Raised)
  else in_transaction (insert_files_statements q) fs.

(** *** pg_sqlite_fs_insert_entries *)

(** pg_sqlite_fs.c 1008-1043: the binds and the step of one iteration.
    Column 4 ([decrypted_filesize]) is bound after the check of the eight
    other binds; the code of that last bind is overwritten by
    [sqlite3_step]. *)
Definition insert_entries_write (stmt : option (stmt_sql (Z * entry))) (row : Z * entry)
  : body Z :=
  let rc := bind_all stmt 8 in
  bail_if (rc ≠ SQLITE_OK) 6;;
  rc ← call (sqlite3_step stmt row);
  bail_if (rc ≠ SQLITE_DONE) 3;;
  mret 0.

(** pg_sqlite_fs.c 958-1044: one iteration.
    Column 4 ([decrypted_filesize]) keeps its own null flag; it goes
    through [DatumGetTextPP] whatever the flag says. *)
Definition insert_entries_row (stmt : option (stmt_sql (Z * entry))) (td : TupleDesc)
    (t : HeapTuple) : fetched (body Z) :=
  required_column (by_value DatumGetUInt64) t td 1 (λ inode,
  required_column DatumGetTextPP t td 2 (λ name,
  required_column (by_value DatumGetUInt64) t td 3 (λ parent_inode,
  optional_column DatumGetTextPP t td 4 (λ decrypted_filesize,
  required_column (by_value DatumGetUInt64) t td 5 (λ ctime,
  required_column (by_value DatumGetUInt64) t td 6 (λ mtime,
  required_column (by_value DatumGetUInt32) t td 7 (λ nlink,
  required_column (by_value DatumGetUInt64) t td 8 (λ size,
  required_column (by_value DatumGetBool) t td 9 (λ is_dir,
  got (insert_entries_write stmt
         (to_int64 inode,
          {| name := name;
             parent_inode := to_int64 parent_inode;
             decrypted_size := decrypted_filesize;
             ctime := to_int64 ctime;
             mtime := to_int64 mtime;
             nlink := to_int32 (to_int64 nlink);
             size := to_int64 size;
             is_dir := if is_dir then 1 else 0 |}))))))))))).

(** pg_sqlite_fs.c 941-956: the column count against 9, then nine types. *)
Definition insert_entries_check (td : TupleDesc) : body unit :=
  bail_if (natts td ≠ 9) 3;;
  SQLITE_FS_CHECK_TYPE td 0 INT8OID;;
  SQLITE_FS_CHECK_TYPE td 1 TEXTOID;;
  SQLITE_FS_CHECK_TYPE td 2 INT8OID;;
  SQLITE_FS_CHECK_TYPE td 3 TEXTOID;;
  SQLITE_FS_CHECK_TYPE td 4 INT8OID;;
  SQLITE_FS_CHECK_TYPE td 5 INT8OID;;
  SQLITE_FS_CHECK_TYPE td 6 INT4OID;;
  SQLITE_FS_CHECK_TYPE td 7 INT8OID;;
  SQLITE_FS_CHECK_TYPE td 8 BOOLOID.

(** pg_sqlite_fs.c 896-1044. *)
Definition insert_entries_statements : spi_result → Sqlite.mortal entry file Z :=
  loader_statements upsert_entries insert_entries_check insert_entries_row.

(** pg_sqlite_fs.c 854-1071. *)
Definition pg_sqlite_fs_insert_entries (a : loader_args) (q : spi_result)
    (fs : option database) : option database * outcome :=
  if decide (ld_nargs a ≠ 2) then (fs, Raised)
  else if isnull (ld_db_path a) || isnull (ld_query a) then (fs, Raised)
  else in_transaction (insert_entries_statements q) fs.

(** ** pg_sqlite_fs_insert_file *)

Record insert_file_args : Type := mkInsertFileArgs {
  if_nargs : Z;
  if_db_path : NullableDatum string;
  if_inode : NullableDatum Z;
  if_path : NullableDatum string;
  if_header : NullableDatum (list Byte.byte)
}.

(** pg_sqlite_fs.c 314-347: prepare, the three binds joined by [||], step. *)
Definition insert_file_statements (a : insert_file_args) : body Z :=
  '(rc, stmt) ← prepare upsert_files;
  bail_if (rc ≠ SQLITE_OK) 1;;
  let rc := bind_all stmt 3 in
  bail_if (rc ≠ SQLITE_OK) 2;;
  rc ← call (sqlite3_step stmt
               (PG_GETARG_INT64 (if_inode a),
                {| path := value (if_path a); header := value (if_header a) |}));
  bail_if (rc ≠ SQLITE_DONE) 3;;
  mret 0.

(** pg_sqlite_fs.c 276-353. All four arguments must be present. *)
Definition pg_sqlite_fs_insert_file (a : insert_file_args) (fs : option database)
  : option database * outcome :=
  if decide (if_nargs a ≠ 4) then (fs, Raised)
  else if isnull (if_db_path a) || isnull (if_inode a)
          || isnull (if_path a) || isnull (if_header a) then (fs, Raised)
  else
    let '(rc, db) := sqlite3_open fs in
    let '(db, rc) :=
      if decide (rc ≠ 0) then (db, 1) else at_bailout (insert_file_statements a) db in
    (sqlite3_close db, Ret (rc_bool rc)).

(** ** pg_sqlite_fs_truncate_table and its two callers *)

(** [asprintf(&sql, "DELETE FROM %s%s", table, where_clause)]: the two
    strings follow each other with nothing between them. (The failure of
    the allocation, which would end the call with [rc = 1], is left out.) *)
Definition truncate_text (table where_clause : string) : string :=
  String.append "DELETE FROM " (String.append table where_clause).

Section Truncate.
(** What the engine makes of a statement given as text. *)
Variable meaning : string → sql.

(** pg_sqlite_fs.c 563-601. *)
Definition pg_sqlite_fs_truncate_table (table where_clause : string)
    (fs : option database) : option database * outcome :=
  open_existing fs (λ db,
    let '(db, rc) := sqlite3_exec (meaning (truncate_text table where_clause)) db in
    let rc := if decide (rc ≠ SQLITE_OK) then 2 else 0 in
    (sqlite3_close db, Ret (rc_bool rc))).

(** pg_sqlite_fs.c 603-608. *)
Definition pg_sqlite_fs_truncate_entries : option database → option database * outcome :=
  pg_sqlite_fs_truncate_table "entries" "WHERE inode > 1".

(** pg_sqlite_fs.c 610-615. *)
Definition pg_sqlite_fs_truncate_files : option database → option database * outcome :=
  pg_sqlite_fs_truncate_table "files" "".
End Truncate.

(** ** Reading the store *)

Definition entries_of (fs : option database) : gmap Z entry :=
  match fs with
  | Some d => match entries d with Some t => rows t | None => ∅ end
  | None => ∅
  end.

Definition files_of (fs : option database) : gmap Z file :=
  match fs with
  | Some d => default ∅ (files d)
  | None => ∅
  end.

End PgSqliteFs.

(** * Rows with values *)

(** A row with a value, not a null, in each of its first [n] columns. *)
Definition present (n : nat) (t : HeapTuple) : Prop :=
  (n ≤ length t)%nat ∧ Forall is_Some (take n t).

#[global] Instance present_dec n t : Decision (present n t) :=
  and_dec (decide (n ≤ length t)%nat) (decide (Forall is_Some (take n t))).

(** The column at position [k] of a row holds a value, not a null, that
    the accessor [get] can read. *)
Definition readable {B} (get : Datum → option B) (k : nat) (t : HeapTuple) : Prop :=
  is_Some (mjoin (t !! k) ≫= get).

#[global] Instance readable_dec {B} (get : Datum → option B) k t :
  Decision (readable get k t) := is_Some_dec _.

(** * The row of [files] that a call of src/pg.c writes *)

Module PgRows.
Import Pg.

(** The values that [pg_sqlite_fs_insert_file] binds (pg.c 365-378), as a
    row under its key: a null argument 2, 3, 4, 6 or 7 is bound with
    [sqlite3_bind_null], a null argument 5 as the integer 0. The message of
    line 345, which reads the mountpoint and the path without a look at
    their null flags, is a DEBUG1 one: [elog] evaluates its arguments only
    when the message is emitted, and the embedding leaves messages out. *)
Definition file_of_args (a : insert_file_args) : Z * file :=
  (PG_GETARG_INT64 (if_inode a),
   {| mountpoint := null_or_value (if_mountpoint a);
      rel_path := null_or_value (if_rel_path a);
      header := null_or_value (if_header a);
      payload_size := if isnull (if_payload_size a) then 0
                      else PG_GETARG_INT64 (if_payload_size a);
      prepend := null_or_value (if_prepend a);
      append := null_or_value (if_append a) |}).

End PgRows.

(** * The entries loader of src/pg.c against its single-row function *)

Module Bulk.
Import Sqlite Pg.

(** The call of [pg_sqlite_fs_insert_entry] that carries the values the
    loop of [pg_sqlite_fs_insert_entries] reads from the first eight columns
    of a row (as the loop converts them); [None] when the name of the row
    cannot be read. *)
Definition row_call (t : HeapTuple) : option insert_entry_args :=
  let col (k : nat) : Datum := default DNull (mjoin (t !! k)) in
  name ← DatumGetTextPP (col 1%nat);
  Some {| ie_nargs := 9;
          ie_db_path := mkArg "" false;
          ie_inode := mkArg (to_int64 (DatumGetUInt64 (col 0%nat))) false;
          ie_name := mkArg name false;
          ie_parent_inode := mkArg (to_int64 (DatumGetUInt64 (col 2%nat))) false;
          ie_ctime := mkArg (to_int64 (DatumGetUInt64 (col 3%nat))) false;
          ie_mtime := mkArg (to_int64 (DatumGetUInt64 (col 4%nat))) false;
          ie_nlink := mkArg (to_int32 (to_int64 (DatumGetUInt32 (col 5%nat)))) false;
          ie_size := mkArg (to_int64 (DatumGetUInt64 (col 6%nat))) false;
          ie_is_dir := mkArg (DatumGetBool (col 7%nat)) false |}.

(** The single-row calls for the rows, in order, stopping at the first one
    that does not return [true]; the flag says whether all of them did.
    [None] when a row is reached whose name cannot be read. *)
Fixpoint insert_entry_each (rows : list HeapTuple) (fs : option database)
  : option (option database * bool) :=
  match rows with
  | [] => Some (fs, true)
  | t :: rest =>
      match row_call t with
      | None => None
      | Some a =>
          match pg_sqlite_fs_insert_entry a fs with
          | (fs', Ret true) => insert_entry_each rest fs'
          | (fs', _) => Some (fs', false)
          end
      end
  end.

(** A row with a value in each of its first eight columns. *)
Definition eight_present (t : HeapTuple) : Prop := present 8 t.

(** The row-set passes the shape check of the entries loader. *)
Definition entries_shape (td : TupleDesc) : Prop :=
  length (attrs td) = 9%nat
  ∧ take 8 (attrs td)
    = [INT8OID; TEXTOID; INT8OID; INT8OID; INT8OID; INT4OID; INT8OID; BOOLOID].

End Bulk.

(** * The files loader of src/pg_sqlite_fs.c, row by row *)

Module OldRows.
Import PgSqliteFs.

(** The row that one iteration of the loop of [pg_sqlite_fs_insert_files]
    binds, under its key, from the three columns of a row; [None] when the
    path or the header cannot be read. *)
Definition file_of_row (t : HeapTuple) : option (Z * file) :=
  let col (k : nat) : Datum := default DNull (mjoin (t !! k)) in
  p ← DatumGetTextPP (col 1%nat);
  h ← DatumGetByteaP (col 2%nat);
  Some (to_int64 (DatumGetUInt64 (col 0%nat)), {| path := p; header := h |}).

(** A row with a value in each of its three columns. *)
Definition three_present (t : HeapTuple) : Prop := present 3 t.

(** The rows upserted one after the other, in the order of the row-set;
    [None] when one of them cannot be read. *)
Fixpoint upsert_rows (rows : list HeapTuple) (m : gmap Z file) : option (gmap Z file) :=
  match rows with
  | [] => Some m
  | t :: rest =>
      match file_of_row t with
      | None => None
      | Some (i, f) => upsert_rows rest (<[i := f]> m)
      end
  end.

End OldRows.

(** * Sample stores and calls *)

Module Samples.
Import Sqlite.

Definition store_path : NullableDatum string := mkArg "/srv/sqlite_fs/box.sqlite" false.

Definition create_call : path_args := {| nargs := 1; db_path := store_path |}.

Definition loader_call : loader_args :=
  {| ld_nargs := 2; ld_db_path := store_path;
     ld_query := mkArg "SELECT * FROM export" false |}.

(** *** src/pg.c *)

(** The store right after [pg_sqlite_fs_create] on a missing file. *)
Definition fresh : Pg.database :=
  {| files := Some ∅;
     extended_attributes := Some ∅;
     entries := Some {| rows := {[1 := Pg.root_entry]}; names := true; listing := true |} |}.

Definition dir (n : string) (parent : Z) : Pg.entry :=
  {| Pg.name := n; Pg.parent_inode := parent; Pg.ctime := 1700000000;
     Pg.mtime := 1700000000; Pg.nlink := 1; Pg.size := 0; Pg.is_dir := 1 |}.

(** /  (1),  /a  (2),  /a/b  (3),  /a/b/c  (4). *)
Definition tree : Pg.database :=
  {| files := Some ∅;
     extended_attributes := Some ∅;
     entries := Some {| rows := {[1 := Pg.root_entry; 2 := dir "a" 1;
                                  3 := dir "b" 2; 4 := dir "c" 3]};
                        names := true; listing := true |} |}.

(** [tree] after "DELETE ... WHERE inode = 2 OR parent_inode = 2". *)
Definition tree_without_a : Pg.database :=
  {| files := Some ∅;
     extended_attributes := Some ∅;
     entries := Some {| rows := {[1 := Pg.root_entry; 4 := dir "c" 3]};
                        names := true; listing := true |} |}.

Definition no_entries : Pg.database :=
  {| files := Some ∅;
     extended_attributes := Some ∅;
     entries := Some {| rows := ∅; names := true; listing := true |} |}.

(** A directory entry given to [pg_sqlite_fs_insert_entry]. *)
Definition entry_call (inode : Z) (n : string) (parent : Z) : Pg.insert_entry_args :=
  {| Pg.ie_nargs := 9;
     Pg.ie_db_path := store_path;
     Pg.ie_inode := mkArg inode false;
     Pg.ie_name := mkArg n false;
     Pg.ie_parent_inode := mkArg parent false;
     Pg.ie_ctime := mkArg 1700000000 false;
     Pg.ie_mtime := mkArg 1700000000 false;
     Pg.ie_nlink := mkArg 1 false;
     Pg.ie_size := mkArg 0 false;
     Pg.ie_is_dir := mkArg true false |}.

(** [fresh] with the row of inode 1 overwritten by [entry_call 1 "x" 1]. *)
Definition renamed_root : Pg.database :=
  {| files := Some ∅;
     extended_attributes := Some ∅;
     entries := Some {| rows := {[1 := dir "x" 1]}; names := true; listing := true |} |}.

(** [fresh] with an entry of inode 0. *)
Definition with_inode_0 : Pg.database :=
  {| files := Some ∅;
     extended_attributes := Some ∅;
     entries := Some {| rows := {[0 := dir "lost" 1; 1 := Pg.root_entry]};
                        names := true; listing := true |} |}.

(** Row-sets for the entries loader: nine columns, the ninth a text. *)
Definition nine_columns : list Oid :=
  [INT8OID; TEXTOID; INT8OID; INT8OID; INT8OID; INT4OID; INT8OID; BOOLOID; TEXTOID].

Definition entry_row (inode : Z) (n : string) (parent : option Z) (ninth : option Datum)
  : HeapTuple :=
  [Some (DInt8 inode); Some (DText n); DInt8 <$> parent; Some (DInt8 1700000000);
   Some (DInt8 1700000000); Some (DInt4 1); Some (DInt8 0); Some (DBool true); ninth].

(** Three rows, the second with a null parent_inode. *)
Definition rows_with_null : list HeapTuple :=
  [entry_row 5 "x" (Some 1) None; entry_row 6 "y" None None; entry_row 7 "z" (Some 1) None].

Definition rows_ninth_null : list HeapTuple :=
  [entry_row 5 "x" (Some 1) None; entry_row 6 "y" (Some 1) None].

Definition rows_ninth_text : list HeapTuple :=
  [entry_row 5 "x" (Some 1) (Some (DText "4096")); entry_row 6 "y" (Some 1) (Some (DText "17"))].

(** Row-sets for the files loader: the seven columns it checks and writes. *)
Definition seven_columns : list Oid :=
  [INT8OID; TEXTOID; TEXTOID; BYTEAOID; INT8OID; BYTEAOID; BYTEAOID].

Definition seven_desc : TupleDesc := {| attrs := seven_columns; past_end := λ _, 0 |}.

(** A files row whose payload_size is null. *)
Definition file_row_null_size : HeapTuple :=
  [Some (DInt8 7); Some (DText "vault"); Some (DText "a/b.c4gh"); Some (DBytea []);
   None; Some (DBytea []); Some (DBytea [])].

(** A files row whose inode is null. *)
Definition file_row_null_inode : HeapTuple :=
  [None; Some (DText "vault"); Some (DText "a/b.c4gh"); Some (DBytea []);
   Some (DInt8 10); Some (DBytea []); Some (DBytea [])].

(** A files row whose header is null. *)
Definition file_row_null_header : HeapTuple :=
  [Some (DInt8 7); Some (DText "vault"); Some (DText "a/b.c4gh"); None;
   Some (DInt8 10); Some (DBytea []); Some (DBytea [])].

(** A descriptor of four columns behind which memory happens to hold the
    three other types: the one shape the check of the files loader lets
    through. *)
Definition four_desc : TupleDesc :=
  {| attrs := [INT8OID; TEXTOID; TEXTOID; BYTEAOID];
     past_end := λ k, match k with
                      | O => INT8OID
                      | S _ => BYTEAOID
                      end |}.

Definition file_row_four : HeapTuple :=
  [Some (DInt8 7); Some (DText "vault"); Some (DText "a/b.c4gh"); Some (DBytea [])].

(** Two rows for the entries loader, the second with a null name. *)
Definition rows_null_name : list HeapTuple :=
  [entry_row 5 "x" (Some 1) None;
   [Some (DInt8 6); None; Some (DInt8 1); Some (DInt8 1700000000);
    Some (DInt8 1700000000); Some (DInt4 1); Some (DInt8 0); Some (DBool true); None]].

(** The creation statements of src/pg.c, as an engine reads their texts
    when they are given in one string. *)
Definition creation_meaning (text : string) : Pg.sql :=
  λ d, let '(c, rc) := at_bailout Pg.create_statements {| main := d; journal := None |} in
       (main c, if decide (rc = 0) then SQLITE_OK else SQLITE_ERROR).

(** Surroundings in which the closing statement of a transaction is
    refused with SQLITE_BUSY (5): another connection holds the file. *)
Definition file_held : surroundings :=
  {| open_rc := SQLITE_OK; begin_rc := SQLITE_OK; end_rc := 5 |}.

(** *** src/pg_sqlite_fs.c *)

Definition old_fresh : PgSqliteFs.database :=
  {| files := Some ∅;
     extended_attributes := None;
     entries := Some {| rows := {[1 := PgSqliteFs.root_entry]};
                        names := true; listing := true |} |}.

Definition old_entry_call : PgSqliteFs.insert_entry_args :=
  {| PgSqliteFs.ie_nargs := 10;
     PgSqliteFs.ie_db_path := store_path;
     PgSqliteFs.ie_inode := mkArg 2 false;
     PgSqliteFs.ie_name := mkArg "report.c4gh" false;
     PgSqliteFs.ie_parent_inode := mkArg 1 false;
     PgSqliteFs.ie_decrypted_size := mkArg "4096" false;
     PgSqliteFs.ie_ctime := mkArg 1700000000 false;
     PgSqliteFs.ie_mtime := mkArg 1700000001 false;
     PgSqliteFs.ie_nlink := mkArg 1 false;
     PgSqliteFs.ie_size := mkArg 4220 false;
     PgSqliteFs.ie_is_dir := mkArg false false |}.

(** *** More of src/pg.c *)

(** [tree] with the two entries of [rows_ninth_null]. *)
Definition tree_with_x_y : Pg.database :=
  {| files := Some ∅;
     extended_attributes := Some ∅;
     entries := Some {| rows := {[1 := Pg.root_entry; 2 := dir "a" 1; 3 := dir "b" 2;
                                  4 := dir "c" 3; 5 := dir "x" 1; 6 := dir "y" 1]};
                        names := true; listing := true |} |}.

(** A second row for the name "a" under the root, after two good rows. *)
Definition rows_with_clash : list HeapTuple :=
  [entry_row 5 "x" (Some 1) None; entry_row 6 "y" (Some 1) None;
   entry_row 7 "a" (Some 1) None].

(** A file given to [pg_sqlite_fs_insert_file]: no header, no payload
    size, nothing to prepend or append. *)
Definition file_call (inode : Z) (mnt rel : string) : Pg.insert_file_args :=
  {| Pg.if_nargs := 8;
     Pg.if_db_path := store_path;
     Pg.if_inode := mkArg inode false;
     Pg.if_mountpoint := mkArg mnt false;
     Pg.if_rel_path := mkArg rel false;
     Pg.if_header := mkArg [] true;
     Pg.if_payload_size := mkArg 0 true;
     Pg.if_prepend := mkArg [] true;
     Pg.if_append := mkArg [] true |}.

Definition bare_file (mnt rel : string) : Pg.file :=
  {| Pg.mountpoint := Some mnt; Pg.rel_path := Some rel; Pg.header := None;
     Pg.payload_size := 0; Pg.prepend := None; Pg.append := None |}.

(** [tree] with one row in [files], under an inode that has no entry. *)
Definition tree_with_file : Pg.database :=
  {| files := Some {[7 := bare_file "vault" "a/b.c4gh"]};
     extended_attributes := Some ∅;
     entries := entries tree |}.

(** *** More of src/pg_sqlite_fs.c *)

(** An engine that knows the two well-formed truncations and refuses
    every other text. *)
Definition sample_meaning (text : string) : PgSqliteFs.sql :=
  if decide (text = "DELETE FROM files") then delete_from_files (λ _, True)
  else if decide (text = "DELETE FROM entries WHERE inode > 1")
       then delete_from_entries (λ '(inode, _), inode > 1)
       else λ d, (d, SQLITE_ERROR).

Definition old_file (p : string) : PgSqliteFs.file :=
  {| PgSqliteFs.path := p; PgSqliteFs.header := [] |}.

Definition old_with_files : PgSqliteFs.database :=
  {| files := Some {[7 := old_file "a/b.c4gh"; 8 := old_file "a/c.c4gh"]};
     extended_attributes := None;
     entries := entries old_fresh |}.

Definition old_file_call (inode : Z) (p : string) : PgSqliteFs.insert_file_args :=
  {| PgSqliteFs.if_nargs := 4;
     PgSqliteFs.if_db_path := store_path;
     PgSqliteFs.if_inode := mkArg inode false;
     PgSqliteFs.if_path := mkArg p false;
     PgSqliteFs.if_header := mkArg [] false |}.

Definition three_columns : TupleDesc :=
  {| attrs := [INT8OID; TEXTOID; BYTEAOID]; past_end := λ _, 0 |}.

(** Three rows for two inodes: the third replaces the first. *)
Definition old_file_rows : list HeapTuple :=
  [[Some (DInt8 7); Some (DText "a/b.c4gh"); Some (DBytea [])];
   [Some (DInt8 8); Some (DText "a/c.c4gh"); Some (DBytea [])];
   [Some (DInt8 7); Some (DText "a/moved.c4gh"); Some (DBytea [])]].

End Samples.

(** * Properties *)

(** ** The engine and the code around it *)

Module SqliteFacts.
Import Sqlite.

Ltac unfold_body :=
  unfold SQLITE_FS_CHECK_TYPE, bail_if, prepare, call, goto_bailout in *;
  unfold mbind, body_bind, mret, body_ret in *.

Ltac unfold_sqlite :=
  unfold open_existing, sqlite3_open_v2, sqlite3_open, at_bailout, sqlite3_prepare_v2,
    sqlite3_step, sqlite3_exec, sqlite3_bind, sqlite3_close in *.

Ltac destruct_step :=
  match goal with
  | |- context [sqlite3_step ?s ?p ?c] =>
      let c1 := fresh "c" in let rc1 := fresh "rc" in
      destruct (sqlite3_step s p c) as [c1 rc1] eqn:?
  end.

Section Engine.
Context {E F : Type} `{EntryRow E}.

Abbreviation database := (Sqlite.database E F).
Abbreviation sqlite3 := (Sqlite.sqlite3 E F).
Abbreviation body := (Sqlite.body E F).
Abbreviation body_Z := (Sqlite.body E F Z).

Lemma keeps_journal_ret {A} (a : A) : keeps_journal (mret a : body A).
Proof. by intros c. Qed.

Lemma keeps_journal_bind {A B} (m : body A) (k : A → body B) :
  keeps_journal m → (∀ a, keeps_journal (k a)) → keeps_journal (m ≫= k).
Proof.
  intros Hm Hk c. unfold mbind, body_bind.
  specialize (Hm c). destruct (m c) as [c' [rc|a]]; simpl in *; [done|].
  by rewrite Hk.
Qed.

Lemma keeps_journal_bail_if (cond : Prop) `{Decision cond} rc :
  keeps_journal (bail_if cond rc : body unit).
Proof. intros c. unfold bail_if. by case_decide. Qed.

Lemma keeps_journal_prepare {P} (s : stmt_sql E F P) : keeps_journal (prepare s).
Proof. by intros c. Qed.

Lemma sqlite3_exec_journal (s : Sqlite.sql E F) c : journal (sqlite3_exec s c).1 = journal c.
Proof. unfold sqlite3_exec. by destruct (s (main c)). Qed.

Lemma keeps_journal_step {P} (stmt : option (stmt_sql E F P)) p :
  keeps_journal (call (sqlite3_step stmt p)).
Proof.
  intros c. unfold call, sqlite3_step. destruct stmt as [s|]; [|done].
  pose proof (sqlite3_exec_journal (run s p) c) as Hj.
  by destruct (sqlite3_exec (run s p) c).
Qed.

Lemma keeps_journal_check_type td p t :
  keeps_journal (SQLITE_FS_CHECK_TYPE td p t : body unit).
Proof. apply keeps_journal_bail_if. Qed.

Lemma keeps_journal_before_the_loop {P} (s : stmt_sql E F P) check q :
  (∀ td, keeps_journal (check td)) → keeps_journal (before_the_loop s check q).
Proof.
  intros Hcheck. unfold before_the_loop.
  apply keeps_journal_bind; [apply keeps_journal_prepare|intros [rc stmt]].
  repeat (apply keeps_journal_bind; [apply keeps_journal_bail_if|intros ?]).
  apply keeps_journal_bind; [apply Hcheck|intros ?].
  apply keeps_journal_ret.
Qed.

Lemma keeps_journal_for_each_row (row_body : HeapTuple → fetched body_Z) rows rc :
  (∀ t m, row_body t = got m → keeps_journal m) →
  mortal_keeps_journal (for_each_row row_body rows rc).
Proof.
  intros Hrow. revert rc. induction rows as [|t rest IH]; intros rc c c' r; simpl.
  - by intros [= <- <-].
  - destruct (row_body t) as [|rc'|m] eqn:Ht; [done|by intros [= <- <-]|].
    pose proof (Hrow t m Ht c) as Hj.
    destruct (m c) as [c1 [rc1|rc1]]; simpl in Hj.
    + intros [= <- <-]. done.
    + intros Hrest. rewrite <- Hj. by eapply IH.
Qed.

Lemma keeps_journal_loader_statements {P} (s : stmt_sql E F P) check row_body q :
  (∀ td, keeps_journal (check td)) →
  (∀ stmt td t m, row_body stmt td t = got m → keeps_journal m) →
  mortal_keeps_journal (loader_statements s check row_body q).
Proof.
  intros Hcheck Hrow c c' r. unfold loader_statements.
  pose proof (keeps_journal_before_the_loop s check q Hcheck c) as Hj.
  destruct (before_the_loop s check q c) as [c1 [rc|stmt]]; simpl in Hj.
  - by intros [= <- <-].
  - intros Hloop. rewrite <- Hj.
    eapply keeps_journal_for_each_row; [|exact Hloop]. intros t m. apply Hrow.
Qed.

(** *** The unique index *)

(** The two ways the code changes the rows of [entries] keep the pairs
    (parent_inode, name) distinct: an upsert that the index lets through,
    and a DELETE. *)
Lemma names_unique_insert (t : gmap Z E) (i : Z) (e : E) :
  names_unique t → ¬ names_taken t i e → names_unique (<[i := e]> t).
Proof.
  intros Hu Hfree k e1 Hl1 (k2 & e2 & Hl2 & Hne & Hp & Hn).
  apply lookup_insert_Some in Hl1 as [[<- <-]|[Hk1 Hl1]];
    apply lookup_insert_Some in Hl2 as [[Heq <-]|[Hk2 Hl2]].
  - done.
  - apply Hfree. exists k2, e2. by split.
  - subst k2. apply Hfree. exists k, e1. split; [done|]. split; [done|]. by split.
  - apply (Hu k e1 Hl1). exists k2, e2. by split.
Qed.

Lemma names_unique_filter (t : gmap Z E) (P : Z * E → Prop) `{!∀ x, Decision (P x)} :
  names_unique t → names_unique (filter P t).
Proof.
  intros Hu k e1 Hl1 (k2 & e2 & Hl2 & Hrest).
  apply map_lookup_filter_Some in Hl1 as [Hl1 _].
  apply map_lookup_filter_Some in Hl2 as [Hl2 _].
  apply (Hu k e1 Hl1). by exists k2, e2.
Qed.

(** *** Reading a column *)

Lemma SPI_getbinval_null t td (k : nat) :
  t !! k = Some None → SPI_getbinval t td (S k) = (DNull, true).
Proof.
  intros Ht. unfold SPI_getbinval. case_decide as Hd; [done|].
  replace (S k - 1)%nat with k by lia. by rewrite Ht.
Qed.

Lemma SPI_getbinval_in_range t td (k : nat) :
  (Z.of_nat k < natts td)%Z →
  SPI_getbinval t td (S k) =
    match t !! k with Some (Some d) => (d, false) | _ => (DNull, true) end.
Proof.
  intros Hk. unfold SPI_getbinval. case_decide as Hd; [lia|].
  by replace (S k - 1)%nat with k by lia.
Qed.

Lemma bind_all_ok {P} (s : stmt_sql E F P) n : bind_all (Some s) n = SQLITE_OK.
Proof. induction n as [|n IH]; [done|]. simpl. by rewrite IH. Qed.

(** *** The loop *)

(** Rows are taken in the order of the row-set: the loop over [l1 ++ l2]
    is the loop over [l1] followed, if it came to its end, by the loop over
    [l2] on the connection and the [rc] it left. *)
Lemma for_each_row_app (row_body : HeapTuple → fetched body_Z) l1 l2 rc c :
  for_each_row row_body (l1 ++ l2) rc c =
    match for_each_row row_body l1 rc c with
    | None => None
    | Some (c', inl rc') => Some (c', inl rc')
    | Some (c', inr rc') => for_each_row row_body l2 rc' c'
    end.
Proof.
  revert rc c. induction l1 as [|t l1 IH]; intros rc c; simpl; [done|].
  destruct (row_body t) as [|rc1|m]; [done..|].
  destruct (m c) as [c1 [rc1|rc1]]; [done|]. apply IH.
Qed.

(** A loop that meets a row it cannot write does not reach its end: if the
    backend survives, control leaves with one of the codes of the body. *)
Lemma for_each_row_stops (row_body : HeapTuple → fetched body_Z) rows t :
  t ∈ rows → (∀ m, row_body t ≠ got m) →
  (∀ t' rc, row_body t' = leaves rc → rc ≠ 0) →
  (∀ t' m c c' rc, row_body t' = got m → m c = (c', inl rc) → rc ≠ 0) →
  ∀ rc0 c c' r, for_each_row row_body rows rc0 c = Some (c', r) →
                ∃ rc, r = inl rc ∧ rc ≠ 0.
Proof.
  intros Hin Hnot Hleaves Hcodes.
  induction rows as [|t' rest IH]; [by apply elem_of_nil in Hin|].
  intros rc0 c c' r. simpl.
  destruct (row_body t') as [|rc1|m] eqn:Hrow; [done| |].
  - intros [= <- <-]. exists rc1. split; [done|]. by eapply Hleaves.
  - apply elem_of_cons in Hin as [->|Hin]; [by destruct (Hnot m)|].
    destruct (m c) as [c1 [rc1|rc1]] eqn:Hm.
    + intros [= <- <-]. exists rc1. split; [done|]. by eapply Hcodes.
    + by apply IH.
Qed.

(** The backend survives a loop over rows that can all be read. *)
Lemma for_each_row_survives (row_body : HeapTuple → fetched body_Z) rows :
  (∀ t, t ∈ rows → row_body t ≠ died) →
  ∀ rc c, is_Some (for_each_row row_body rows rc c).
Proof.
  induction rows as [|t rest IH]; intros Hread rc c; simpl; [by eexists|].
  destruct (row_body t) as [|rc1|m] eqn:Hrow.
  - destruct (Hread t); [apply list_elem_of_here|done].
  - by eexists.
  - destruct (m c) as [c1 [rc1|rc1]]; [by eexists|].
    apply IH. intros t' Ht'. apply Hread. by apply list_elem_of_further.
Qed.

(** *** The transaction around the loaders *)

(** The file afterwards is the content before the call when the backend
    died or when [rc] is not 0 at the exit label, the content written
    otherwise; the value returned by a backend that lived is [true]
    in both cases. *)
Lemma in_transaction_result (statements : Sqlite.mortal E F Z) (fs : option database) :
  mortal_keeps_journal statements →
  in_transaction statements fs =
    let d0 := default empty_database fs in
    match statements {| main := d0; journal := Some d0 |} with
    | None => (Some d0, Crashed)
    | Some (c, r) => (Some (if decide (exit_code r ≠ 0) then d0 else main c), Ret true)
    end.
Proof.
  intros Hj. unfold in_transaction, sqlite3_open. simpl.
  specialize (Hj {| main := default empty_database fs;
                    journal := Some (default empty_database fs) |}).
  destruct (statements _) as [[c r]|]; [|done].
  specialize (Hj c r eq_refl). simpl in Hj.
  unfold sqlite3_exec_txn, sqlite3_close; case_decide; rewrite Hj; simpl; done.
Qed.

Lemma in_transaction_writes_nothing (statements : Sqlite.mortal E F Z)
    (fs : option database) :
  mortal_keeps_journal statements → writes_nothing statements →
  (in_transaction statements fs).1 = Some (default empty_database fs)
  ∧ ((in_transaction statements fs).2 = Ret true
     ∨ (in_transaction statements fs).2 = Crashed).
Proof.
  intros Hj Hw. rewrite in_transaction_result by done. simpl.
  destruct (statements _) as [[c r]|] eqn:Hst; simpl; [|by split; [|right]].
  split; [|by left].
  destruct (Hw _ _ _ Hst) as [Hrc| ->]; by case_decide.
Qed.

Lemma in_transaction_rolls_back (statements : Sqlite.mortal E F Z)
    (fs : option database) :
  mortal_keeps_journal statements → writes_nothing statements → survives statements →
  in_transaction statements fs = (Some (default empty_database fs), Ret true).
Proof.
  intros Hj Hw Hs. rewrite in_transaction_result by done. simpl.
  destruct (Hs {| main := default empty_database fs;
                  journal := Some (default empty_database fs) |}) as [[c r] Hst].
  rewrite Hst. destruct (Hw _ _ _ Hst) as [Hrc| ->]; by case_decide.
Qed.

(** Once the file is open, a loader whose backend lives returns [true]
    whatever happened. *)
Lemma in_transaction_outcome (statements : Sqlite.mortal E F Z) (fs : option database) :
  mortal_keeps_journal statements →
  (in_transaction statements fs).2 = Ret true ∨ (in_transaction statements fs).2 = Crashed.
Proof.
  intros Hj. rewrite in_transaction_result by done. simpl.
  destruct (statements _) as [[c r]|]; [by left|by right].
Qed.

(** *** The statements of a loader *)

(** Before the loop nothing is written; the loop is reached with the
    statement compiled, SPI connected, the query run and the shape check
    passed. *)
Lemma before_the_loop_pure {P} (s : stmt_sql E F P) check q c :
  pure_check check →
  ∃ r, before_the_loop s check q c = (c, r)
       ∧ ∀ stmt, r = inr stmt →
           stmt = Some s ∧ connect_rc q = SPI_OK_CONNECT ∧ execute_rc q = SPI_OK_SELECT
           ∧ check (tupdesc (SPI_tuptable q)) c = (c, inr tt).
Proof.
  intros Hpure. unfold before_the_loop.
  unfold mbind at 1, body_bind at 1, prepare, sqlite3_prepare_v2.
  destruct (compiles s (main c)); simpl;
    unfold mbind at 1, body_bind at 1, bail_if at 1.
  2: { destruct (decide (SQLITE_ERROR ≠ SQLITE_OK)) as [_|Hne]; [|by destruct Hne].
       by eexists. }
  destruct (decide (SQLITE_OK ≠ SQLITE_OK)) as [Hne|_]; [done|].
  simpl. unfold mbind at 1, body_bind at 1, bail_if at 1.
  destruct (decide (connect_rc q ≠ SPI_OK_CONNECT)) as [|Hc%dec_stable]; [by eexists|].
  simpl. unfold mbind at 1, body_bind at 1, bail_if at 1.
  destruct (decide (execute_rc q ≠ SPI_OK_SELECT)) as [|He%dec_stable]; [by eexists|].
  simpl. unfold mbind at 1, body_bind at 1.
  destruct (Hpure (tupdesc (SPI_tuptable q)) c) as [[rc0|[]] Hcheck]; rewrite Hcheck;
    [by eexists|].
  eexists. split; [done|]. by intros stmt [= <-].
Qed.

Lemma before_the_loop_no_table {P} (s : stmt_sql E F P) check q c :
  compiles s (main c) = false → before_the_loop s check q c = (c, inl 1).
Proof.
  intros Hs. unfold before_the_loop. unfold_body. unfold sqlite3_prepare_v2.
  by rewrite Hs.
Qed.

Lemma before_the_loop_passes {P} (s : stmt_sql E F P) check q c :
  compiles s (main c) = true →
  connect_rc q = SPI_OK_CONNECT → execute_rc q = SPI_OK_SELECT →
  check (tupdesc (SPI_tuptable q)) c = (c, inr tt) →
  before_the_loop s check q c = (c, inr (Some s)).
Proof.
  intros Hs Hc He Hcheck. unfold before_the_loop. unfold_body. unfold sqlite3_prepare_v2.
  rewrite Hs, Hc, He. simpl. by rewrite Hcheck.
Qed.

Lemma loader_statements_rejected {P} (s : stmt_sql E F P) check row_body q :
  pure_check check →
  (∀ c, ∃ rc, check (tupdesc (SPI_tuptable q)) c = (c, inl rc)) →
  writes_nothing (loader_statements s check row_body q)
  ∧ survives (loader_statements s check row_body q).
Proof.
  intros Hpure Hrej.
  assert (∀ c, ∃ rc, before_the_loop s check q c = (c, inl rc)) as Hbefore.
  { intros c. destruct (before_the_loop_pure s check q c Hpure) as ([rc|stmt] & Hb & Hr);
      [by exists rc|].
    destruct (Hr stmt eq_refl) as (_ & _ & _ & Hcheck).
    destruct (Hrej c) as [rc Hrc]. by rewrite Hrc in Hcheck. }
  split.
  - intros c c' r. unfold loader_statements. destruct (Hbefore c) as [rc ->].
    intros [= <- <-]. by right.
  - intros c. unfold loader_statements. destruct (Hbefore c) as [rc ->]. by eexists.
Qed.

(** The statements of a loader on a row-set with a row that is never
    written: nothing is written. *)
Lemma loader_statements_stops {P} (s : stmt_sql E F P) check row_body q t :
  pure_check check →
  t ∈ vals (SPI_tuptable q) →
  (∀ stmt td m, row_body stmt td t ≠ got m) →
  (∀ stmt td t' rc, row_body stmt td t' = leaves rc → rc ≠ 0) →
  (∀ stmt td t' m c c' rc, row_body stmt td t' = got m → m c = (c', inl rc) → rc ≠ 0) →
  writes_nothing (loader_statements s check row_body q).
Proof.
  intros Hpure Hin Hnot Hleaves Hcodes c c' r. unfold loader_statements.
  destruct (before_the_loop_pure s check q c Hpure) as ([rc|stmt] & -> & _).
  - intros [= <- <-]. by right.
  - intros Hloop. left.
    destruct (for_each_row_stops _ _ t Hin (Hnot stmt _) (Hleaves stmt _) (Hcodes stmt _)
                _ _ _ _ Hloop) as (rc & -> & Hrc).
    done.
Qed.

(** The backend survives the statements of a loader when every row can be
    read under a descriptor that passed the shape check. *)
Lemma loader_statements_survives {P} (s : stmt_sql E F P) check row_body q :
  pure_check check →
  (∀ stmt t c, check (tupdesc (SPI_tuptable q)) c = (c, inr tt) →
               t ∈ vals (SPI_tuptable q) →
               row_body stmt (tupdesc (SPI_tuptable q)) t ≠ died) →
  survives (loader_statements s check row_body q).
Proof.
  intros Hpure Hread c. unfold loader_statements.
  destruct (before_the_loop_pure s check q c Hpure) as ([rc|stmt] & -> & Hr);
    [by eexists|].
  destruct (Hr stmt eq_refl) as (_ & _ & _ & Hcheck).
  apply for_each_row_survives. intros t Ht. by eapply Hread.
Qed.

(** The statements of a loader depend on the answer of SPI through the two
    codes, the shape check and the loop only. *)
Lemma loader_statements_ext {P} (s : stmt_sql E F P) check row_body q1 q2 c :
  connect_rc q1 = connect_rc q2 → execute_rc q1 = execute_rc q2 →
  (∀ c, check (tupdesc (SPI_tuptable q1)) c = check (tupdesc (SPI_tuptable q2)) c) →
  (∀ stmt rc c,
     for_each_row (row_body stmt (tupdesc (SPI_tuptable q1))) (vals (SPI_tuptable q1)) rc c
     = for_each_row (row_body stmt (tupdesc (SPI_tuptable q2))) (vals (SPI_tuptable q2)) rc c) →
  loader_statements s check row_body q1 c = loader_statements s check row_body q2 c.
Proof.
  intros Hc He Hcheck Hloop. unfold loader_statements.
  assert (before_the_loop s check q1 c = before_the_loop s check q2 c) as ->.
  { unfold before_the_loop. rewrite Hc, He.
    unfold_body. destruct (sqlite3_prepare_v2 c s) as [rc stmt].
    repeat (case_decide; [done|]). by rewrite Hcheck. }
  destruct (before_the_loop s check q2 c) as [c' [rc|stmt]]; [done|].
  rewrite He. apply Hloop.
Qed.

End Engine.
End SqliteFacts.

(** ** src/pg.c: the bulk loaders *)

Module PgLoaderFacts.
Import Sqlite SqliteFacts Pg.

(** Every way through the reads of a row. *)
Ltac fetch_cases :=
  unfold required_column, optional_column, by_value;
  repeat (first
    [ match goal with
      | |- context [SPI_getbinval ?t ?td ?k] =>
          let d := fresh "d" in destruct (SPI_getbinval t td k) as [d [|]]
      end
    | match goal with
      | |- context [DatumGetTextPP ?d] => destruct (DatumGetTextPP d)
      | |- context [DatumGetByteaP ?d] => destruct (DatumGetByteaP d)
      end ]; try done).

(** *** pg_sqlite_fs_insert_entries *)

Lemma keeps_journal_insert_entries_write stmt row :
  keeps_journal (insert_entries_write stmt row).
Proof.
  unfold insert_entries_write.
  apply keeps_journal_bind; [apply keeps_journal_bail_if|intros ?].
  apply keeps_journal_bind; [apply keeps_journal_step|intros ?].
  apply keeps_journal_bind; [apply keeps_journal_bail_if|intros ?].
  apply keeps_journal_ret.
Qed.

Lemma keeps_journal_insert_entries_row stmt td t m :
  insert_entries_row stmt td t = got m → keeps_journal m.
Proof.
  unfold insert_entries_row. fetch_cases.
  intros [= <-]. apply keeps_journal_insert_entries_write.
Qed.

Lemma keeps_journal_insert_entries_check td : keeps_journal (insert_entries_check td).
Proof.
  unfold insert_entries_check.
  repeat (apply keeps_journal_bind; [apply keeps_journal_bail_if|intros ?]).
  apply keeps_journal_check_type.
Qed.

Lemma keeps_journal_insert_entries_statements q :
  mortal_keeps_journal (insert_entries_statements q).
Proof.
  apply keeps_journal_loader_statements.
  - apply keeps_journal_insert_entries_check.
  - apply keeps_journal_insert_entries_row.
Qed.

Lemma pure_insert_entries_check : pure_check insert_entries_check.
Proof.
  intros td c. unfold insert_entries_check. unfold_body.
  repeat (case_decide; [eauto|]). eauto.
Qed.

(** The codes with which one iteration leaves the loop are 1, 6 and 3. *)
Lemma insert_entries_row_leaves stmt td t rc :
  insert_entries_row stmt td t = leaves rc → rc ≠ 0.
Proof. unfold insert_entries_row. fetch_cases; by intros [= <-]. Qed.

Lemma insert_entries_row_codes stmt td t m c c' rc :
  insert_entries_row stmt td t = got m → m c = (c', inl rc) → rc ≠ 0.
Proof.
  unfold insert_entries_row. fetch_cases. intros [= <-].
  unfold insert_entries_write. unfold_body.
  case_decide; [intros [= <- <-]; done|].
  destruct_step.
  case_decide; [intros [= <- <-]; done|]. done.
Qed.

(** A row with a null in one of the first eight columns is not written:
    the reads end at that column or before it. *)
Lemma insert_entries_row_null stmt td t (k : nat) m :
  (k < 8)%nat → t !! k = Some None → insert_entries_row stmt td t ≠ got m.
Proof.
  intros Hk Ht.
  pose proof (SPI_getbinval_null t td k Ht) as Hnull.
  unfold insert_entries_row, required_column, by_value.
  do 8 (destruct k as [|k]; [rewrite Hnull; by fetch_cases|]).
  lia.
Qed.

(** With nine columns, a row whose name can be read is read to its end or
    left at a null: the backend lives. *)
Lemma insert_entries_row_lives stmt td t :
  natts td = 9 → readable DatumGetTextPP 1 t → insert_entries_row stmt td t ≠ died.
Proof.
  intros Hn [s Hs]. unfold insert_entries_row, required_column, by_value.
  rewrite (SPI_getbinval_in_range t td 1) by lia.
  destruct (t !! 1%nat) as [[d|]|]; simpl in Hs; try done. rewrite Hs.
  by fetch_cases.
Qed.

(** With nine columns, a row with an inode and a null name kills the
    backend. *)
Lemma insert_entries_row_null_name stmt td t d :
  natts td = 9 → t !! 0%nat = Some (Some d) → t !! 1%nat = Some None →
  insert_entries_row stmt td t = died.
Proof.
  intros Hn H0 H1. unfold insert_entries_row, required_column, by_value.
  rewrite (SPI_getbinval_in_range t td 0), (SPI_getbinval_in_range t td 1) by lia.
  by rewrite H0, H1.
Qed.

(** C1 (as the code has it). When some row of the row-set has a null in
    one of the eight columns the loader requires,
    [pg_sqlite_fs_insert_entries] leaves the store file exactly as it was,
    but it never returns failure. When the name of every row can be read
    (the null is then in a column passed by value) it returns [true]: the
    [rc] set on the way to the exit label is overwritten by the result of
    "ROLLBACK;". Otherwise it returns [true] or, when the loop reaches a
    null name, the backend dies in [DatumGetTextPP]. *)
Theorem insert_entries_null_rolls_back_returns_true
    (a : loader_args) (q : spi_result) (d : database) (t : HeapTuple) (k : nat) :
  ld_nargs a = 2 → isnull (ld_db_path a) = false → isnull (ld_query a) = false →
  t ∈ vals (SPI_tuptable q) → (k < 8)%nat → t !! k = Some None →
  (pg_sqlite_fs_insert_entries a q (Some d)).1 = Some d
  ∧ ((pg_sqlite_fs_insert_entries a q (Some d)).2 = Ret true
     ∨ (pg_sqlite_fs_insert_entries a q (Some d)).2 = Crashed)
  ∧ (Forall (readable DatumGetTextPP 1) (vals (SPI_tuptable q)) →
     pg_sqlite_fs_insert_entries a q (Some d) = (Some d, Ret true)).
Proof.
  intros Hn Hp Hq Hin Hk Ht. unfold pg_sqlite_fs_insert_entries.
  rewrite Hp, Hq. case_decide; [done|]. simpl.
  assert (writes_nothing (insert_entries_statements q)) as Hw.
  { apply loader_statements_stops with (t := t); [apply pure_insert_entries_check|done|..].
    - intros stmt td m. by eapply insert_entries_row_null.
    - intros stmt td t' rc. apply insert_entries_row_leaves.
    - intros stmt td t' m c c' rc. apply insert_entries_row_codes. }
  pose proof (keeps_journal_insert_entries_statements q) as Hj.
  destruct (in_transaction_writes_nothing _ (Some d) Hj Hw) as [Hstore Hout].
  split; [done|]. split; [done|].
  intros Hnames. apply (in_transaction_rolls_back _ (Some d)); [done..|].
  apply loader_statements_survives; [apply pure_insert_entries_check|].
  intros stmt t' c Hcheck Ht'. apply insert_entries_row_lives.
  - destruct (decide (natts (tupdesc (SPI_tuptable q)) = 9)) as [|Hne]; [done|].
    revert Hcheck. unfold insert_entries_check. unfold_body. by case_decide.
  - by apply (proj1 (Forall_forall _ _) Hnames).
Qed.

(** *** pg_sqlite_fs_insert_files *)

Lemma keeps_journal_insert_files_write stmt row :
  keeps_journal (insert_files_write stmt row).
Proof.
  unfold insert_files_write.
  apply keeps_journal_bind; [apply keeps_journal_bail_if|intros ?].
  apply keeps_journal_bind; [apply keeps_journal_step|intros ?].
  apply keeps_journal_bind; [apply keeps_journal_bail_if|intros ?].
  apply keeps_journal_ret.
Qed.

Lemma keeps_journal_insert_files_row stmt td t m :
  insert_files_row stmt td t = got m → keeps_journal m.
Proof.
  unfold insert_files_row. fetch_cases;
    intros [= <-]; apply keeps_journal_insert_files_write.
Qed.

Lemma keeps_journal_insert_files_check td : keeps_journal (insert_files_check td).
Proof.
  unfold insert_files_check.
  repeat (apply keeps_journal_bind; [apply keeps_journal_bail_if|intros ?]).
  apply keeps_journal_check_type.
Qed.

Lemma keeps_journal_insert_files_statements q :
  mortal_keeps_journal (insert_files_statements q).
Proof.
  apply keeps_journal_loader_statements.
  - apply keeps_journal_insert_files_check.
  - apply keeps_journal_insert_files_row.
Qed.

Lemma pure_insert_files_check : pure_check insert_files_check.
Proof.
  intros td c. unfold insert_files_check. unfold_body.
  repeat (case_decide; [eauto|]). eauto.
Qed.

(** The shape check of the files loader lets a row-set through exactly when
    it has four columns of the first four types and the three slots read
    past the end of the descriptor happen to hold the other three. *)
Lemma insert_files_check_passes td (c : sqlite3) :
  insert_files_check td c = (c, inr ()) ↔
  attrs td = [INT8OID; TEXTOID; TEXTOID; BYTEAOID]
  ∧ past_end td 0 = INT8OID ∧ past_end td 1 = BYTEAOID ∧ past_end td 2 = BYTEAOID.
Proof.
  unfold insert_files_check. unfold_body. unfold natts, TupleDescAttr.
  destruct td as [l pe]. cbn [attrs past_end]. split.
  - case_decide as Hn; [done|].
    destruct l as [|a0 [|a1 [|a2 [|a3 [|a4 l]]]]]; cbn [length] in Hn; try lia.
    simpl. repeat (case_decide; [done|]). intros _.
    simpl in *. repeat split; congruence.
  - intros (-> & H0 & H1 & H2). simpl. rewrite H0, H1, H2. reflexivity.
Qed.

Lemma insert_files_check_count td (c : sqlite3) :
  natts td ≠ 4 → insert_files_check td c = (c, inl 3).
Proof. intros Hn. unfold insert_files_check. unfold_body. by case_decide. Qed.

(** C2 (as the code has it). A row-set with exactly the seven columns the
    files loader type-checks and writes (inode, mountpoint, rel_path,
    header, payload_size, prepend, append) does not pass its shape check:
    the column count is compared with 4, so the check ends with [rc = 3],
    nothing is written, and the call still returns [true]. *)
Theorem insert_files_rejects_its_seven_columns
    (a : loader_args) (q : spi_result) (d : database) :
  ld_nargs a = 2 → isnull (ld_db_path a) = false → isnull (ld_query a) = false →
  attrs (tupdesc (SPI_tuptable q))
    = [INT8OID; TEXTOID; TEXTOID; BYTEAOID; INT8OID; BYTEAOID; BYTEAOID] →
  (∀ c : sqlite3, insert_files_check (tupdesc (SPI_tuptable q)) c = (c, inl 3))
  ∧ pg_sqlite_fs_insert_files a q (Some d) = (Some d, Ret true).
Proof.
  intros Hn Hp Hq Hcols.
  assert (∀ c : sqlite3, insert_files_check (tupdesc (SPI_tuptable q)) c = (c, inl 3))
    as Hcheck.
  { intros c. apply insert_files_check_count. unfold natts. by rewrite Hcols. }
  split; [done|].
  unfold pg_sqlite_fs_insert_files. rewrite Hp, Hq. case_decide; [done|]. simpl.
  destruct (loader_statements_rejected upsert_files insert_files_check insert_files_row q)
    as [Hw Hs]; [apply pure_insert_files_check|intros c; exists 3; apply Hcheck|].
  apply (in_transaction_rolls_back _ (Some d)); [|done..].
  apply keeps_journal_insert_files_statements.
Qed.

Lemma insert_files_row_leaves stmt td t rc :
  insert_files_row stmt td t = leaves rc → rc ≠ 0.
Proof. unfold insert_files_row. fetch_cases; by intros [= <-]. Qed.

Lemma insert_files_row_codes stmt td t m c c' rc :
  insert_files_row stmt td t = got m → m c = (c', inl rc) → rc ≠ 0.
Proof.
  unfold insert_files_row. fetch_cases; intros [= <-];
    unfold insert_files_write; unfold_body;
    (case_decide; [intros [= <- <-]; done|]);
    destruct_step;
    (case_decide; [intros [= <- <-]; done|]); done.
Qed.

(** Under a descriptor of four columns, the only count the shape check
    lets through, no row is written: column 6 is past [natts],
    [SPI_getbinval] reports it null, and [DatumGetByteaP] is applied to its
    zero word, unless the reads ended before. *)
Lemma insert_files_row_four stmt td t m :
  natts td = 4 → insert_files_row stmt td t ≠ got m.
Proof.
  intros Hn. unfold insert_files_row, required_column, optional_column, by_value.
  assert (SPI_getbinval t td 6 = (DNull, true)) as H6.
  { unfold SPI_getbinval. rewrite Hn. by case_decide as Hd; [|destruct Hd; left]. }
  destruct (SPI_getbinval t td 1) as [d1 [|]]; [done|].
  destruct (SPI_getbinval t td 2) as [d2 [|]];
    (destruct (DatumGetTextPP d2); [|done]); [done|].
  destruct (SPI_getbinval t td 3) as [d3 [|]];
    (destruct (DatumGetTextPP d3); [|done]); [done|].
  destruct (SPI_getbinval t td 4) as [d4 ?]; (destruct (DatumGetByteaP d4); [|done]).
  destruct (SPI_getbinval t td 5) as [d5 ?]. by rewrite H6.
Qed.

(** Under four columns a row with an inode kills the backend: at the
    mountpoint, the rel_path or the header where one of them cannot be
    read, and at prepend otherwise, which is past the last column. *)
Lemma insert_files_row_four_dies stmt td t d :
  natts td = 4 → t !! 0%nat = Some (Some d) → insert_files_row stmt td t = died.
Proof.
  intros Hn H0. unfold insert_files_row, required_column, optional_column, by_value.
  assert (SPI_getbinval t td 6 = (DNull, true)) as H6.
  { unfold SPI_getbinval. rewrite Hn. by case_decide as Hd; [|destruct Hd; left]. }
  rewrite (SPI_getbinval_in_range t td 0), (SPI_getbinval_in_range t td 1),
    (SPI_getbinval_in_range t td 2), (SPI_getbinval_in_range t td 3) by lia.
  rewrite H6, H0.
  destruct (t !! 1%nat) as [[d1|]|]; [|done..]. destruct (DatumGetTextPP d1); [|done].
  destruct (t !! 2%nat) as [[d2|]|]; [|done..]. destruct (DatumGetTextPP d2); [|done].
  destruct (t !! 3%nat) as [[d3|]|]; simpl; [destruct (DatumGetByteaP d3); [|done]|..];
    by destruct (SPI_getbinval t td 5) as [? []].
Qed.

(** The statements of the files loader write nothing, whatever the query
    gave. *)
Lemma insert_files_statements_write_nothing q : writes_nothing (insert_files_statements q).
Proof.
  intros c c' r. unfold insert_files_statements, loader_statements.
  destruct (before_the_loop_pure upsert_files insert_files_check q c pure_insert_files_check)
    as ([rc|stmt] & -> & Hr).
  - intros [= <- <-]. by right.
  - destruct (Hr stmt eq_refl) as (_ & _ & He & Hcheck).
    apply insert_files_check_passes in Hcheck as (Hattrs & _).
    assert (natts (tupdesc (SPI_tuptable q)) = 4) as Hn by (unfold natts; by rewrite Hattrs).
    destruct (vals (SPI_tuptable q)) as [|t rest] eqn:Hrows.
    + simpl. intros [= <- <-]. left. by rewrite He.
    + intros Hloop. left.
      destruct (for_each_row_stops
                  (insert_files_row stmt (tupdesc (SPI_tuptable q))) (t :: rest) t
                  (list_elem_of_here _ _)
                  (λ m, insert_files_row_four stmt _ t m Hn)
                  (λ t' rc, insert_files_row_leaves stmt _ t' rc)
                  (λ t' m c0 c1 rc, insert_files_row_codes stmt _ t' m c0 c1 rc)
                  _ _ _ _ Hloop) as (rc & -> & Hrc).
      done.
Qed.

(** C5 (as the code has it). [pg_sqlite_fs_insert_files] binds no column
    of any row, null or not: whatever the query gave, the store file after
    the call holds what it held before, and the call returns [true] or the
    backend dies. In its loop body a null inode leaves with [rc = 1].
    Under four columns, the one count the shape check lets through, every
    row with an inode kills the backend: prepend is read past the last
    column. Under the seven columns the loop reads, a null mountpoint,
    rel_path, header, prepend or append is handed to [DatumGetTextPP] or
    [DatumGetByteaP] before its flag is looked at, and the backend dies
    there: no null is bound and no error is reported. *)
Theorem insert_files_row_processing :
  (∀ (a : loader_args) q (fs : option database),
     ld_nargs a = 2 → isnull (ld_db_path a) = false → isnull (ld_query a) = false →
     (pg_sqlite_fs_insert_files a q fs).1 = Some (default empty_database fs)
     ∧ ((pg_sqlite_fs_insert_files a q fs).2 = Ret true
        ∨ (pg_sqlite_fs_insert_files a q fs).2 = Crashed))
  ∧ (∀ stmt td t, t !! 0%nat = Some None → insert_files_row stmt td t = leaves 1)
  ∧ (∀ stmt td t d, natts td = 4 → t !! 0%nat = Some (Some d) →
       insert_files_row stmt td t = died)
  ∧ (∀ stmt td (inode : Datum) (mnt path : string) (o3 o4 o5 o6 o7 : option Datum),
       natts td = 7 →
       insert_files_row stmt td [Some inode; None; o3; o4; o5; o6; o7] = died
       ∧ insert_files_row stmt td [Some inode; Some (DText mnt); None; o4; o5; o6; o7] = died
       ∧ insert_files_row stmt td
           [Some inode; Some (DText mnt); Some (DText path); None; o5; o6; o7] = died
       ∧ insert_files_row stmt td
           [Some inode; Some (DText mnt); Some (DText path); o4; o5; None; o7] = died
       ∧ insert_files_row stmt td
           [Some inode; Some (DText mnt); Some (DText path); o4; o5; o6; None] = died).
Proof.
  split; [|split; [|split]].
  - intros a q fs Hn Hp Hq.
    unfold pg_sqlite_fs_insert_files. rewrite Hp, Hq. case_decide; [done|]. simpl.
    apply in_transaction_writes_nothing.
    + apply keeps_journal_insert_files_statements.
    + apply insert_files_statements_write_nothing.
  - intros stmt td t Ht. unfold insert_files_row, required_column, by_value.
    by rewrite (SPI_getbinval_null t td 0 Ht).
  - apply insert_files_row_four_dies.
  - intros stmt td inode mnt path o3 o4 o5 o6 o7 Hn.
    unfold insert_files_row, required_column, optional_column, by_value.
    rewrite !SPI_getbinval_in_range by lia. simpl.
    repeat split; try done.
    + by destruct o4 as [[]|], o5.
    + by destruct o4 as [[]|], o5, o6 as [[]|].
Qed.

(** *** The ninth column of the entries loader *)

Lemma SPI_getbinval_take (n : nat) t1 t2 td1 td2 (f : nat) :
  (f ≤ n)%nat → natts td1 = natts td2 → take n t1 = take n t2 →
  SPI_getbinval t1 td1 f = SPI_getbinval t2 td2 f.
Proof.
  intros Hf Hn Ht. unfold SPI_getbinval. rewrite Hn.
  case_decide as Hd; [done|].
  assert (t1 !! (f - 1)%nat = t2 !! (f - 1)%nat) as Heq; [|by rewrite Heq].
  rewrite <- (lookup_take_lt t1 n (f - 1)), <- (lookup_take_lt t2 n (f - 1)) by lia.
  by rewrite Ht.
Qed.

Lemma insert_entries_row_take stmt td1 td2 t1 t2 :
  natts td1 = natts td2 → take 8 t1 = take 8 t2 →
  insert_entries_row stmt td1 t1 = insert_entries_row stmt td2 t2.
Proof.
  intros Hn Ht. unfold insert_entries_row, required_column.
  rewrite (SPI_getbinval_take 8 t1 t2 td1 td2 1), (SPI_getbinval_take 8 t1 t2 td1 td2 2),
    (SPI_getbinval_take 8 t1 t2 td1 td2 3), (SPI_getbinval_take 8 t1 t2 td1 td2 4),
    (SPI_getbinval_take 8 t1 t2 td1 td2 5), (SPI_getbinval_take 8 t1 t2 td1 td2 6),
    (SPI_getbinval_take 8 t1 t2 td1 td2 7), (SPI_getbinval_take 8 t1 t2 td1 td2 8)
    by (done || lia).
  done.
Qed.

Lemma for_each_row_take stmt td1 td2 rows1 rows2 rc c :
  natts td1 = natts td2 → take 8 <$> rows1 = take 8 <$> rows2 →
  for_each_row (insert_entries_row stmt td1) rows1 rc c
  = for_each_row (insert_entries_row stmt td2) rows2 rc c.
Proof.
  intros Hn. revert rows2 rc c.
  induction rows1 as [|t1 rows1 IH]; intros [|t2 rows2] rc c Hrows; try done.
  simpl in *. injection Hrows as Ht Hrows.
  rewrite (insert_entries_row_take stmt td1 td2 t1 t2 Hn Ht).
  destruct (insert_entries_row stmt td2 t2) as [|rc'|m]; [done..|].
  destruct (m c) as [c' [rc'|rc']]; [done|].
  by apply IH.
Qed.

Lemma insert_entries_check_take td1 td2 (c : sqlite3) :
  natts td1 = natts td2 → take 8 (attrs td1) = take 8 (attrs td2) →
  insert_entries_check td1 c = insert_entries_check td2 c.
Proof.
  intros Hn Ha. unfold insert_entries_check. rewrite Hn.
  assert (∀ p : nat, (p < 8)%nat → natts td2 = 9 →
            TupleDescAttr td1 p = TupleDescAttr td2 p) as Hattr.
  { intros p Hp H9. unfold TupleDescAttr.
    rewrite <- (lookup_take_lt (attrs td1) 8 p), <- (lookup_take_lt (attrs td2) 8 p) by lia.
    rewrite Ha. destruct (take 8 (attrs td2) !! p) eqn:Hl; [done|].
    apply lookup_take_None in Hl as [Hl%lookup_ge_None|?]; unfold natts in *; lia. }
  unfold_body. case_decide as H9; [done|].
  assert (natts td2 = 9) as H9' by (by destruct (decide (natts td2 = 9))).
  rewrite !Hattr by (done || lia). done.
Qed.

(** C10. The entries loader of [src/pg.c] wants nine columns and looks at
    eight: a row-set without exactly nine columns is refused (rc = 3), and
    two row-sets that agree on the number of columns and on the types and
    values of the first eight columns give the same store and the same
    return value, whatever the type and the values of the ninth. *)
Theorem insert_entries_ignores_ninth_column :
  (∀ td (c : sqlite3), natts td ≠ 9 → insert_entries_check td c = (c, inl 3))
  ∧ (∀ (a : loader_args) (q1 q2 : spi_result) (fs : option database),
       connect_rc q1 = connect_rc q2 → execute_rc q1 = execute_rc q2 →
       natts (tupdesc (SPI_tuptable q1)) = natts (tupdesc (SPI_tuptable q2)) →
       take 8 (attrs (tupdesc (SPI_tuptable q1))) = take 8 (attrs (tupdesc (SPI_tuptable q2))) →
       take 8 <$> vals (SPI_tuptable q1) = take 8 <$> vals (SPI_tuptable q2) →
       pg_sqlite_fs_insert_entries a q1 fs = pg_sqlite_fs_insert_entries a q2 fs).
Proof.
  split.
  - intros td c Hn. unfold insert_entries_check. unfold_body. by case_decide.
  - intros a q1 q2 fs Hc He Hn Ha Hv. unfold pg_sqlite_fs_insert_entries.
    case_decide; [done|]. destruct (_ || _); [done|].
    rewrite !in_transaction_result by apply keeps_journal_insert_entries_statements.
    simpl.
    assert (∀ c, insert_entries_statements q1 c = insert_entries_statements q2 c) as Heq.
    { intros c. apply loader_statements_ext; [done|done|..].
      - intros c'. by apply insert_entries_check_take.
      - intros stmt rc c'. by apply for_each_row_take. }
    by rewrite Heq.
Qed.

End PgLoaderFacts.

(** ** src/pg.c: creation, single rows, deletion, truncation *)

Module PgStoreFacts.
Import Sqlite SqliteFacts Pg.

Lemma to_int64_id z : -2 ^ 63 ≤ z < 2 ^ 63 → to_int64 z = z.
Proof. intros Hz. unfold to_int64. rewrite Z.mod_small by lia. lia. Qed.

(** *** pg_sqlite_fs_delete_entry *)

Lemma delete_entry_present i (d : database) t :
  entries d = Some t →
  pg_sqlite_fs_delete_entry i (Some d) =
    (Some {| files := files d;
             extended_attributes := extended_attributes d;
             entries := Some {| rows := filter (λ '(k, e), ¬ (k = i ∨ parent_inode e = i)) (rows t);
                                names := names t; listing := listing t |} |},
     Ret true).
Proof.
  intros Ht. unfold pg_sqlite_fs_delete_entry, delete_entry_statements.
  unfold_body. unfold_sqlite. simpl. rewrite Ht. simpl.
  unfold delete_from_entries. by rewrite Ht.
Qed.

Lemma delete_entry_no_table i (d : database) :
  entries d = None → pg_sqlite_fs_delete_entry i (Some d) = (Some d, Ret false).
Proof.
  intros Ht. unfold pg_sqlite_fs_delete_entry, delete_entry_statements.
  unfold_body. unfold_sqlite. simpl. by rewrite Ht.
Qed.

(** What is left of [entries] after the call, for every state of the file. *)
Lemma delete_entry_entries i (fs : option database) k e :
  entries_of (pg_sqlite_fs_delete_entry i fs).1 !! k = Some e
  ↔ entries_of fs !! k = Some e ∧ k ≠ i ∧ parent_inode e ≠ i.
Proof.
  destruct fs as [d|]; [|simpl; rewrite lookup_empty; split; [done|by intros [? _]]].
  destruct (entries d) as [t|] eqn:Ht.
  - rewrite (delete_entry_present i d t Ht). simpl. rewrite Ht.
    rewrite map_lookup_filter_Some. simpl. tauto.
  - rewrite (delete_entry_no_table i d Ht). simpl. rewrite Ht, lookup_empty.
    split; [done|by intros [? _]].
Qed.

(** C8. [pg_sqlite_fs_delete_entry] with inode [i]: on a store with its
    entries table the call succeeds; afterwards the entries are exactly
    those from before whose inode is not [i] and whose parent_inode is not
    [i]. So a grandchild [g] of [i] (its parent [c] is a child of [i], and
    [g] is neither [i] nor a child of [i]) is still there, unchanged, while
    the row its parent_inode names is gone. *)
Theorem delete_entry_one_level (i : Z) :
  (∀ (d : database) t, entries d = Some t →
     (pg_sqlite_fs_delete_entry i (Some d)).2 = Ret true)
  ∧ (∀ (fs : option database) k e,
       entries_of (pg_sqlite_fs_delete_entry i fs).1 !! k = Some e
       ↔ entries_of fs !! k = Some e ∧ k ≠ i ∧ parent_inode e ≠ i)
  ∧ (∀ (fs : option database) g c eg ec,
       entries_of fs !! g = Some eg → parent_inode eg = c →
       entries_of fs !! c = Some ec → parent_inode ec = i →
       g ≠ i → c ≠ i →
       entries_of (pg_sqlite_fs_delete_entry i fs).1 !! g = Some eg
       ∧ entries_of (pg_sqlite_fs_delete_entry i fs).1 !! c = None).
Proof.
  split; [|split].
  - intros d t Ht. by rewrite (delete_entry_present i d t Ht).
  - intros fs k e. apply delete_entry_entries.
  - intros fs g c eg ec Hg Hgc Hc Hci Hgi Hcne. split.
    + apply delete_entry_entries. split; [done|]. split; [done|]. by rewrite Hgc.
    + destruct (entries_of (pg_sqlite_fs_delete_entry i fs).1 !! c) as [e'|] eqn:Hl; [|done].
      apply delete_entry_entries in Hl as (Hl & _ & Hp).
      rewrite Hc in Hl. injection Hl as <-. done.
Qed.

(** *** The truncations *)

Lemma truncate_entries_entries (fs : option database) k :
  entries_of (pg_sqlite_fs_truncate_entries fs).1 !! k
  = if decide (k > 1) then None else entries_of fs !! k.
Proof.
  destruct fs as [d|]; [|simpl; rewrite lookup_empty; by case_decide].
  unfold pg_sqlite_fs_truncate_entries, pg_sqlite_fs_truncate_table.
  unfold_sqlite. unfold delete_from_entries. simpl.
  destruct (entries d) as [t|] eqn:Ht; simpl; rewrite ?Ht.
  - case_decide as Hk.
    + apply map_lookup_filter_None. right. intros e _. simpl. tauto.
    + destruct (rows t !! k) as [e|] eqn:Hl.
      * apply map_lookup_filter_Some. split; [done|]. simpl. tauto.
      * apply map_lookup_filter_None. by left.
  - rewrite lookup_empty. by case_decide.
Qed.

Lemma truncate_files_files (fs : option database) :
  files_of (pg_sqlite_fs_truncate_files fs).1 = ∅.
Proof.
  destruct fs as [d|]; [|done].
  unfold pg_sqlite_fs_truncate_files, pg_sqlite_fs_truncate_table.
  unfold_sqlite. unfold delete_from_files. simpl.
  destruct (files d) as [t|] eqn:Ht; simpl; rewrite ?Ht; simpl; [|done].
  apply map_empty. intros k. apply map_lookup_filter_None. right. intros f _. simpl. tauto.
Qed.

(** C7 (amended). [pg_sqlite_fs_truncate_files] leaves the files table
    empty. [pg_sqlite_fs_truncate_entries] removes the entries whose inode
    is greater than 1 and keeps every other entry as it was: the entry with
    inode 1, and also any entry with inode 0 or a negative inode. Both
    succeed on a store that has the table. *)
Theorem truncate_files_and_entries :
  (∀ fs : option database, files_of (pg_sqlite_fs_truncate_files fs).1 = ∅)
  ∧ (∀ (fs : option database) k,
       entries_of (pg_sqlite_fs_truncate_entries fs).1 !! k
       = if decide (k > 1) then None else entries_of fs !! k)
  ∧ (∀ (d : database) t, files d = Some t →
       (pg_sqlite_fs_truncate_files (Some d)).2 = Ret true)
  ∧ (∀ (d : database) t, entries d = Some t →
       (pg_sqlite_fs_truncate_entries (Some d)).2 = Ret true).
Proof.
  split; [|split; [|split]].
  - apply truncate_files_files.
  - apply truncate_entries_entries.
  - intros d t Ht. unfold pg_sqlite_fs_truncate_files, pg_sqlite_fs_truncate_table.
    unfold_sqlite. unfold delete_from_files. simpl. by rewrite Ht.
  - intros d t Ht. unfold pg_sqlite_fs_truncate_entries, pg_sqlite_fs_truncate_table.
    unfold_sqlite. unfold delete_from_entries. simpl. by rewrite Ht.
Qed.

(** *** pg_sqlite_fs_create *)

(** The whole effect of a call that passes its argument checks. The call
    fails only when the unique index cannot be built on rows that were
    already there; the tables created before that point stay. *)
Lemma create_result (a : path_args) (fs : option database) :
  nargs a = 1 → isnull (db_path a) = false →
  pg_sqlite_fs_create a fs =
    let d := default empty_database fs in
    let t := default {| rows := ∅; names := false; listing := false |} (entries d) in
    if decide (names t = false ∧ ¬ names_unique (rows t))
    then (Some {| files := Some (default ∅ (files d));
                  extended_attributes := Some (default ∅ (extended_attributes d));
                  entries := Some t |}, Ret false)
    else (Some {| files := Some (default ∅ (files d));
                  extended_attributes := Some (default ∅ (extended_attributes d));
                  entries :=
                    Some {| rows := if decide (is_Some (rows t !! 1)
                                               ∨ names_taken (rows t) 1 root_entry)
                                    then rows t else <[1 := root_entry]> (rows t);
                            names := true; listing := true |} |},
          Ret true).
Proof.
  intros Hn Hp. unfold pg_sqlite_fs_create. rewrite Hp. case_decide; [done|].
  unfold create_statements. unfold_body. unfold_sqlite. simpl.
  unfold create_index_names. simpl. case_decide as Hidx; simpl; [done|].
  unfold insert_root. simpl.
  repeat (case_decide; simpl); try done; exfalso; intuition congruence.
Qed.

Lemma names_taken_empty (i : Z) (e : entry) : ¬ names_taken (∅ : gmap Z entry) i e.
Proof. intros (k & e' & Hl & _). by rewrite lookup_empty in Hl. Qed.

Lemma names_unique_empty : names_unique (∅ : gmap Z entry).
Proof. intros k e Hl. by rewrite lookup_empty in Hl. Qed.

Lemma create_on_absent (a : path_args) :
  nargs a = 1 → isnull (db_path a) = false →
  pg_sqlite_fs_create a None =
    (Some {| files := Some ∅; extended_attributes := Some ∅;
             entries := Some {| rows := {[1 := root_entry]};
                                names := true; listing := true |} |}, Ret true).
Proof.
  intros Hn Hp. rewrite create_result by done. simpl.
  case_decide as Hidx; [destruct Hidx as [_ Hu]; destruct Hu; apply names_unique_empty|].
  case_decide as Hroot; [|done].
  destruct Hroot as [Hs|Ht]; [by rewrite lookup_empty in Hs; destruct Hs|].
  by apply names_taken_empty in Ht.
Qed.

(** C4 (amended). [pg_sqlite_fs_create] on a missing file succeeds and
    leaves the root (inode 1, name "/", parent_inode 1) as the only entry;
    on any store, a call that succeeds leaves the root under inode 1 when
    no entry had inode 1 and none had the name "/" under parent 1 (with
    such an entry the INSERT does nothing). [pg_sqlite_fs_truncate_entries]
    keeps whatever entry has inode 1. [pg_sqlite_fs_delete_entry] with an
    inode other than 1 keeps the root; with inode 1 it removes it. *)
Theorem root_entry_lifecycle :
  (∀ a : path_args, nargs a = 1 → isnull (db_path a) = false →
     ∃ fs', pg_sqlite_fs_create a None = (fs', Ret true)
            ∧ entries_of fs' = {[1 := root_entry]})
  ∧ (∀ (a : path_args) (fs fs' : option database),
       pg_sqlite_fs_create a fs = (fs', Ret true) →
       entries_of fs !! 1 = None → ¬ names_taken (entries_of fs) 1 root_entry →
       entries_of fs' !! 1 = Some root_entry)
  ∧ (∀ fs : option database,
       entries_of (pg_sqlite_fs_truncate_entries fs).1 !! 1 = entries_of fs !! 1)
  ∧ (∀ (i : Z) (fs : option database) e,
       i ≠ 1 → entries_of fs !! 1 = Some e → parent_inode e = 1 →
       entries_of (pg_sqlite_fs_delete_entry i fs).1 !! 1 = Some e)
  ∧ (∀ fs : option database,
       entries_of (pg_sqlite_fs_delete_entry 1 fs).1 !! 1 = None).
Proof.
  split; [|split; [|split; [|split]]].
  - intros a Hn Hp. eexists. split; [by apply create_on_absent|done].
  - intros a fs fs' Hcreate Hnone Hfree.
    unfold pg_sqlite_fs_create in Hcreate.
    destruct (decide (nargs a ≠ 1)) as [|Hn]; [done|].
    destruct (isnull (db_path a)) eqn:Hp; [done|].
    assert (nargs a = 1) as Hn' by (by destruct (decide (nargs a = 1))).
    pose proof (create_result a fs Hn' Hp) as Hres.
    unfold pg_sqlite_fs_create in Hres. rewrite Hp in Hres.
    destruct (decide (nargs a ≠ 1)); [done|]. rewrite Hres in Hcreate. clear Hres.
    simpl in Hcreate. case_decide as Hidx; [done|].
    injection Hcreate as <-. simpl.
    assert (rows (default {| rows := ∅; names := false; listing := false |}
                    (entries (default empty_database fs))) = entries_of fs) as Hrows.
    { destruct fs as [d|]; [|done]. simpl. by destruct (entries d). }
    rewrite Hrows. case_decide as Hroot.
    + destruct Hroot as [Hs|Ht]; [|done]. rewrite Hnone in Hs. by destruct Hs.
    + apply lookup_insert_eq.
  - intros fs. rewrite truncate_entries_entries. by case_decide.
  - intros i fs e Hi Hl Hp. apply delete_entry_entries. split; [done|]. split; [done|].
    by rewrite Hp.
  - intros fs. destruct (entries_of _ !! 1) as [e|] eqn:Hl; [|done].
    apply delete_entry_entries in Hl as (_ & Hne & _). done.
Qed.

(** *** pg_sqlite_fs_insert_entry *)

(** The whole effect of a call that passes its argument checks. *)
Lemma insert_entry_result (a : insert_entry_args) (fs : option database) :
  ¬ ie_nargs a < 4 →
  isnull (ie_db_path a) = false → isnull (ie_inode a) = false →
  isnull (ie_name a) = false → isnull (ie_parent_inode a) = false →
  pg_sqlite_fs_insert_entry a fs =
    let d := default empty_database fs in
    match entries d with
    | None => (Some d, Ret false)
    | Some t =>
        if decide (names t = true ∧ names_taken (rows t) (entry_of_args a).1 (entry_of_args a).2)
        then (Some d, Ret false)
        else (Some {| files := files d;
                      extended_attributes := extended_attributes d;
                      entries := Some {| rows := <[(entry_of_args a).1 := (entry_of_args a).2]>
                                                   (rows t);
                                         names := names t; listing := listing t |} |},
              Ret true)
    end.
Proof.
  intros Hn Hp Hi Hna Hpa. unfold pg_sqlite_fs_insert_entry.
  rewrite Hp, Hi, Hna, Hpa. case_decide; [done|].
  unfold insert_entry_statements. unfold_body. unfold_sqlite. simpl.
  destruct (entries (default empty_database fs)) as [t|] eqn:Ht; simpl; [|done].
  rewrite Ht. by case_decide.
Qed.

(** C6. On a store with the unique index [names] (every store made by
    [pg_sqlite_fs_create] has it), [pg_sqlite_fs_insert_entry] with the
    (parent_inode, name) pair of an entry that has another inode is refused
    by the engine with SQLITE_CONSTRAINT; the call returns [false] and the
    store file is as before. *)
Theorem insert_entry_duplicate_name
    (a : insert_entry_args) (d : database) (t : entries_table entry) (k : Z) (e : entry) :
  ¬ ie_nargs a < 4 →
  isnull (ie_db_path a) = false → isnull (ie_inode a) = false →
  isnull (ie_name a) = false → isnull (ie_parent_inode a) = false →
  entries d = Some t → names t = true →
  rows t !! k = Some e → k ≠ PG_GETARG_INT64 (ie_inode a) →
  parent_inode e = PG_GETARG_INT64 (ie_parent_inode a) → name e = value (ie_name a) →
  sqlite3_step (Some upsert_entries) (entry_of_args a) {| main := d; journal := None |}
    = ({| main := d; journal := None |}, SQLITE_CONSTRAINT)
  ∧ pg_sqlite_fs_insert_entry a (Some d) = (Some d, Ret false).
Proof.
  intros Hn Hp Hi Hna Hpa Ht Hidx Hl Hk Hpar Hname.
  assert (names_taken (rows t) (entry_of_args a).1 (entry_of_args a).2) as Htaken.
  { exists k, e. split; [done|]. simpl. done. }
  split.
  - unfold_sqlite. simpl. rewrite Ht. by case_decide as Hc; [|destruct Hc].
  - rewrite insert_entry_result by done. simpl. rewrite Ht.
    by case_decide as Hc; [|destruct Hc].
Qed.

(** *** The unique index through the single-row operations *)

Lemma create_installs_names (a : path_args) (fs fs' : option database) :
  nargs a = 1 → isnull (db_path a) = false →
  pg_sqlite_fs_create a fs = (fs', Ret true) → names_indexed fs'.
Proof.
  intros Hn Hp. rewrite create_result by done. simpl.
  case_decide; [done|]. by intros [= <-].
Qed.

Lemma create_keeps_names (a : path_args) (fs : option database) :
  nargs a = 1 → isnull (db_path a) = false →
  names_hold fs → names_hold (pg_sqlite_fs_create a fs).1.
Proof.
  intros Hn Hp Hold. rewrite create_result by done. simpl.
  set (t := default {| rows := ∅; names := false; listing := false |}
              (entries (default empty_database fs))) in *.
  assert (names t = true → names_unique (rows t)) as Ht.
  { subst t. destruct fs as [d|]; simpl in *; [|done]. by destruct (entries d). }
  case_decide as Hidx; simpl; [done|]. intros _.
  assert (names_unique (rows t)) as Hu.
  { destruct (names t) eqn:Hnm; [by apply Ht|].
    destruct (decide (names_unique (rows t))) as [|Hnu]; [done|].
    destruct Hidx. by split. }
  case_decide as Hroot; [done|].
  apply names_unique_insert; [done|]. intros Htaken. apply Hroot. by right.
Qed.

Lemma insert_entry_keeps_names (a : insert_entry_args) (fs : option database) :
  names_hold fs → names_hold (pg_sqlite_fs_insert_entry a fs).1.
Proof.
  intros Hold. unfold pg_sqlite_fs_insert_entry.
  destruct (decide (ie_nargs a < 4)) as [|Hn]; [done|].
  destruct (isnull (ie_db_path a)) eqn:Hp; [done|].
  destruct (isnull (ie_inode a)) eqn:Hi; [done|].
  destruct (isnull (ie_name a)) eqn:Hna; [done|].
  destruct (isnull (ie_parent_inode a)) eqn:Hpa; [done|].
  pose proof (insert_entry_result a fs Hn Hp Hi Hna Hpa) as Hres.
  unfold pg_sqlite_fs_insert_entry in Hres. rewrite Hp, Hi, Hna, Hpa in Hres.
  destruct (decide (ie_nargs a < 4)); [done|]. simpl in Hres. simpl. rewrite Hres.
  clear Hres.
  destruct fs as [d|]; simpl in *; [|done].
  destruct (entries d) as [t|] eqn:Ht; simpl; [|by rewrite Ht].
  case_decide as Hc; simpl; [by rewrite Ht|].
  intros Hnm. apply names_unique_insert; [by apply Hold|].
  intros Htaken. apply Hc. by split.
Qed.

Lemma delete_entry_keeps_names (i : Z) (fs : option database) :
  names_hold fs → names_hold (pg_sqlite_fs_delete_entry i fs).1.
Proof.
  intros Hold. destruct fs as [d|]; [|done].
  destruct (entries d) as [t|] eqn:Ht.
  - rewrite (delete_entry_present i d t Ht). simpl. intros Hnm.
    apply names_unique_filter. simpl in Hold. rewrite Ht in Hold. by apply Hold.
  - rewrite (delete_entry_no_table i d Ht). simpl. by rewrite Ht.
Qed.

(** *** The store file while it does not exist *)

Lemma loader_on_absent {P} (s : stmt_sql P) check row_body q :
  compiles s empty_database = false →
  in_transaction (loader_statements s check row_body q) None
  = (Some empty_database, Ret true).
Proof.
  intros Hs. unfold in_transaction, loader_statements, before_the_loop.
  unfold_body. unfold_sqlite. simpl. rewrite Hs. done.
Qed.

(** C3 (amended). On a missing store file:
    - [pg_sqlite_fs_delete_file], [pg_sqlite_fs_delete_entry] and the three
      truncations open with SQLITE_OPEN_READWRITE alone: the open fails,
      the call leaves through [E(...)] and the file is still missing;
    - [pg_sqlite_fs_insert_file], [pg_sqlite_fs_insert_entry],
      [pg_sqlite_fs_insert_files] and [pg_sqlite_fs_insert_entries] open
      with [sqlite3_open], which creates the file: afterwards the file
      exists as an empty database, without a table, and the two single-row
      inserts return [false];
    - [pg_sqlite_fs_exec] opens with [sqlite3_open] too: afterwards the
      file exists and holds what the caller's statement makes of an empty
      database, and the call returns [true] exactly when the statement
      succeeded;
    - [pg_sqlite_fs_create] creates the file with its tables and the root;
      [pg_sqlite_fs_remove] returns [false]. *)
Theorem operations_on_absent_store :
  (∀ i, pg_sqlite_fs_delete_file i None = (None, Raised))
  ∧ (∀ i, pg_sqlite_fs_delete_entry i None = (None, Raised))
  ∧ pg_sqlite_fs_truncate_entries None = (None, Raised)
  ∧ pg_sqlite_fs_truncate_files None = (None, Raised)
  ∧ pg_sqlite_fs_truncate_attributes None = (None, Raised)
  ∧ (∀ a : insert_file_args,
       if_nargs a = 8 → isnull (if_db_path a) = false → isnull (if_inode a) = false →
       pg_sqlite_fs_insert_file a None = (Some empty_database, Ret false))
  ∧ (∀ a : insert_entry_args,
       ¬ ie_nargs a < 4 →
       isnull (ie_db_path a) = false → isnull (ie_inode a) = false →
       isnull (ie_name a) = false → isnull (ie_parent_inode a) = false →
       pg_sqlite_fs_insert_entry a None = (Some empty_database, Ret false))
  ∧ (∀ (a : loader_args) q,
       ld_nargs a = 2 → isnull (ld_db_path a) = false → isnull (ld_query a) = false →
       (pg_sqlite_fs_insert_files a q None).1 = Some empty_database)
  ∧ (∀ (a : loader_args) q,
       ld_nargs a = 2 → isnull (ld_db_path a) = false → isnull (ld_query a) = false →
       (pg_sqlite_fs_insert_entries a q None).1 = Some empty_database)
  ∧ (∀ meaning (a : exec_args),
       ex_nargs a = 2 → isnull (ex_db_path a) = false → isnull (ex_sql a) = false →
       pg_sqlite_fs_exec meaning a None
       = (Some (meaning (value (ex_sql a)) empty_database).1,
          Ret (bool_decide ((meaning (value (ex_sql a)) empty_database).2 = SQLITE_OK))))
  ∧ (∀ a : path_args, nargs a = 1 → isnull (db_path a) = false →
       ∃ d, pg_sqlite_fs_create a None = (Some d, Ret true)
            ∧ entries_of (Some d) = {[1 := root_entry]})
  ∧ (∀ a : path_args, nargs a = 1 → isnull (db_path a) = false →
       pg_sqlite_fs_remove a None = (None, Ret false)).
Proof.
  repeat split; try done.
  - intros a Hn Hp Hi. unfold pg_sqlite_fs_insert_file. rewrite Hp, Hi.
    by case_decide.
  - intros a Hn Hp Hi Hna Hpa. by rewrite insert_entry_result.
  - intros a q Hn Hp Hq. unfold pg_sqlite_fs_insert_files. rewrite Hp, Hq.
    case_decide; [done|]. cbn [orb].
    unfold insert_files_statements. by rewrite loader_on_absent.
  - intros a q Hn Hp Hq. unfold pg_sqlite_fs_insert_entries. rewrite Hp, Hq.
    case_decide; [done|]. cbn [orb].
    unfold insert_entries_statements. by rewrite loader_on_absent.
  - intros meaning a Hn Hp Hq. unfold pg_sqlite_fs_exec. rewrite Hp, Hq.
    case_decide; [done|]. unfold exec_statements.
    unfold_body. unfold_sqlite. simpl.
    destruct (meaning (value (ex_sql a)) empty_database) as [d' rc]. simpl.
    unfold rc_bool. case_decide as Hrc; simpl; [|by subst rc].
    by rewrite !bool_decide_eq_false_2.
  - intros a Hn Hp. eexists. split; [by apply create_on_absent|done].
  - intros a Hn Hp. unfold pg_sqlite_fs_remove. rewrite Hp. by case_decide.
Qed.

End PgStoreFacts.

(** ** src/pg_sqlite_fs.c: the shape check of the files loader *)

Module PgSqliteFsFacts.
Import Sqlite SqliteFacts PgSqliteFs.

(** In this revision the count compared with [natts] is the number of
    types checked: a row-set passes exactly when it has the three columns
    the loader writes, with their types, in order. *)
Lemma old_insert_files_check_passes td (c : sqlite3) :
  insert_files_check td c = (c, inr ()) ↔ attrs td = [INT8OID; TEXTOID; BYTEAOID].
Proof.
  unfold insert_files_check. unfold_body. unfold natts, TupleDescAttr.
  destruct td as [l pe]. cbn [attrs past_end]. split.
  - case_decide as Hn; [done|].
    destruct l as [|a0 [|a1 [|a2 [|a3 l]]]]; cbn [length] in Hn; try lia.
    simpl. repeat (case_decide; [done|]). intros _.
    simpl in *. congruence.
  - intros ->. reflexivity.
Qed.

Lemma old_insert_files_check_refuses td (c : sqlite3) :
  attrs td ≠ [INT8OID; TEXTOID; BYTEAOID] →
  ∃ rc, rc ≠ 0 ∧ insert_files_check td c = (c, inl rc).
Proof.
  intros Hne. destruct (insert_files_check td c) as [c' [rc|[]]] eqn:Hcheck.
  - revert Hcheck. unfold insert_files_check. unfold_body.
    repeat (case_decide; [intros [= <- <-]; eexists; split; [|done]; done|]).
    done.
  - assert (c' = c) as ->.
    { revert Hcheck. unfold insert_files_check. unfold_body.
      repeat (case_decide; [done|]). by intros [= ->]. }
    by apply old_insert_files_check_passes in Hcheck.
Qed.

End PgSqliteFsFacts.

(** ** Writing an entry and reading it back, in both revisions *)

Module EntryRoundTrip.
Import Sqlite SqliteFacts.

Lemma PG_GETARG_INT64_value (a : NullableDatum Z) :
  int64 (value a) → PG_GETARG_INT64 a = value a.
Proof. intros Hz. unfold PG_GETARG_INT64. by apply PgStoreFacts.to_int64_id. Qed.

(** A call that returned [true] passed the argument checks, found the
    entries table and wrote its row. *)
Lemma insert_entry_true (a : Pg.insert_entry_args) (fs fs' : option Pg.database) :
  Pg.pg_sqlite_fs_insert_entry a fs = (fs', Ret true) →
  Pg.entries_of fs' !! (Pg.entry_of_args a).1 = Some (Pg.entry_of_args a).2.
Proof.
  intros Hcall. unfold Pg.pg_sqlite_fs_insert_entry in Hcall.
  destruct (decide (Pg.ie_nargs a < 4)) as [|Hn]; [done|].
  destruct (isnull (Pg.ie_db_path a)) eqn:Hp; [done|].
  destruct (isnull (Pg.ie_inode a)) eqn:Hi; [done|].
  destruct (isnull (Pg.ie_name a)) eqn:Hna; [done|].
  destruct (isnull (Pg.ie_parent_inode a)) eqn:Hpa; [done|].
  pose proof (PgStoreFacts.insert_entry_result a fs Hn Hp Hi Hna Hpa) as Hres.
  unfold Pg.pg_sqlite_fs_insert_entry in Hres. rewrite Hp, Hi, Hna, Hpa in Hres.
  destruct (decide (Pg.ie_nargs a < 4)); [done|]. simpl in Hcall, Hres.
  rewrite Hres in Hcall. clear Hres.
  destruct (entries (default empty_database fs)) as [t|]; [|done].
  case_decide; [done|]. injection Hcall as <-. simpl. apply lookup_insert_eq.
Qed.

Lemma old_insert_entry_true (a : PgSqliteFs.insert_entry_args)
    (fs fs' : option PgSqliteFs.database) :
  PgSqliteFs.pg_sqlite_fs_insert_entry a fs = (fs', Ret true) →
  PgSqliteFs.entries_of fs' !! (PgSqliteFs.entry_of_args a).1
  = Some (PgSqliteFs.entry_of_args a).2.
Proof.
  intros Hcall. unfold PgSqliteFs.pg_sqlite_fs_insert_entry in Hcall.
  destruct (decide (PgSqliteFs.ie_nargs a < 4)) as [|Hn]; [done|].
  destruct (isnull (PgSqliteFs.ie_db_path a)) eqn:Hp; [done|].
  destruct (isnull (PgSqliteFs.ie_inode a)) eqn:Hi; [done|].
  destruct (isnull (PgSqliteFs.ie_name a)) eqn:Hna; [done|].
  destruct (isnull (PgSqliteFs.ie_parent_inode a)) eqn:Hpa; [done|].
  revert Hcall. unfold PgSqliteFs.insert_entry_statements.
  unfold_body. unfold_sqlite. simpl.
  destruct (entries (default empty_database fs)) as [t|] eqn:Ht; simpl; [|done].
  rewrite Ht. case_decide; simpl; [done|].
  intros [= <-]. simpl. apply lookup_insert_eq.
Qed.

(** C9. After a call of [pg_sqlite_fs_insert_entry] that returned [true],
    the entries table has, under the inode given, a row with exactly the
    values given: in [src/pg_sqlite_fs.c] the nine fields, with
    decrypted_size NULL when its argument is null and the text given
    otherwise; in [src/pg.c], which has no decrypted_size, the eight
    fields. The integer fields are any [int64] values; is_dir is stored
    as 1 or 0. *)
Theorem insert_entry_read_back :
  (∀ (a : PgSqliteFs.insert_entry_args) (fs fs' : option PgSqliteFs.database),
     int64 (value (PgSqliteFs.ie_inode a)) → int64 (value (PgSqliteFs.ie_parent_inode a)) →
     int64 (value (PgSqliteFs.ie_ctime a)) → int64 (value (PgSqliteFs.ie_mtime a)) →
     int64 (value (PgSqliteFs.ie_nlink a)) → int64 (value (PgSqliteFs.ie_size a)) →
     PgSqliteFs.pg_sqlite_fs_insert_entry a fs = (fs', Ret true) →
     PgSqliteFs.entries_of fs' !! value (PgSqliteFs.ie_inode a) =
       Some {| PgSqliteFs.name := value (PgSqliteFs.ie_name a);
               PgSqliteFs.parent_inode := value (PgSqliteFs.ie_parent_inode a);
               PgSqliteFs.decrypted_size :=
                 if isnull (PgSqliteFs.ie_decrypted_size a) then None
                 else Some (value (PgSqliteFs.ie_decrypted_size a));
               PgSqliteFs.ctime := value (PgSqliteFs.ie_ctime a);
               PgSqliteFs.mtime := value (PgSqliteFs.ie_mtime a);
               PgSqliteFs.nlink := value (PgSqliteFs.ie_nlink a);
               PgSqliteFs.size := value (PgSqliteFs.ie_size a);
               PgSqliteFs.is_dir := if value (PgSqliteFs.ie_is_dir a) then 1 else 0 |})
  ∧ (∀ (a : Pg.insert_entry_args) (fs fs' : option Pg.database),
       int64 (value (Pg.ie_inode a)) → int64 (value (Pg.ie_parent_inode a)) →
       int64 (value (Pg.ie_ctime a)) → int64 (value (Pg.ie_mtime a)) →
       int64 (value (Pg.ie_nlink a)) → int64 (value (Pg.ie_size a)) →
       Pg.pg_sqlite_fs_insert_entry a fs = (fs', Ret true) →
       Pg.entries_of fs' !! value (Pg.ie_inode a) =
         Some {| Pg.name := value (Pg.ie_name a);
                 Pg.parent_inode := value (Pg.ie_parent_inode a);
                 Pg.ctime := value (Pg.ie_ctime a);
                 Pg.mtime := value (Pg.ie_mtime a);
                 Pg.nlink := value (Pg.ie_nlink a);
                 Pg.size := value (Pg.ie_size a);
                 Pg.is_dir := if value (Pg.ie_is_dir a) then 1 else 0 |}).
Proof.
  split.
  - intros a fs fs' Hi Hp Hc Hm Hl Hs Hcall.
    apply old_insert_entry_true in Hcall. revert Hcall.
    unfold PgSqliteFs.entry_of_args, null_or_value. simpl.
    by rewrite !PG_GETARG_INT64_value.
  - intros a fs fs' Hi Hp Hc Hm Hl Hs Hcall.
    apply insert_entry_true in Hcall. revert Hcall.
    unfold Pg.entry_of_args. simpl.
    by rewrite !PG_GETARG_INT64_value.
Qed.

End EntryRoundTrip.

(** ** The properties on the sample stores *)

Module OnSamples.
Import Sqlite Samples.

(** C1 at a concrete call: three rows, the second with a null parent_inode,
    loaded into [tree]. *)
Lemma insert_entries_null_rolls_back_returns_true_witness :
  Pg.pg_sqlite_fs_insert_entries loader_call (spi_select nine_columns rows_with_null)
    (Some tree) = (Some tree, Ret true).
Proof.
  apply (PgLoaderFacts.insert_entries_null_rolls_back_returns_true
           loader_call (spi_select nine_columns rows_with_null) tree
           (entry_row 6 "y" None None) 2%nat).
  - reflexivity.
  - reflexivity.
  - reflexivity.
  - simpl. right. left.
  - lia.
  - reflexivity.
  - apply (bool_decide_unpack _). vm_compute. exact I.
Defined.

(** With a null name instead, in a row that the loop reaches, the backend
    dies in [DatumGetTextPP]; the next connection finds [tree]. *)
Lemma null_name_kills_the_backend :
  Pg.pg_sqlite_fs_insert_entries loader_call (spi_select nine_columns rows_null_name)
    (Some tree) = (Some tree, Crashed).
Proof. vm_compute. reflexivity. Qed.

(** C2 at a concrete call: one well-formed row under the seven columns. *)
Lemma insert_files_rejects_its_seven_columns_witness :
  (∀ c : Pg.sqlite3, Pg.insert_files_check seven_desc c = (c, inl 3))
  ∧ Pg.pg_sqlite_fs_insert_files loader_call
      (spi_select seven_columns [file_row_null_size]) (Some fresh) = (Some fresh, Ret true).
Proof.
  apply (PgLoaderFacts.insert_files_rejects_its_seven_columns
           loader_call (spi_select seven_columns [file_row_null_size]) fresh);
    reflexivity.
Defined.

(** C3 as stated fails: [pg_sqlite_fs_insert_entry] on a missing file does
    not leave through the open error and does not leave the file missing;
    it creates an empty database file and returns [false]. *)
Lemma insert_entry_creates_the_missing_file :
  Pg.pg_sqlite_fs_insert_entry (entry_call 2 "a" 1) None
  = (Some empty_database, Ret false).
Proof. vm_compute. reflexivity. Qed.

(** [pg_sqlite_fs_exec] makes a missing file into whatever its statement
    builds: given the creation statements, into the fresh store. *)
Lemma exec_can_create_the_store :
  Pg.pg_sqlite_fs_exec creation_meaning
    {| Pg.ex_nargs := 2; Pg.ex_db_path := store_path;
       Pg.ex_sql := mkArg "CREATE TABLE IF NOT EXISTS files ..." false |} None
  = (Some fresh, Ret true).
Proof. vm_compute. reflexivity. Qed.

Lemma operations_on_absent_store_witness :
  Pg.pg_sqlite_fs_insert_entry (entry_call 2 "a" 1) None = (Some empty_database, Ret false)
  ∧ (Pg.pg_sqlite_fs_insert_entries loader_call
       (spi_select nine_columns rows_ninth_null) None).1 = Some empty_database.
Proof.
  destruct PgStoreFacts.operations_on_absent_store
    as (_ & _ & _ & _ & _ & _ & Hentry & _ & Hentries & _).
  split.
  - apply Hentry; [simpl; lia|reflexivity..].
  - apply Hentries; reflexivity.
Defined.

(** C4 as stated fails twice. After [pg_sqlite_fs_create],
    [pg_sqlite_fs_delete_entry] with inode 1 succeeds and leaves no entry at
    all. And after the row of inode 1 has been overwritten through
    [pg_sqlite_fs_insert_entry], [pg_sqlite_fs_create] succeeds again and
    the store has no entry named "/". *)
Lemma root_removed_or_missing :
  Pg.pg_sqlite_fs_create create_call None = (Some fresh, Ret true)
  ∧ Pg.pg_sqlite_fs_delete_entry 1 (Some fresh) = (Some no_entries, Ret true)
  ∧ Pg.pg_sqlite_fs_insert_entry (entry_call 1 "x" 1) (Some fresh)
    = (Some renamed_root, Ret true)
  ∧ Pg.pg_sqlite_fs_create create_call (Some renamed_root) = (Some renamed_root, Ret true)
  ∧ Pg.entries_of (Some renamed_root) = {[1 := dir "x" 1]}.
Proof. repeat split; vm_compute; reflexivity. Qed.

Lemma root_entry_lifecycle_witness :
  Pg.entries_of (Pg.pg_sqlite_fs_delete_entry 2 (Some tree)).1 !! 1 = Some Pg.root_entry.
Proof.
  destruct PgStoreFacts.root_entry_lifecycle as (_ & _ & _ & Hdelete & _).
  apply Hdelete; [lia|reflexivity|reflexivity].
Defined.

(** C5 at a concrete call: a row with a null header under the seven
    columns is not written, and the loop body dies on it; so it does on a
    row of four values under four columns. *)
Lemma insert_files_row_processing_witness :
  (Pg.pg_sqlite_fs_insert_files loader_call
     (spi_select seven_columns [file_row_null_header]) (Some fresh)).1 = Some fresh
  ∧ Pg.insert_files_row (Some upsert_files) four_desc file_row_four = died
  ∧ Pg.insert_files_row (Some upsert_files) seven_desc file_row_null_header = died.
Proof.
  destruct PgLoaderFacts.insert_files_row_processing as (Hcall & _ & Hfour & Hrow).
  split; [|split].
  - apply (Hcall loader_call _ (Some fresh)); reflexivity.
  - apply (Hfour (Some upsert_files) four_desc file_row_four (DInt8 7)); reflexivity.
  - apply (Hrow (Some upsert_files) seven_desc (DInt8 7) "vault" "a/b.c4gh"
             None None (Some (DInt8 10)) (Some (DBytea [])) (Some (DBytea []))).
    reflexivity.
Defined.

(** Under the one shape its check lets through, the files loader dies on
    the first row: prepend, past the fourth column, is read as a null. *)
Lemma four_columns_kill_the_backend :
  (∀ c : Pg.sqlite3, Pg.insert_files_check four_desc c = (c, inr tt))
  ∧ Pg.pg_sqlite_fs_insert_files loader_call
      {| connect_rc := SPI_OK_CONNECT; execute_rc := SPI_OK_SELECT;
         SPI_tuptable := {| tupdesc := four_desc; vals := [file_row_four] |} |}
      (Some fresh)
    = (Some fresh, Crashed).
Proof. split; [intros c|]; vm_compute; reflexivity. Qed.

(** C6 at a concrete call: inode 9 asks for the name "a" under parent 1,
    which inode 2 has. *)
Lemma insert_entry_duplicate_name_witness :
  sqlite3_step (Some upsert_entries) (Pg.entry_of_args (entry_call 9 "a" 1))
    {| main := tree; journal := None |}
    = ({| main := tree; journal := None |}, SQLITE_CONSTRAINT)
  ∧ Pg.pg_sqlite_fs_insert_entry (entry_call 9 "a" 1) (Some tree) = (Some tree, Ret false).
Proof.
  apply (PgStoreFacts.insert_entry_duplicate_name (entry_call 9 "a" 1) tree
           {| rows := {[1 := Pg.root_entry; 2 := dir "a" 1; 3 := dir "b" 2; 4 := dir "c" 3]};
              names := true; listing := true |} 2 (dir "a" 1)).
  - simpl. lia.
  - reflexivity.
  - reflexivity.
  - reflexivity.
  - reflexivity.
  - reflexivity.
  - reflexivity.
  - vm_compute. reflexivity.
  - vm_compute. discriminate.
  - reflexivity.
  - reflexivity.
Defined.

(** C7 as stated fails: an entry with inode 0, written by
    [pg_sqlite_fs_insert_entry], differs from inode 1 and is still there
    after [pg_sqlite_fs_truncate_entries]. *)
Lemma truncate_entries_keeps_inode_0 :
  Pg.pg_sqlite_fs_insert_entry (entry_call 0 "lost" 1) (Some fresh)
  = (Some with_inode_0, Ret true)
  ∧ Pg.pg_sqlite_fs_truncate_entries (Some with_inode_0) = (Some with_inode_0, Ret true)
  ∧ Pg.entries_of (Some with_inode_0) !! 0 = Some (dir "lost" 1).
Proof. repeat split; vm_compute; reflexivity. Qed.

Lemma truncate_files_and_entries_witness :
  (Pg.pg_sqlite_fs_truncate_entries (Some tree)).2 = Ret true.
Proof.
  destruct PgStoreFacts.truncate_files_and_entries as (_ & _ & _ & Hentries).
  apply (Hentries tree
           {| rows := {[1 := Pg.root_entry; 2 := dir "a" 1; 3 := dir "b" 2; 4 := dir "c" 3]};
              names := true; listing := true |}).
  reflexivity.
Defined.

(** C8 at a concrete call: deleting /a (2) from [tree] removes /a and /a/b
    (3) and keeps /a/b/c (4), whose parent_inode 3 now names no row. *)
Lemma delete_entry_one_level_witness :
  Pg.entries_of (Pg.pg_sqlite_fs_delete_entry 2 (Some tree)).1 !! 4 = Some (dir "c" 3)
  ∧ Pg.entries_of (Pg.pg_sqlite_fs_delete_entry 2 (Some tree)).1 !! 3 = None.
Proof.
  destruct (PgStoreFacts.delete_entry_one_level 2) as (_ & _ & Hgrand).
  apply (Hgrand (Some tree) 4 3 (dir "c" 3) (dir "b" 2)).
  - vm_compute. reflexivity.
  - reflexivity.
  - vm_compute. reflexivity.
  - reflexivity.
  - lia.
  - lia.
Defined.

(** C9 at a concrete call of the older revision, with a decrypted_size. *)
Lemma insert_entry_read_back_witness :
  PgSqliteFs.entries_of (PgSqliteFs.pg_sqlite_fs_insert_entry old_entry_call (Some old_fresh)).1
    !! 2
  = Some {| PgSqliteFs.name := "report.c4gh";
            PgSqliteFs.parent_inode := 1;
            PgSqliteFs.decrypted_size := Some "4096";
            PgSqliteFs.ctime := 1700000000;
            PgSqliteFs.mtime := 1700000001;
            PgSqliteFs.nlink := 1;
            PgSqliteFs.size := 4220;
            PgSqliteFs.is_dir := 0 |}.
Proof.
  destruct EntryRoundTrip.insert_entry_read_back as [Hold _].
  apply (Hold old_entry_call (Some old_fresh)); try (unfold int64; simpl; lia).
  vm_compute. reflexivity.
Defined.

(** C10 at two concrete row-sets that differ in the ninth column only. *)
Lemma insert_entries_ignores_ninth_column_witness :
  Pg.pg_sqlite_fs_insert_entries loader_call (spi_select nine_columns rows_ninth_null)
    (Some fresh)
  = Pg.pg_sqlite_fs_insert_entries loader_call (spi_select nine_columns rows_ninth_text)
      (Some fresh).
Proof.
  destruct PgLoaderFacts.insert_entries_ignores_ninth_column as [_ Hsame].
  apply Hsame; reflexivity.
Defined.

End OnSamples.

(** ** What the code keeps of the content *)

Module ContentFacts.
Import Sqlite SqliteFacts.

Section Engine.
Context {E F : Type} `{EntryRow E}.

Abbreviation database := (Sqlite.database E F).
Abbreviation sqlite3 := (Sqlite.sqlite3 E F).
Abbreviation body := (Sqlite.body E F).
Abbreviation body_Z := (Sqlite.body E F Z).

Lemma keeps_content_ret {A} I (a : A) : keeps_content I (mret a : body A).
Proof. by intros c. Qed.

Lemma keeps_content_bind {A B} I (m : body A) (k : A → body B) :
  keeps_content I m → (∀ a, keeps_content I (k a)) → keeps_content I (m ≫= k).
Proof.
  intros Hm Hk c Hc. unfold mbind, body_bind.
  specialize (Hm c Hc). destruct (m c) as [c' [rc|a]]; simpl in *; [done|].
  by apply Hk.
Qed.

Lemma keeps_content_bail_if I (cond : Prop) `{Decision cond} rc :
  keeps_content I (bail_if cond rc : body unit).
Proof. intros c Hc. unfold bail_if. by case_decide. Qed.

Lemma keeps_content_prepare {P} I (s : stmt_sql E F P) : keeps_content I (prepare s).
Proof. by intros c. Qed.

Lemma keeps_content_exec I (s : Sqlite.sql E F) :
  sql_keeps I s → keeps_content I (call (sqlite3_exec s)).
Proof.
  intros Hs c Hc. unfold call, sqlite3_exec. specialize (Hs (main c) Hc).
  by destruct (s (main c)).
Qed.

Lemma keeps_content_step {P} I (stmt : option (stmt_sql E F P)) p :
  (∀ s, stmt = Some s → sql_keeps I (run s p)) →
  keeps_content I (call (sqlite3_step stmt p)).
Proof.
  intros Hs c Hc. unfold call, sqlite3_step. destruct stmt as [s|]; [|done].
  unfold sqlite3_exec. specialize (Hs s eq_refl (main c) Hc).
  by destruct (run s p (main c)).
Qed.

Lemma keeps_content_for_each_row I (row_body : HeapTuple → fetched body_Z) rows rc :
  (∀ t m, row_body t = got m → keeps_content I m) →
  mortal_keeps_content I (for_each_row row_body rows rc).
Proof.
  intros Hrow. revert rc. induction rows as [|t rest IH]; intros rc c c' r HI; simpl.
  - by intros [= <- <-].
  - destruct (row_body t) as [|rc'|m] eqn:Ht; [done|by intros [= <- <-]|].
    pose proof (Hrow t m Ht c HI) as Hk.
    destruct (m c) as [c1 [rc1|rc1]]; simpl in Hk.
    + by intros [= <- <-].
    + by apply IH.
Qed.

Lemma keeps_content_loader_statements {P} I (s : stmt_sql E F P) check row_body q :
  pure_check check →
  (∀ td t m, row_body (Some s) td t = got m → keeps_content I m) →
  mortal_keeps_content I (loader_statements s check row_body q).
Proof.
  intros Hpure Hrow c c' r HI. unfold loader_statements.
  destruct (before_the_loop_pure s check q c Hpure) as ([rc|stmt] & -> & Hr).
  - by intros [= <- <-].
  - destruct (Hr stmt eq_refl) as (-> & _).
    apply keeps_content_for_each_row; [|done]. intros t m. apply Hrow.
Qed.

(** The file after a loader holds what the statements were kept to,
    whether the backend lived or not. *)
Lemma in_transaction_keeps I (statements : Sqlite.mortal E F Z) (fs : option database) :
  mortal_keeps_journal statements → mortal_keeps_content I statements →
  I (default empty_database fs) →
  ∃ d, (in_transaction statements fs).1 = Some d ∧ I d.
Proof.
  intros Hj Hk Hfs. rewrite in_transaction_result by done. simpl.
  destruct (statements _) as [[c r]|] eqn:Hst; simpl; [|by eexists].
  eexists. split; [done|]. case_decide; [done|].
  by apply (Hk {| main := default empty_database fs;
                  journal := Some (default empty_database fs) |} c r).
Qed.

(** A function body between [sqlite3_open] and [sqlite3_close], outside
    of a transaction: the file afterwards holds what the statements were
    kept to. *)
Lemma at_bailout_close_keeps I (statements : body Z) (c : sqlite3) :
  keeps_journal statements → keeps_content I statements →
  journal c = None → I (main c) →
  ∃ d, sqlite3_close (at_bailout statements c).1 = Some d ∧ I d.
Proof.
  intros Hj Hk Hc HI. specialize (Hj c). specialize (Hk c HI).
  unfold at_bailout, sqlite3_close.
  destruct (statements c) as [c' [rc|rc]]; simpl in *; rewrite Hj, Hc; eauto.
Qed.

(** *** The statements of the code, table by table *)

(** The statements on [entries] leave the other two tables alone. *)
Lemma upsert_entries_files f0 x0 (p : Z * E) :
  sql_keeps (λ d : database, files d = f0 ∧ extended_attributes d = x0)
    (run upsert_entries p).
Proof.
  intros d Hd. destruct p as [i e]. simpl.
  destruct (entries d) as [t|]; [|done]. by case_decide.
Qed.

Lemma delete_from_entries_files f0 x0 (cond : Z * E → Prop) `{!∀ x, Decision (cond x)} :
  sql_keeps (λ d : database, files d = f0 ∧ extended_attributes d = x0)
    (delete_from_entries cond).
Proof. intros d Hd. unfold delete_from_entries. by destruct (entries d). Qed.

(** The statements on [files] and on [extended_attributes] leave
    [entries] alone. *)
Lemma upsert_files_entries e0 (p : Z * F) :
  sql_keeps (λ d : database, entries d = e0) (run upsert_files p).
Proof. intros d Hd. destruct p as [i f]. simpl. by destruct (files d). Qed.

Lemma delete_from_files_entries e0 (cond : Z * F → Prop) `{!∀ x, Decision (cond x)} :
  sql_keeps (λ d : database, entries d = e0) (delete_from_files cond).
Proof. intros d Hd. unfold delete_from_files. by destruct (files d). Qed.

Lemma delete_from_extended_attributes_entries e0 :
  sql_keeps (λ d : database, entries d = e0) delete_from_extended_attributes.
Proof.
  intros d Hd. unfold delete_from_extended_attributes.
  by destruct (extended_attributes d).
Qed.

(** *** The unique index, statement by statement *)

Lemma names_hold_entries (d d' : database) :
  entries d' = entries d → names_hold (Some d) → names_hold (Some d').
Proof. unfold names_hold. by intros ->. Qed.

(** A statement that leaves [entries] alone keeps the index. *)
Lemma sql_keeps_names_of_entries (s : Sqlite.sql E F) :
  (∀ e0, sql_keeps (λ d : database, entries d = e0) s) →
  sql_keeps (λ d : database, names_hold (Some d)) s.
Proof.
  intros Hs d Hd. apply (names_hold_entries d); [|done].
  by apply (Hs (entries d) d).
Qed.

Lemma upsert_entries_names (p : Z * E) :
  sql_keeps (λ d : database, names_hold (Some d)) (run upsert_entries p).
Proof.
  intros d Hd. destruct p as [i e]. simpl in *.
  destruct (entries d) as [t|] eqn:Ht; simpl; [|by rewrite Ht].
  case_decide as Hc; simpl; [by rewrite Ht|].
  intros Hn. apply names_unique_insert; [by apply Hd|].
  intros Htaken. apply Hc. by split.
Qed.

Lemma delete_from_entries_names (cond : Z * E → Prop) `{!∀ x, Decision (cond x)} :
  sql_keeps (λ d : database, names_hold (Some d)) (delete_from_entries cond).
Proof.
  intros d Hd. unfold delete_from_entries. simpl in *.
  destruct (entries d) as [t|] eqn:Ht; simpl; [|by rewrite Ht].
  intros Hn. apply names_unique_filter. by apply Hd.
Qed.

Lemma create_table_entries_names :
  sql_keeps (λ d : database, names_hold (Some d)) create_table_entries.
Proof.
  intros d Hd. unfold create_table_entries. simpl in *.
  by destruct (entries d) as [t|].
Qed.

Lemma create_index_names_names :
  sql_keeps (λ d : database, names_hold (Some d)) create_index_names.
Proof.
  intros d Hd. unfold create_index_names. simpl in *.
  destruct (entries d) as [t|] eqn:Ht; simpl; [|by rewrite Ht].
  case_decide as Hc; simpl; [by rewrite Ht|]. intros _.
  destruct (names t) eqn:Hn; [by apply Hd|].
  destruct (decide (names_unique (rows t))) as [|Hnu]; [done|].
  destruct Hc. by split.
Qed.

Lemma create_index_listing_names :
  sql_keeps (λ d : database, names_hold (Some d)) create_index_listing.
Proof.
  intros d Hd. unfold create_index_listing. simpl in *.
  destruct (entries d) as [t|] eqn:Ht; simpl; [done|by rewrite Ht].
Qed.

Lemma insert_root_names (root : E) :
  sql_keeps (λ d : database, names_hold (Some d)) (insert_root root).
Proof.
  intros d Hd. unfold insert_root. simpl in *.
  destruct (entries d) as [t|] eqn:Ht; simpl; [|by rewrite Ht].
  case_decide as Hc; simpl; [by rewrite Ht|].
  intros Hn. apply names_unique_insert; [by apply Hd|].
  intros Htaken. apply Hc. right. by split.
Qed.

End Engine.
End ContentFacts.

(** ** src/pg.c: what each function leaves alone *)

Module PgFrameFacts.
Import Sqlite Pg SqliteFacts ContentFacts PgLoaderFacts.

Lemma keeps_journal_exec (s : sql) : keeps_journal (call (sqlite3_exec s) : body Z).
Proof.
  intros c. unfold call. pose proof (sqlite3_exec_journal s c) as Hj.
  by destruct (sqlite3_exec s c).
Qed.

Ltac keeps_journal_steps :=
  repeat first
    [ apply keeps_journal_ret | apply keeps_journal_bail_if | apply keeps_journal_prepare
    | apply keeps_journal_step | apply keeps_journal_exec
    | apply keeps_journal_bind;
        [|let a := fresh "a" in
          intros a;
          match type of a with
          | (_ * _)%type => destruct a
          | _ => idtac
          end; cbv zeta] ].

Lemma keeps_journal_create_statements : keeps_journal create_statements.
Proof. unfold create_statements. keeps_journal_steps. Qed.

Lemma keeps_journal_insert_file_statements a : keeps_journal (insert_file_statements a).
Proof. unfold insert_file_statements. keeps_journal_steps. Qed.

Lemma keeps_journal_insert_entry_statements a : keeps_journal (insert_entry_statements a).
Proof. unfold insert_entry_statements. keeps_journal_steps. Qed.

Lemma keeps_journal_delete_file_statements i : keeps_journal (delete_file_statements i).
Proof. unfold delete_file_statements. keeps_journal_steps. Qed.

Lemma keeps_journal_delete_entry_statements i : keeps_journal (delete_entry_statements i).
Proof. unfold delete_entry_statements. keeps_journal_steps. Qed.

(** The handle that [sqlite3_prepare_v2] leaves is the statement or NULL. *)
Lemma keeps_content_prepare_bind {P B} (I : database → Prop) (s : stmt_sql P)
    (k : Z * option (stmt_sql P) → body B) :
  (∀ rc, keeps_content I (k (rc, None))) →
  (∀ rc, keeps_content I (k (rc, Some s))) →
  keeps_content I (prepare s ≫= k).
Proof.
  intros Hnone Hsome c Hc. unfold mbind, body_bind, prepare, sqlite3_prepare_v2.
  destruct (compiles s (main c)); [by apply Hsome|by apply Hnone].
Qed.

Ltac keeps_content_steps :=
  repeat first
    [ apply keeps_content_ret | apply keeps_content_bail_if
    | apply keeps_content_exec
    | apply keeps_content_step; [intros ? [= <-] || (intros ? ?; discriminate)]
    | apply keeps_content_prepare_bind; intros ?; cbv beta iota zeta
    | apply keeps_content_bind; [|let a := fresh "a" in intros a; cbv zeta] ].

Section Kept.
Variable I : database → Prop.

Lemma create_statements_keeps :
  sql_keeps I create_table_files → sql_keeps I create_table_extended_attributes →
  sql_keeps I create_table_entries → sql_keeps I create_index_names →
  sql_keeps I create_index_listing → sql_keeps I (insert_root root_entry) →
  keeps_content I create_statements.
Proof. intros. unfold create_statements. keeps_content_steps; done. Qed.

Lemma insert_file_statements_keeps a :
  (∀ p, sql_keeps I (run (@upsert_files entry file) p)) →
  keeps_content I (insert_file_statements a).
Proof. intros Hs. unfold insert_file_statements. keeps_content_steps; apply Hs. Qed.

Lemma insert_entry_statements_keeps a :
  (∀ p, sql_keeps I (run (@upsert_entries entry file _) p)) →
  keeps_content I (insert_entry_statements a).
Proof. intros Hs. unfold insert_entry_statements. keeps_content_steps; apply Hs. Qed.

Lemma delete_file_statements_keeps i :
  (∀ p, sql_keeps I (run (@delete_files_inode entry file) p)) →
  keeps_content I (delete_file_statements i).
Proof. intros Hs. unfold delete_file_statements. keeps_content_steps; apply Hs. Qed.

Lemma delete_entry_statements_keeps i :
  (∀ p, sql_keeps I (run (@delete_entries_inode_or_parent entry file _) p)) →
  keeps_content I (delete_entry_statements i).
Proof. intros Hs. unfold delete_entry_statements. keeps_content_steps; apply Hs. Qed.

Lemma keeps_content_check_type td p t :
  keeps_content I (SQLITE_FS_CHECK_TYPE td p t : body unit).
Proof. apply keeps_content_bail_if. Qed.

Lemma insert_files_statements_keeps q :
  (∀ p, sql_keeps I (run (@upsert_files entry file) p)) →
  mortal_keeps_content I (insert_files_statements q).
Proof.
  intros Hs. apply keeps_content_loader_statements; [apply pure_insert_files_check|].
  intros td t m. unfold insert_files_row. fetch_cases;
    intros [= <-]; unfold insert_files_write; keeps_content_steps; apply Hs.
Qed.

Lemma insert_entries_statements_keeps q :
  (∀ p, sql_keeps I (run (@upsert_entries entry file _) p)) →
  mortal_keeps_content I (insert_entries_statements q).
Proof.
  intros Hs. apply keeps_content_loader_statements; [apply pure_insert_entries_check|].
  intros td t m. unfold insert_entries_row. fetch_cases.
  intros [= <-]. unfold insert_entries_write. keeps_content_steps; apply Hs.
Qed.

(** *** From the statements to the exported functions *)

Variable fs : option database.
Hypothesis I_before : I (default empty_database fs).

Lemma run_close_keeps (statements : body Z) (c : sqlite3) (f : Z → outcome) :
  keeps_journal statements → keeps_content I statements →
  journal c = None → I (main c) →
  ∃ d, (let '(db, rc) := at_bailout statements c in (sqlite3_close db, f rc)).1 = Some d
       ∧ I d.
Proof.
  intros Hj Hk Hc HI.
  destruct (at_bailout_close_keeps I statements c Hj Hk Hc HI) as (d & Hd & HId).
  exists d. by destruct (at_bailout statements c).
Qed.

Ltac open_run_close Hj Hk :=
  right; apply (run_close_keeps _ _ (λ rc, Ret (rc_bool rc))); [apply Hj|apply Hk|done|done].

Lemma create_keeps a :
  keeps_content I create_statements → left_with I fs (pg_sqlite_fs_create a fs).1.
Proof.
  intros Hk. unfold pg_sqlite_fs_create.
  case_decide; [by left|]. destruct (isnull (db_path a)); [by left|].
  simpl. open_run_close keeps_journal_create_statements Hk.
Qed.

Lemma insert_file_keeps a :
  keeps_content I (insert_file_statements a) →
  left_with I fs (pg_sqlite_fs_insert_file a fs).1.
Proof.
  intros Hk. unfold pg_sqlite_fs_insert_file.
  case_decide; [by left|].
  destruct (isnull (if_db_path a) || isnull (if_inode a)); [by left|].
  simpl. open_run_close (keeps_journal_insert_file_statements a) Hk.
Qed.

Lemma insert_entry_keeps a :
  keeps_content I (insert_entry_statements a) →
  left_with I fs (pg_sqlite_fs_insert_entry a fs).1.
Proof.
  intros Hk. unfold pg_sqlite_fs_insert_entry.
  case_decide; [by left|].
  destruct (isnull (ie_db_path a) || isnull (ie_inode a)
            || isnull (ie_name a) || isnull (ie_parent_inode a)); [by left|].
  simpl. open_run_close (keeps_journal_insert_entry_statements a) Hk.
Qed.

Lemma delete_file_keeps i :
  keeps_content I (delete_file_statements i) →
  left_with I fs (pg_sqlite_fs_delete_file i fs).1.
Proof.
  intros Hk. unfold pg_sqlite_fs_delete_file, open_existing, sqlite3_open_v2.
  destruct fs as [d|]; [|by left].
  open_run_close (keeps_journal_delete_file_statements i) Hk.
Qed.

Lemma delete_entry_keeps i :
  keeps_content I (delete_entry_statements i) →
  left_with I fs (pg_sqlite_fs_delete_entry i fs).1.
Proof.
  intros Hk. unfold pg_sqlite_fs_delete_entry, open_existing, sqlite3_open_v2.
  destruct fs as [d|]; [|by left].
  open_run_close (keeps_journal_delete_entry_statements i) Hk.
Qed.

Lemma truncate_table_keeps (s : sql) :
  sql_keeps I s → left_with I fs (pg_sqlite_fs_truncate_table s fs).1.
Proof.
  intros Hs. unfold pg_sqlite_fs_truncate_table, open_existing, sqlite3_open_v2.
  destruct fs as [d|]; [|by left]. right.
  unfold sqlite3_exec, sqlite3_close. simpl in *. specialize (Hs d I_before).
  destruct (s d) as [d' rc]. simpl. eauto.
Qed.

Lemma insert_files_keeps a q :
  mortal_keeps_content I (insert_files_statements q) →
  left_with I fs (pg_sqlite_fs_insert_files a q fs).1.
Proof.
  intros Hk. unfold pg_sqlite_fs_insert_files.
  case_decide; [by left|].
  destruct (isnull (ld_db_path a) || isnull (ld_query a)); [by left|].
  right. apply in_transaction_keeps; [apply keeps_journal_insert_files_statements|done..].
Qed.

Lemma insert_entries_keeps a q :
  mortal_keeps_content I (insert_entries_statements q) →
  left_with I fs (pg_sqlite_fs_insert_entries a q fs).1.
Proof.
  intros Hk. unfold pg_sqlite_fs_insert_entries.
  case_decide; [by left|].
  destruct (isnull (ld_db_path a) || isnull (ld_query a)); [by left|].
  right. apply in_transaction_keeps; [apply keeps_journal_insert_entries_statements|done..].
Qed.

End Kept.
End PgFrameFacts.

(** ** src/pg.c: the tables apart, and the unique index *)

Module PgTables.
Import Sqlite Pg SqliteFacts ContentFacts PgFrameFacts.

Lemma left_with_same_files (fs fs' : option database) :
  left_with (λ d, files d = files (default empty_database fs)
                  ∧ extended_attributes d = extended_attributes (default empty_database fs))
    fs fs' →
  same_files fs fs'.
Proof. intros [->|(d & -> & Hf & Hx)]; [done|]. by split. Qed.

Lemma left_with_same_entries (fs fs' : option database) :
  left_with (λ d, entries d = entries (default empty_database fs)) fs fs' →
  same_entries fs fs'.
Proof. intros [->|(d & -> & He)]; [done|]. by unfold same_entries. Qed.

Lemma left_with_names_hold (fs fs' : option database) :
  names_hold fs → left_with (λ d, names_hold (Some d)) fs fs' → names_hold fs'.
Proof. by intros Hfs [->|(d & -> & Hd)]. Qed.

Lemma names_hold_default (fs : option database) :
  names_hold fs → names_hold (Some (default empty_database fs)).
Proof. by destruct fs. Qed.

(** X1. The functions that write to [entries] (the single upsert, the
    one-level delete, the truncation and the bulk loader) leave the tables
    [files] and [extended_attributes] exactly as they were, whatever their
    arguments and whatever they return: removing an entry, or all of them,
    removes no payload row and no attribute. *)
Theorem entries_functions_leave_files
    (a : insert_entry_args) (i : Z) (l : loader_args) (q : spi_result)
    (fs : option database) :
  same_files fs (pg_sqlite_fs_insert_entry a fs).1
  ∧ same_files fs (pg_sqlite_fs_delete_entry i fs).1
  ∧ same_files fs (pg_sqlite_fs_truncate_entries fs).1
  ∧ same_files fs (pg_sqlite_fs_insert_entries l q fs).1.
Proof.
  split; [|split; [|split]]; apply left_with_same_files.
  - apply insert_entry_keeps; [done|].
    apply insert_entry_statements_keeps. intros p. apply upsert_entries_files.
  - apply delete_entry_keeps; [done|].
    apply delete_entry_statements_keeps. intros p. apply delete_from_entries_files.
  - apply truncate_table_keeps; [done|]. apply delete_from_entries_files.
  - apply insert_entries_keeps; [done|].
    apply insert_entries_statements_keeps. intros p. apply upsert_entries_files.
Qed.

(** X2. The functions that write to [files] or to [extended_attributes]
    (the single upsert, the delete, the two truncations and the bulk loader)
    leave the table [entries], rows and indexes, exactly as it was, whatever
    their arguments and whatever they return. *)
Theorem files_functions_leave_entries
    (a : insert_file_args) (i : Z) (l : loader_args) (q : spi_result)
    (fs : option database) :
  same_entries fs (pg_sqlite_fs_insert_file a fs).1
  ∧ same_entries fs (pg_sqlite_fs_delete_file i fs).1
  ∧ same_entries fs (pg_sqlite_fs_truncate_files fs).1
  ∧ same_entries fs (pg_sqlite_fs_truncate_attributes fs).1
  ∧ same_entries fs (pg_sqlite_fs_insert_files l q fs).1.
Proof.
  split; [|split; [|split; [|split]]]; apply left_with_same_entries.
  - apply insert_file_keeps; [done|].
    apply insert_file_statements_keeps. intros p. apply upsert_files_entries.
  - apply delete_file_keeps; [done|].
    apply delete_file_statements_keeps. intros p. apply delete_from_files_entries.
  - apply truncate_table_keeps; [done|]. apply delete_from_files_entries.
  - apply truncate_table_keeps; [done|]. apply delete_from_extended_attributes_entries.
  - apply insert_files_keeps; [done|].
    apply insert_files_statements_keeps. intros p. apply upsert_files_entries.
Qed.

(** X3. On a store where the unique index on (parent_inode, name), if it
    exists, holds, it still holds after any call of any function of pg.c
    that uses fixed statements: creation, removal, the single upserts and
    deletes, the three truncations and the two bulk loaders. *)
Theorem names_hold_through_every_function
    (p : path_args) (f : insert_file_args) (e : insert_entry_args) (i : Z)
    (l : loader_args) (q : spi_result) (fs : option database) :
  names_hold fs →
  names_hold (pg_sqlite_fs_create p fs).1
  ∧ names_hold (pg_sqlite_fs_remove p fs).1
  ∧ names_hold (pg_sqlite_fs_insert_file f fs).1
  ∧ names_hold (pg_sqlite_fs_insert_entry e fs).1
  ∧ names_hold (pg_sqlite_fs_delete_file i fs).1
  ∧ names_hold (pg_sqlite_fs_delete_entry i fs).1
  ∧ names_hold (pg_sqlite_fs_truncate_entries fs).1
  ∧ names_hold (pg_sqlite_fs_truncate_files fs).1
  ∧ names_hold (pg_sqlite_fs_truncate_attributes fs).1
  ∧ names_hold (pg_sqlite_fs_insert_files l q fs).1
  ∧ names_hold (pg_sqlite_fs_insert_entries l q fs).1.
Proof.
  intros Hfs. pose proof (names_hold_default fs Hfs) as Hd.
  split; [|split].
  { apply (left_with_names_hold fs); [done|]. apply create_keeps; [done|].
    apply create_statements_keeps.
    - by intros d.
    - by intros d.
    - apply create_table_entries_names.
    - apply create_index_names_names.
    - apply create_index_listing_names.
    - apply insert_root_names. }
  { unfold pg_sqlite_fs_remove. case_decide; [done|].
    destruct (isnull (db_path p)); [done|]. by destruct fs. }
  repeat (split; [apply (left_with_names_hold fs); [done|]|]);
    [..|apply (left_with_names_hold fs); [done|]].
  - apply insert_file_keeps; [done|]. apply insert_file_statements_keeps.
    intros x. apply sql_keeps_names_of_entries. intros e0. apply upsert_files_entries.
  - apply insert_entry_keeps; [done|]. apply insert_entry_statements_keeps.
    intros x. apply upsert_entries_names.
  - apply delete_file_keeps; [done|]. apply delete_file_statements_keeps.
    intros x. apply sql_keeps_names_of_entries. intros e0. apply delete_from_files_entries.
  - apply delete_entry_keeps; [done|]. apply delete_entry_statements_keeps.
    intros x. apply delete_from_entries_names.
  - apply truncate_table_keeps; [done|]. apply delete_from_entries_names.
  - apply truncate_table_keeps; [done|].
    apply sql_keeps_names_of_entries. intros e0. apply delete_from_files_entries.
  - apply truncate_table_keeps; [done|].
    apply sql_keeps_names_of_entries. intros e0. apply delete_from_extended_attributes_entries.
  - apply insert_files_keeps; [done|]. apply insert_files_statements_keeps.
    intros x. apply sql_keeps_names_of_entries. intros e0. apply upsert_files_entries.
  - apply insert_entries_keeps; [done|]. apply insert_entries_statements_keeps.
    intros x. apply upsert_entries_names.
Qed.

End PgTables.

(** ** src/pg.c: calls that follow each other *)

Module PgCompose.
Import Sqlite Pg SqliteFacts PgStoreFacts.

Lemma names_taken_insert_same (t : gmap Z entry) (i : Z) (e : entry) :
  names_taken (<[i := e]> t) i e → names_taken t i e.
Proof.
  intros (k & e' & Hl & Hk & Hrest). exists k, e'.
  rewrite lookup_insert_ne in Hl by done. by split.
Qed.

Lemma filter_twice {A} (P : Z * A → Prop) `{!∀ x, Decision (P x)} (m : gmap Z A) :
  filter P (filter P m) = filter P m.
Proof.
  apply map_eq. intros k. apply option_eq. intros e.
  rewrite !map_lookup_filter_Some. tauto.
Qed.

(** X4. [pg_sqlite_fs_insert_entry] is idempotent: after a call that
    returned [true], the same call again returns [true] and leaves the
    store file exactly as the first call left it. *)
Theorem insert_entry_twice (a : insert_entry_args) (fs fs' : option database) :
  pg_sqlite_fs_insert_entry a fs = (fs', Ret true) →
  pg_sqlite_fs_insert_entry a fs' = (fs', Ret true).
Proof.
  intros Hcall. unfold pg_sqlite_fs_insert_entry in Hcall.
  destruct (decide (ie_nargs a < 4)) as [|Hn]; [done|].
  destruct (isnull (ie_db_path a)) eqn:Hp; [done|].
  destruct (isnull (ie_inode a)) eqn:Hi; [done|].
  destruct (isnull (ie_name a)) eqn:Hna; [done|].
  destruct (isnull (ie_parent_inode a)) eqn:Hpa; [done|].
  pose proof (insert_entry_result a fs Hn Hp Hi Hna Hpa) as Hres.
  unfold pg_sqlite_fs_insert_entry in Hres. rewrite Hp, Hi, Hna, Hpa in Hres.
  destruct (decide (ie_nargs a < 4)); [done|]. simpl in Hcall, Hres.
  rewrite Hres in Hcall. clear Hres.
  destruct (entries (default empty_database fs)) as [t|]; [|done].
  case_decide as Hfree; [done|]. injection Hcall as <-.
  rewrite insert_entry_result by done. simpl.
  case_decide as Hagain.
  - destruct Hfree. destruct Hagain as [Hnames Htaken].
    split; [done|]. by apply names_taken_insert_same.
  - by rewrite insert_insert_eq.
Qed.

(** X5. [pg_sqlite_fs_delete_entry] is idempotent on every store file,
    present or not, with or without the table: a second call with the same
    inode returns what the first returned and leaves the file as the first
    left it. In particular, on an inode that no row has as its inode or as
    its parent, the call removes nothing and still returns [true]. *)
Theorem delete_entry_twice (i : Z) (fs : option database) :
  pg_sqlite_fs_delete_entry i (pg_sqlite_fs_delete_entry i fs).1
  = pg_sqlite_fs_delete_entry i fs
  ∧ (∀ d t, fs = Some d → entries d = Some t →
            (∀ k e, rows t !! k = Some e → k ≠ i ∧ parent_inode e ≠ i) →
            pg_sqlite_fs_delete_entry i fs = (fs, Ret true)).
Proof.
  split.
  - destruct fs as [d|]; [|done].
    destruct (entries d) as [t|] eqn:Ht.
    + rewrite (delete_entry_present i d t Ht). simpl.
      erewrite delete_entry_present by done. simpl.
      by rewrite filter_twice.
    + rewrite (delete_entry_no_table i d Ht). simpl. by apply delete_entry_no_table.
  - intros d t -> Ht Hnone. rewrite (delete_entry_present i d t Ht).
    rewrite map_filter_id.
    + destruct d, t. simpl in *. by rewrite Ht.
    + intros k e Hl. simpl. destruct (Hnone k e Hl). tauto.
Qed.

(** A store that has its three tables, both indexes, and a row that keeps
    the root row from being inserted, is left as it is. *)
Lemma create_on_created (a : path_args) f x (r : gmap Z entry) :
  nargs a = 1 → isnull (db_path a) = false →
  is_Some (r !! 1) ∨ names_taken r 1 root_entry →
  pg_sqlite_fs_create a
    (Some {| files := Some f; extended_attributes := Some x;
             entries := Some {| rows := r; names := true; listing := true |} |})
  = (Some {| files := Some f; extended_attributes := Some x;
             entries := Some {| rows := r; names := true; listing := true |} |},
     Ret true).
Proof.
  intros Hn Hp Hroot. rewrite create_result by done. simpl.
  repeat case_decide; simpl; try done; exfalso; intuition congruence.
Qed.

(** X6. [pg_sqlite_fs_create] is idempotent and never removes a row: after
    a call that returned [true], the same call again returns [true] and
    changes nothing; and whatever a call returns, the rows of [files] are
    the ones before it and every row of [entries] before it is still
    there. *)
Theorem create_twice_and_keeps_rows (a : path_args) (fs : option database) :
  (∀ fs', pg_sqlite_fs_create a fs = (fs', Ret true) →
          pg_sqlite_fs_create a fs' = (fs', Ret true))
  ∧ files_of (pg_sqlite_fs_create a fs).1 = files_of fs
  ∧ entries_of fs ⊆ entries_of (pg_sqlite_fs_create a fs).1.
Proof.
  destruct (decide (nargs a = 1)) as [Hn|Hn];
    [|unfold pg_sqlite_fs_create; by case_decide].
  destruct (isnull (db_path a)) eqn:Hp;
    [unfold pg_sqlite_fs_create; rewrite Hp; by case_decide|].
  rewrite create_result by done. simpl.
  set (d := default empty_database fs).
  set (t := default {| rows := ∅; names := false; listing := false |} (entries d)).
  assert (files_of fs = default ∅ (files d)) as Hfiles by by destruct fs.
  assert (entries_of fs = rows t) as Hrows.
  { subst t d. destruct fs as [d|]; simpl; [|done]. by destruct (entries d). }
  split; [|split].
  - intros fs'. case_decide as Hidx; [done|].
    destruct (decide (is_Some (rows t !! 1) ∨ names_taken (rows t) 1 root_entry))
      as [Hroot|Hroot]; intros [= <-]; apply create_on_created; try done.
    left. by rewrite lookup_insert_eq.
  - rewrite Hfiles. by case_decide.
  - rewrite Hrows. case_decide; simpl; [done|].
    case_decide as Hroot; [done|]. apply insert_subseteq.
    destruct (rows t !! 1) eqn:Hl; [|done]. destruct Hroot. left. by eexists.
Qed.

(** X7. Removing the store file and creating it again gives the fresh
    store, whatever the file held: empty [files] and
    [extended_attributes], both indexes, and the root row alone. *)
Theorem remove_then_create (a : path_args) (fs : option database) :
  nargs a = 1 → isnull (db_path a) = false →
  pg_sqlite_fs_create a (pg_sqlite_fs_remove a fs).1 =
    (Some {| files := Some ∅; extended_attributes := Some ∅;
             entries := Some {| rows := {[1 := root_entry]};
                                names := true; listing := true |} |}, Ret true).
Proof.
  intros Hn Hp.
  assert ((pg_sqlite_fs_remove a fs).1 = None) as ->.
  { unfold pg_sqlite_fs_remove. rewrite Hp. case_decide; [done|]. by destruct fs. }
  by apply create_on_absent.
Qed.

End PgCompose.

(** ** src/pg.c: the single-row functions on [files] *)

Module PgFileFacts.
Import Sqlite Pg PgRows SqliteFacts.

(** The whole effect of a call of [pg_sqlite_fs_insert_file] that passes
    its argument checks. *)
Lemma insert_file_result (a : insert_file_args) (fs : option database) :
  if_nargs a = 8 → isnull (if_db_path a) = false → isnull (if_inode a) = false →
  pg_sqlite_fs_insert_file a fs =
    let d := default empty_database fs in
    match files d with
    | None => (Some d, Ret false)
    | Some t =>
        (Some {| files := Some (<[(file_of_args a).1 := (file_of_args a).2]> t);
                 extended_attributes := extended_attributes d;
                 entries := entries d |}, Ret true)
    end.
Proof.
  intros Hn Hp Hi. unfold pg_sqlite_fs_insert_file. rewrite Hp, Hi.
  case_decide; [done|]. unfold insert_file_statements.
  unfold_body. unfold_sqlite. simpl.
  destruct (files (default empty_database fs)) as [t|] eqn:Ht; simpl; [|done].
  by rewrite Ht.
Qed.

(** The whole effect of a call of [pg_sqlite_fs_delete_file]. *)
Lemma delete_file_result (i : Z) (fs : option database) :
  pg_sqlite_fs_delete_file i fs =
    match fs with
    | None => (None, Raised)
    | Some d =>
        match files d with
        | None => (Some d, Ret false)
        | Some t =>
            (Some {| files := Some (delete i t);
                     extended_attributes := extended_attributes d;
                     entries := entries d |}, Ret true)
        end
    end.
Proof.
  destruct fs as [d|]; [|done].
  unfold pg_sqlite_fs_delete_file, delete_file_statements.
  unfold_body. unfold_sqlite. simpl.
  destruct (files d) as [t|] eqn:Ht; simpl; [|done].
  unfold delete_from_files. rewrite Ht. simpl. do 4 f_equal.
  apply map_eq. intros k. apply option_eq. intros f.
  rewrite map_lookup_filter_Some, lookup_delete_Some. simpl.
  split.
  - intros [Hl Hk]. split; [|done]. intros ->. by apply Hk.
  - intros [Hk Hl]. split; [done|]. intros ->. by apply Hk.
Qed.

(** X8. On a store that has the table [files], a call of
    [pg_sqlite_fs_insert_file] with 8 arguments, a path and an inode returns
    [true]; afterwards the row under that inode holds exactly the values
    given, whether the inode had a row or not: SQL NULL for each of
    mountpoint, rel_path, header, prepend and append given as null, 0 for a
    null payload_size; every other row is as before. (Messages are left
    out: the DEBUG1 message of line 345 reads the mountpoint and the path
    whatever their null flags, when that level is logged.) *)
Theorem insert_file_read_back (a : insert_file_args) (d : database) (t : gmap Z file) :
  if_nargs a = 8 → isnull (if_db_path a) = false → isnull (if_inode a) = false →
  int64 (value (if_inode a)) →
  (isnull (if_payload_size a) = false → int64 (value (if_payload_size a))) →
  files d = Some t →
  (pg_sqlite_fs_insert_file a (Some d)).2 = Ret true
  ∧ files_of (pg_sqlite_fs_insert_file a (Some d)).1 !! value (if_inode a)
    = Some {| mountpoint := if isnull (if_mountpoint a) then None
                            else Some (value (if_mountpoint a));
              rel_path := if isnull (if_rel_path a) then None
                          else Some (value (if_rel_path a));
              header := if isnull (if_header a) then None else Some (value (if_header a));
              payload_size := if isnull (if_payload_size a) then 0
                              else value (if_payload_size a);
              prepend := if isnull (if_prepend a) then None
                         else Some (value (if_prepend a));
              append := if isnull (if_append a) then None
                        else Some (value (if_append a)) |}
  ∧ ∀ k, k ≠ value (if_inode a) →
         files_of (pg_sqlite_fs_insert_file a (Some d)).1 !! k = t !! k.
Proof.
  intros Hn Hp Hi Hinode Hsize Ht. rewrite insert_file_result by done. simpl.
  rewrite Ht. simpl. unfold PG_GETARG_INT64.
  rewrite (PgStoreFacts.to_int64_id (value (if_inode a))) by done.
  split; [done|]. split.
  - rewrite lookup_insert_eq. unfold null_or_value.
    destruct (isnull (if_payload_size a)); [done|].
    by rewrite PgStoreFacts.to_int64_id by by apply Hsize.
  - intros k Hk. by rewrite lookup_insert_ne.
Qed.

(** X9. Two calls of [pg_sqlite_fs_insert_file] for the same inode, one
    after the other, leave the store file as the second call alone would,
    and the second returns what it would have returned alone: the whole row
    is replaced, no column of the first call survives. *)
Theorem insert_file_last_call_wins (a b : insert_file_args) (fs : option database) :
  if_nargs a = 8 → isnull (if_db_path a) = false → isnull (if_inode a) = false →
  if_nargs b = 8 → isnull (if_db_path b) = false → isnull (if_inode b) = false →
  PG_GETARG_INT64 (if_inode a) = PG_GETARG_INT64 (if_inode b) →
  pg_sqlite_fs_insert_file b (pg_sqlite_fs_insert_file a fs).1
  = pg_sqlite_fs_insert_file b fs.
Proof.
  intros Hna Hpa Hia Hnb Hpb Hib Hsame.
  rewrite (insert_file_result a fs) by done.
  rewrite (insert_file_result b fs) by done. simpl.
  destruct (files (default empty_database fs)) as [t|] eqn:Ht; simpl.
  - rewrite insert_file_result by done. simpl.
    by rewrite Hsame, insert_insert_eq.
  - rewrite insert_file_result by done. simpl. by rewrite Ht.
Qed.

(** X10. [pg_sqlite_fs_delete_file] removes the row of the inode given and
    no other, on every store file; on a store that has the table [files] it
    returns [true] whether the inode had a row or not, and with no such row
    it leaves the file exactly as it was. *)
Theorem delete_file_removes_one_row (i : Z) (fs : option database) :
  files_of (pg_sqlite_fs_delete_file i fs).1 = delete i (files_of fs)
  ∧ (∀ d t, fs = Some d → files d = Some t →
            (pg_sqlite_fs_delete_file i fs).2 = Ret true
            ∧ (t !! i = None → (pg_sqlite_fs_delete_file i fs).1 = fs)).
Proof.
  rewrite delete_file_result. split.
  - destruct fs as [d|]; simpl; [|by rewrite delete_empty].
    destruct (files d) as [t|] eqn:Ht; simpl; rewrite ?Ht; simpl;
      [done|by rewrite delete_empty].
  - intros d t -> Ht. rewrite Ht. split; [done|]. intros Hi. simpl.
    rewrite delete_id by done. destruct d. simpl in *. by rewrite Ht.
Qed.

(** X11. Deleting undoes inserting: on a store whose table [files] has no
    row under the inode, [pg_sqlite_fs_insert_file] followed by
    [pg_sqlite_fs_delete_file] of that inode returns [true] and gives back
    the store file as it was before the two calls. *)
Theorem insert_file_then_delete_file
    (a : insert_file_args) (d : database) (t : gmap Z file) :
  if_nargs a = 8 → isnull (if_db_path a) = false → isnull (if_inode a) = false →
  files d = Some t → t !! PG_GETARG_INT64 (if_inode a) = None →
  pg_sqlite_fs_delete_file (PG_GETARG_INT64 (if_inode a))
    (pg_sqlite_fs_insert_file a (Some d)).1
  = (Some d, Ret true).
Proof.
  intros Hn Hp Hi Ht Hfree. rewrite insert_file_result by done. simpl.
  rewrite Ht. simpl. rewrite delete_file_result. simpl.
  rewrite delete_insert_id by done. destruct d. simpl in *. by rewrite Ht.
Qed.

End PgFileFacts.

(** ** src/pg.c: the entries loader as a sequence of single-row calls *)

Module BulkFacts.
Import Sqlite Pg Bulk SqliteFacts PgStoreFacts PgLoaderFacts.

Lemma present_lookup (n : nat) (t : HeapTuple) (k : nat) :
  present n t → (k < n)%nat → ∃ d, t !! k = Some (Some d).
Proof.
  intros [Hlen Hall] Hk.
  destruct (lookup_lt_is_Some_2 t k) as [o Ho]; [lia|].
  assert (is_Some o) as [d ->]; [|by exists d].
  apply (Forall_lookup_1 _ _ k o Hall). by rewrite lookup_take_lt.
Qed.

Lemma to_int64_range z : -2 ^ 63 ≤ to_int64 z < 2 ^ 63.
Proof. unfold to_int64. pose proof (Z.mod_pos_bound (z + 2 ^ 63) (2 ^ 64)). lia. Qed.

Lemma to_int32_range z : -2 ^ 31 ≤ to_int32 z < 2 ^ 31.
Proof. unfold to_int32. pose proof (Z.mod_pos_bound (z + 2 ^ 31) (2 ^ 32)). lia. Qed.

Lemma to_int64_to_int64 z : to_int64 (to_int64 z) = to_int64 z.
Proof. apply to_int64_id, to_int64_range. Qed.

Lemma to_int64_to_int32 z : to_int64 (to_int32 z) = to_int32 z.
Proof. apply to_int64_id. pose proof (to_int32_range z). lia. Qed.

(** What the shape check of the entries loader answers on each
    descriptor. *)
Lemma insert_entries_check_shape (td : TupleDesc) (c : sqlite3) :
  (entries_shape td → insert_entries_check td c = (c, inr tt))
  ∧ (¬ entries_shape td →
     insert_entries_check td c = (c, inl (if decide (natts td ≠ 9) then 3 else 4))).
Proof.
  unfold entries_shape, insert_entries_check, natts.
  destruct td as [l pe]. simpl.
  unfold SQLITE_FS_CHECK_TYPE, TupleDescAttr, bail_if, goto_bailout. simpl.
  unfold mbind, body_bind, mret, body_ret.
  destruct (decide (Z.of_nat (length l) ≠ 9)) as [Hlen|Hlen].
  { split; [intros [Hl _]; lia|done]. }
  assert (length l = 9%nat) as Hl by lia.
  destruct l as [|a0 [|a1 [|a2 [|a3 [|a4 [|a5 [|a6 [|a7 [|a8 [|]]]]]]]]]]; try done.
  simpl. split.
  - intros [_ [= -> -> -> -> -> -> -> ->]].
    repeat (case_decide as Hx; [by destruct Hx|]). done.
  - intros Hno. repeat (case_decide; [done|]).
    destruct Hno. split; [done|]. by subst.
Qed.

(** X12. The shape check of [pg_sqlite_fs_insert_entries] lets a row-set
    through exactly when it has nine columns of which the first eight have
    the types int8, text, int8, int8, int8, int4, int8, bool; the type of
    the ninth plays no part. It refuses with [rc = 3] on the count and with
    [rc = 4] on a type, and never touches the store. *)
Theorem insert_entries_check_exact (td : TupleDesc) (c : sqlite3) :
  (insert_entries_check td c = (c, inr tt) ↔ entries_shape td)
  ∧ (¬ entries_shape td →
     insert_entries_check td c = (c, inl (if decide (natts td ≠ 9) then 3 else 4))).
Proof.
  destruct (insert_entries_check_shape td c) as [Hyes Hno].
  split; [|exact Hno]. split; [|exact Hyes].
  intros Hpass. destruct (decide (entries_shape td)) as [|Hshape]; [done|].
  rewrite (Hno Hshape) in Hpass. discriminate Hpass.
Qed.

(** The single-row call for a row passes the argument checks. *)
Lemma row_call_checked (t : HeapTuple) (a : insert_entry_args) :
  row_call t = Some a →
  ¬ ie_nargs a < 4 ∧ isnull (ie_db_path a) = false ∧ isnull (ie_inode a) = false
  ∧ isnull (ie_name a) = false ∧ isnull (ie_parent_inode a) = false.
Proof.
  unfold row_call. destruct (DatumGetTextPP _); simpl; [|done].
  intros [= <-]. simpl. repeat split; first [done|lia].
Qed.

(** One iteration of the loop on a row with its eight values: the backend
    dies where the name cannot be read, and the loop binds and steps what
    the single-row call for the row binds. *)
Lemma insert_entries_row_present stmt td (t : HeapTuple) :
  natts td = 9 → eight_present t →
  insert_entries_row stmt td t =
    match row_call t with
    | None => died
    | Some a => got (insert_entries_write stmt (entry_of_args a))
    end.
Proof.
  intros Hn Ht.
  destruct (present_lookup 8 t 0 Ht) as [d0 H0]; [lia|].
  destruct (present_lookup 8 t 1 Ht) as [d1 H1]; [lia|].
  destruct (present_lookup 8 t 2 Ht) as [d2 H2]; [lia|].
  destruct (present_lookup 8 t 3 Ht) as [d3 H3]; [lia|].
  destruct (present_lookup 8 t 4 Ht) as [d4 H4]; [lia|].
  destruct (present_lookup 8 t 5 Ht) as [d5 H5]; [lia|].
  destruct (present_lookup 8 t 6 Ht) as [d6 H6]; [lia|].
  destruct (present_lookup 8 t 7 Ht) as [d7 H7]; [lia|].
  unfold insert_entries_row, required_column, by_value, row_call.
  rewrite !SPI_getbinval_in_range by lia.
  rewrite H0, H1, H2, H3, H4, H5, H6, H7. simpl.
  destruct (DatumGetTextPP d1) as [name|]; simpl; [|done].
  unfold entry_of_args, PG_GETARG_INT64. simpl.
  by rewrite !to_int64_to_int64, to_int64_to_int32.
Qed.

(** The binds and the step of the loop, against the table as the
    connection sees it. *)
Lemma insert_entries_write_step (c : sqlite3) tbl (row : Z * entry) :
  entries (main c) = Some tbl →
  insert_entries_write (Some upsert_entries) row c =
    if decide (names tbl = true ∧ names_taken (rows tbl) row.1 row.2)
    then ({| main := main c; journal := journal c |}, inl 3)
    else ({| main := {| files := files (main c);
                        extended_attributes := extended_attributes (main c);
                        entries :=
                          Some {| rows := <[row.1 := row.2]> (rows tbl);
                                  names := names tbl; listing := listing tbl |} |};
             journal := journal c |}, inr 0).
Proof.
  intros Htbl. destruct row as [i e]. unfold insert_entries_write.
  unfold_body. unfold_sqlite. simpl. rewrite Htbl.
  case_decide; simpl; done.
Qed.

(** The single-row calls leave a file behind. *)
Lemma insert_entry_each_file (rows : list HeapTuple) (d : database) fs' ok :
  insert_entry_each rows (Some d) = Some (fs', ok) → is_Some fs'.
Proof.
  revert d. induction rows as [|t rest IH]; intros d; simpl; [by intros [= <- <-]|].
  destruct (row_call t) as [a|] eqn:Ha; [|done].
  destruct (row_call_checked t a Ha) as (Hn & Hp & Hi & Hna & Hpa).
  rewrite insert_entry_result by done. simpl.
  destruct (entries d) as [tbl|]; [|by intros [= <- <-]].
  case_decide; [by intros [= <- <-]|]. apply IH.
Qed.

(** The loop of the loader and the single-row calls go through the rows
    together: same content at each row, the loop leaves with [rc = 3]
    exactly where a single-row call returns [false], and the backend dies
    exactly where there is no single-row call to make. *)
Lemma for_each_row_as_single_calls td (rows : list HeapTuple) :
  natts td = 9 → Forall eight_present rows →
  ∀ (d : database) j rc0, is_Some (entries d) →
    for_each_row (insert_entries_row (Some upsert_entries) td) rows rc0
      {| main := d; journal := j |} =
      match insert_entry_each rows (Some d) with
      | None => None
      | Some (fs', ok) =>
          Some ({| main := default d fs'; journal := j |},
                if ok then inr (match rows with [] => rc0 | _ => 0 end) else inl 3)
      end.
Proof.
  intros Hn Hrows. induction Hrows as [|t rest Ht Hrest IH]; intros d j rc0 [tbl Htbl].
  - done.
  - simpl. rewrite (insert_entries_row_present _ td t) by done.
    destruct (row_call t) as [a|] eqn:Ha; [|done].
    destruct (row_call_checked t a Ha) as (Hna & Hp & Hi & Hnm & Hpa).
    rewrite (insert_entries_write_step _ tbl) by done.
    rewrite insert_entry_result by done. simpl. rewrite Htbl.
    case_decide; [done|].
    rewrite IH by (simpl; eauto).
    match goal with
    | |- context [insert_entry_each rest (Some ?d1)] =>
        destruct (insert_entry_each rest (Some d1)) as [[fs' ok]|] eqn:Heach; [|done];
        destruct (insert_entry_each_file rest d1 fs' ok Heach) as [d' ->]
    end.
    simpl. destruct ok; [|done]. by destruct rest.
Qed.

(** X13. On a row-set that passes the shape check and has a value in each
    of the first eight columns of every row, against a store that has the
    table [entries], [pg_sqlite_fs_insert_entries] does what
    [pg_sqlite_fs_insert_entry] does called once per row, in the order of
    the row-set, when every one of these calls returns [true], and returns
    [true]; when one of them returns [false] the loader leaves the store
    file exactly as it was before the call, and returns [true] as well;
    when a row is reached whose name is not a text that can be read, the
    backend dies and the store file is as it was. Without the table the
    loader changes nothing and returns [true]. *)
Theorem insert_entries_as_single_calls
    (a : loader_args) (td : TupleDesc) (rows : list HeapTuple) (d : database) :
  ld_nargs a = 2 → isnull (ld_db_path a) = false → isnull (ld_query a) = false →
  entries_shape td → Forall eight_present rows →
  pg_sqlite_fs_insert_entries a
    {| connect_rc := SPI_OK_CONNECT; execute_rc := SPI_OK_SELECT;
       SPI_tuptable := {| tupdesc := td; vals := rows |} |} (Some d)
  = match entries d with
    | None => (Some d, Ret true)
    | Some _ =>
        match insert_entry_each rows (Some d) with
        | None => (Some d, Crashed)
        | Some (fs', ok) => (if ok then fs' else Some d, Ret true)
        end
    end.
Proof.
  intros Hn Hp Hq Hshape Hrows. unfold pg_sqlite_fs_insert_entries.
  rewrite Hp, Hq. case_decide; [done|]. simpl.
  rewrite in_transaction_result by apply keeps_journal_insert_entries_statements.
  simpl. unfold insert_entries_statements, loader_statements.
  destruct (entries d) as [tbl|] eqn:Htbl.
  - rewrite before_the_loop_passes;
      [|by simpl; rewrite Htbl|done|done|by apply insert_entries_check_shape].
    simpl. rewrite for_each_row_as_single_calls;
      [|destruct Hshape as [Hl _]; unfold natts; lia|done|by rewrite Htbl].
    destruct (insert_entry_each rows (Some d)) as [[fs' ok]|] eqn:Heach; [|done].
    destruct (insert_entry_each_file rows d fs' ok Heach) as [d' ->]. simpl.
    destruct ok; simpl; [|done].
    destruct rows; simpl; [|done]. by injection Heach as <-.
  - rewrite before_the_loop_no_table by (by simpl; rewrite Htbl). done.
Qed.

End BulkFacts.

(** ** src/pg_sqlite_fs.c: the truncations, the single file upsert, the files loader *)

Module OldRevisionFacts.
Import Sqlite PgSqliteFs OldRows SqliteFacts.

(** X14. In the older revision the text of a truncation is the table name
    followed at once by the WHERE clause. For [pg_sqlite_fs_truncate_entries]
    that text is "DELETE FROM entriesWHERE inode > 1": an engine that
    refuses it makes the function return [false] on every store and delete
    nothing. For [pg_sqlite_fs_truncate_files] the text is
    "DELETE FROM files", and the function empties the table and returns
    [true]. *)
Theorem old_truncations (meaning : string → sql) (d : database) (t : gmap Z file) :
  (∀ d', (meaning "DELETE FROM entriesWHERE inode > 1" d').1 = d'
         ∧ (meaning "DELETE FROM entriesWHERE inode > 1" d').2 ≠ SQLITE_OK) →
  (∀ d', meaning "DELETE FROM files" d' = delete_from_files (λ _, True) d') →
  files d = Some t →
  truncate_text "entries" "WHERE inode > 1" = "DELETE FROM entriesWHERE inode > 1"
  ∧ pg_sqlite_fs_truncate_entries meaning (Some d) = (Some d, Ret false)
  ∧ pg_sqlite_fs_truncate_files meaning (Some d)
    = (Some {| files := Some ∅; extended_attributes := extended_attributes d;
               entries := entries d |}, Ret true).
Proof.
  intros Hbad Hgood Ht. split; [done|]. split.
  - unfold pg_sqlite_fs_truncate_entries, pg_sqlite_fs_truncate_table.
    unfold_sqlite. simpl.
    change (truncate_text "entries" "WHERE inode > 1")
      with "DELETE FROM entriesWHERE inode > 1".
    destruct (Hbad d) as [Hd Hrc].
    destruct (meaning "DELETE FROM entriesWHERE inode > 1" d) as [d' rc].
    simpl in *. subst d'. by rewrite decide_True.
  - unfold pg_sqlite_fs_truncate_files, pg_sqlite_fs_truncate_table.
    unfold_sqlite. simpl.
    change (truncate_text "files" "") with "DELETE FROM files".
    rewrite Hgood. unfold delete_from_files. rewrite Ht. simpl.
    do 4 f_equal. apply map_eq. intros k. rewrite lookup_empty.
    apply map_lookup_filter_None. right. intros f _ Hno. by apply Hno.
Qed.

(** *** pg_sqlite_fs_insert_file *)

(** X15. In the older revision [pg_sqlite_fs_insert_file] takes exactly
    four arguments and refuses a null in any of them, raising an error
    before the store file is opened. On a store that has the table [files]
    a call with its four values returns [true], the row under the inode is
    exactly the path and header given, and every other row is as before. *)
Theorem old_insert_file_read_back (a : insert_file_args) (d : database) (t : gmap Z file) :
  files d = Some t → int64 (value (if_inode a)) →
  (if_nargs a ≠ 4 ∨ isnull (if_db_path a) = true ∨ isnull (if_inode a) = true
   ∨ isnull (if_path a) = true ∨ isnull (if_header a) = true →
   pg_sqlite_fs_insert_file a (Some d) = (Some d, Raised))
  ∧ (if_nargs a = 4 → isnull (if_db_path a) = false → isnull (if_inode a) = false →
     isnull (if_path a) = false → isnull (if_header a) = false →
     (pg_sqlite_fs_insert_file a (Some d)).2 = Ret true
     ∧ files_of (pg_sqlite_fs_insert_file a (Some d)).1 !! value (if_inode a)
       = Some {| path := value (if_path a); header := value (if_header a) |}
     ∧ ∀ k, k ≠ value (if_inode a) →
            files_of (pg_sqlite_fs_insert_file a (Some d)).1 !! k = t !! k).
Proof.
  intros Ht Hinode. split.
  - intros Hbad. unfold pg_sqlite_fs_insert_file. case_decide; [done|].
    destruct Hbad as [?|Hbad]; [done|].
    destruct (isnull (if_db_path a)); [done|]. destruct (isnull (if_inode a)); [done|].
    destruct (isnull (if_path a)); [done|]. destruct (isnull (if_header a)); [done|].
    by destruct Hbad as [?|[?|[?|?]]].
  - intros Hn Hp Hi Hpa Hh. unfold pg_sqlite_fs_insert_file.
    rewrite Hp, Hi, Hpa, Hh. case_decide; [done|]. unfold insert_file_statements.
    unfold_body. unfold_sqlite. simpl. rewrite Ht. simpl. rewrite Ht. simpl.
    unfold PG_GETARG_INT64. rewrite PgStoreFacts.to_int64_id by done.
    split; [done|]. split; [by rewrite lookup_insert_eq|].
    intros k Hk. by rewrite lookup_insert_ne.
Qed.

(** *** pg_sqlite_fs_insert_files *)

Lemma keeps_journal_old_insert_files_write stmt row :
  keeps_journal (insert_files_write stmt row).
Proof.
  unfold insert_files_write.
  apply keeps_journal_bind; [apply keeps_journal_bail_if|intros ?].
  apply keeps_journal_bind; [apply keeps_journal_step|intros ?].
  apply keeps_journal_bind; [apply keeps_journal_bail_if|intros ?].
  apply keeps_journal_ret.
Qed.

Lemma keeps_journal_old_insert_files_statements q :
  mortal_keeps_journal (insert_files_statements q).
Proof.
  apply keeps_journal_loader_statements.
  - intros td. unfold insert_files_check.
    repeat (apply keeps_journal_bind; [apply keeps_journal_bail_if|intros ?]).
    apply keeps_journal_check_type.
  - intros stmt td t m. unfold insert_files_row. PgLoaderFacts.fetch_cases.
    intros [= <-]. apply keeps_journal_old_insert_files_write.
Qed.

Lemma keeps_journal_old_insert_entries_write stmt row :
  keeps_journal (insert_entries_write stmt row).
Proof.
  unfold insert_entries_write.
  apply keeps_journal_bind; [apply keeps_journal_bail_if|intros ?].
  apply keeps_journal_bind; [apply keeps_journal_step|intros ?].
  apply keeps_journal_bind; [apply keeps_journal_bail_if|intros ?].
  apply keeps_journal_ret.
Qed.

Lemma keeps_journal_old_insert_entries_statements q :
  mortal_keeps_journal (insert_entries_statements q).
Proof.
  apply keeps_journal_loader_statements.
  - intros td. unfold insert_entries_check.
    repeat (apply keeps_journal_bind; [apply keeps_journal_bail_if|intros ?]).
    apply keeps_journal_check_type.
  - intros stmt td t m. unfold insert_entries_row. PgLoaderFacts.fetch_cases;
      intros [= <-]; apply keeps_journal_old_insert_entries_write.
Qed.

(** One iteration of the loop on a row with its three values: the backend
    dies where the path or the header cannot be read, and the loop binds
    and steps the row otherwise. *)
Lemma old_insert_files_row_present stmt td (t : HeapTuple) :
  natts td = 3 → three_present t →
  insert_files_row stmt td t =
    match file_of_row t with
    | None => died
    | Some r => got (insert_files_write stmt r)
    end.
Proof.
  intros Hn Ht.
  destruct (BulkFacts.present_lookup 3 t 0 Ht) as [d0 H0]; [lia|].
  destruct (BulkFacts.present_lookup 3 t 1 Ht) as [d1 H1]; [lia|].
  destruct (BulkFacts.present_lookup 3 t 2 Ht) as [d2 H2]; [lia|].
  unfold file_of_row, insert_files_row, required_column, by_value.
  rewrite !SPI_getbinval_in_range by lia. rewrite H0, H1, H2. simpl.
  destruct (DatumGetTextPP d1) as [p|]; simpl; [|done].
  by destruct (DatumGetByteaP d2) as [h|].
Qed.

(** The binds and the step of the loop, against the table as the
    connection sees it. *)
Lemma old_insert_files_write_step (c : sqlite3) m (row : Z * file) :
  files (main c) = Some m →
  insert_files_write (Some upsert_files) row c =
    ({| main := {| files := Some (<[row.1 := row.2]> m);
                   extended_attributes := extended_attributes (main c);
                   entries := entries (main c) |};
        journal := journal c |}, inr 0).
Proof.
  intros Hm. destruct row as [i f]. unfold insert_files_write.
  unfold_body. unfold_sqlite. simpl. by rewrite Hm.
Qed.

Lemma old_for_each_row_writes td (rows : list HeapTuple) :
  natts td = 3 → Forall three_present rows →
  ∀ (d : database) j rc0 m, files d = Some m →
    for_each_row (insert_files_row (Some upsert_files) td) rows rc0
      {| main := d; journal := j |} =
      match upsert_rows rows m with
      | None => None
      | Some m' =>
          Some ({| main := match rows with
                           | [] => d
                           | _ => {| files := Some m';
                                     extended_attributes := extended_attributes d;
                                     entries := entries d |}
                           end;
                   journal := j |},
                inr (match rows with [] => rc0 | _ => 0 end))
      end.
Proof.
  intros Hn Hrows. induction Hrows as [|t rest Ht Hrest IH]; intros d j rc0 m Hm; [done|].
  simpl. rewrite (old_insert_files_row_present _ td t) by done.
  destruct (file_of_row t) as [[i f]|]; [|done].
  rewrite (old_insert_files_write_step _ m) by done. simpl.
  erewrite IH by done.
  destruct (upsert_rows rest (<[i:=f]> m)) as [m'|] eqn:Hrest'; [|done].
  destruct rest; [|done]. simpl in Hrest'. by injection Hrest' as <-.
Qed.

(** X16. In the older revision the files loader does load: on a row-set
    of the three columns int8, text, bytea with a value in every column of
    every row, against a store that has the table [files],
    [pg_sqlite_fs_insert_files] returns [true] and leaves in [files] the
    rows upserted one after the other in the order of the row-set (a later
    row for the same inode replaces an earlier one); the other tables are
    as before. Were a row reached whose path or header is not a value that
    can be read, the backend would die there and the store file would be
    as before the call. *)
Theorem old_insert_files_loads
    (a : loader_args) (td : TupleDesc) (rows : list HeapTuple) (d : database)
    (m : gmap Z file) :
  ld_nargs a = 2 → isnull (ld_db_path a) = false → isnull (ld_query a) = false →
  attrs td = [INT8OID; TEXTOID; BYTEAOID] → Forall three_present rows →
  files d = Some m →
  pg_sqlite_fs_insert_files a
    {| connect_rc := SPI_OK_CONNECT; execute_rc := SPI_OK_SELECT;
       SPI_tuptable := {| tupdesc := td; vals := rows |} |} (Some d)
  = match upsert_rows rows m with
    | None => (Some d, Crashed)
    | Some m' =>
        (Some {| files := Some m';
                 extended_attributes := extended_attributes d;
                 entries := entries d |}, Ret true)
    end.
Proof.
  intros Hn Hp Hq Htd Hrows Hm. unfold pg_sqlite_fs_insert_files.
  rewrite Hp, Hq. case_decide; [done|]. simpl.
  rewrite in_transaction_result by apply keeps_journal_old_insert_files_statements.
  simpl. unfold insert_files_statements, loader_statements.
  rewrite before_the_loop_passes;
    [|by simpl; rewrite Hm|done|done
     |by apply PgSqliteFsFacts.old_insert_files_check_passes].
  simpl. rewrite (old_for_each_row_writes td rows) with (m := m);
    [|unfold natts; by rewrite Htd|done..].
  destruct (upsert_rows rows m) as [m'|] eqn:Hup; [|done].
  destruct rows as [|t rest]; simpl; [|done].
  simpl in Hup. injection Hup as <-. destruct d. simpl in *. by rewrite Hm.
Qed.

End OldRevisionFacts.

(** ** Both revisions: what a bulk loader can return *)

Module LoaderOutcome.
Import Sqlite SqliteFacts.

(** Where nothing fails around the engine, the shell in its surroundings
    is the shell of the loaders. *)
Lemma in_transaction_undisturbed {E F} (statements : Sqlite.mortal E F Z)
    (fs : option (Sqlite.database E F)) :
  in_transaction_in undisturbed statements fs = in_transaction statements fs.
Proof. reflexivity. Qed.

(** The shell returns [false] only with a failure of one of its three
    calls, and the file is then as before the call (created, if it was
    missing and the open went through). *)
Lemma in_transaction_in_false {E F} (s : surroundings)
    (statements : Sqlite.mortal E F Z) (fs : option (Sqlite.database E F)) :
  mortal_keeps_journal statements →
  (in_transaction_in s statements fs).2 = Ret false →
  engine_fails s
  ∧ (in_transaction_in s statements fs).1
    = if decide (open_rc s ≠ SQLITE_OK) then fs else Some (default empty_database fs).
Proof.
  intros Hj.
  unfold engine_fails, in_transaction_in, sqlite3_open_in, sqlite3_open, sqlite3_exec_txn_in.
  unfold SQLITE_OK.
  destruct (decide (open_rc s ≠ 0)) as [Ho|Ho]; simpl.
  { destruct (decide (open_rc s ≠ 0)); [|done]. intros _. split; [by left|done]. }
  destruct (decide (0 ≠ 0)) as [Hne|_]; [done|].
  destruct (decide (begin_rc s ≠ 0)) as [Hb|Hb]; simpl.
  { destruct (decide (begin_rc s ≠ 0)); [|done]. intros _. split; [by right; left|done]. }
  destruct (decide (0 ≠ 0)) as [Hne|_]; [done|].
  specialize (Hj {| main := default empty_database fs;
                    journal := Some (default empty_database fs) |}).
  destruct (statements _) as [[c r]|]; [|done].
  specialize (Hj c r eq_refl). simpl in Hj.
  destruct (decide (end_rc s ≠ 0)) as [He|He]; simpl.
  { intros _. split; [by right; right|]. unfold sqlite3_close. by rewrite Hj. }
  unfold sqlite3_exec_txn; case_decide; rewrite Hj; simpl; done.
Qed.

(** A failure of one of the three calls makes the shell return [false],
    unless the backend dies in the statements before the last call. *)
Lemma in_transaction_in_failure {E F} (s : surroundings)
    (statements : Sqlite.mortal E F Z) (fs : option (Sqlite.database E F)) :
  engine_fails s →
  (in_transaction_in s statements fs).2 = Ret false
  ∨ (in_transaction_in s statements fs).2 = Crashed.
Proof.
  unfold engine_fails. intros Hfail.
  unfold in_transaction_in, sqlite3_open_in, sqlite3_open, sqlite3_exec_txn_in.
  unfold SQLITE_OK in *.
  destruct (decide (open_rc s ≠ 0)) as [Ho|Ho]; simpl.
  { destruct (decide (open_rc s ≠ 0)); [|done]. by left. }
  destruct (decide (0 ≠ 0)) as [Hne|_]; [done|].
  destruct (decide (begin_rc s ≠ 0)) as [Hb|Hb]; simpl.
  { destruct (decide (begin_rc s ≠ 0)); [|done]. by left. }
  destruct (decide (0 ≠ 0)) as [Hne|_]; [done|].
  destruct (statements _) as [[c r]|]; [|by right].
  destruct (decide (end_rc s ≠ 0)) as [He|He]; simpl.
  { destruct (decide (end_rc s ≠ 0)); [|done]. by left. }
  by destruct Hfail as [?|[?|?]].
Qed.

(** X17. A bulk loader of either revision returns [false] only when
    [sqlite3_open], BEGIN, or the closing COMMIT or ROLLBACK fails.
    Where these three calls go through, the shell with its surroundings is
    the loader itself, and the value returned says nothing of the rows: a
    call raises on its arguments, returns [true], or the backend dies.
    Where one of them fails, a call with its two arguments returns
    [false], unless the backend has died before. *)
Theorem loaders_return_false_only_when_the_engine_fails
    (s : surroundings) (a : loader_args) (q : spi_result)
    (fs : option Pg.database) (old_fs : option PgSqliteFs.database) :
  (loader_in undisturbed (Pg.insert_files_statements q) a fs
     = Pg.pg_sqlite_fs_insert_files a q fs
   ∧ loader_in undisturbed (Pg.insert_entries_statements q) a fs
     = Pg.pg_sqlite_fs_insert_entries a q fs
   ∧ loader_in undisturbed (PgSqliteFs.insert_files_statements q) a old_fs
     = PgSqliteFs.pg_sqlite_fs_insert_files a q old_fs
   ∧ loader_in undisturbed (PgSqliteFs.insert_entries_statements q) a old_fs
     = PgSqliteFs.pg_sqlite_fs_insert_entries a q old_fs)
  ∧ ((loader_in s (Pg.insert_files_statements q) a fs).2 = Ret false → engine_fails s)
  ∧ ((loader_in s (Pg.insert_entries_statements q) a fs).2 = Ret false → engine_fails s)
  ∧ ((loader_in s (PgSqliteFs.insert_files_statements q) a old_fs).2 = Ret false
     → engine_fails s)
  ∧ ((loader_in s (PgSqliteFs.insert_entries_statements q) a old_fs).2 = Ret false
     → engine_fails s)
  ∧ (engine_fails s → ld_nargs a = 2 → isnull (ld_db_path a) = false →
     isnull (ld_query a) = false →
     ∀ r, r ∈ [(loader_in s (Pg.insert_files_statements q) a fs).2;
               (loader_in s (Pg.insert_entries_statements q) a fs).2;
               (loader_in s (PgSqliteFs.insert_files_statements q) a old_fs).2;
               (loader_in s (PgSqliteFs.insert_entries_statements q) a old_fs).2] →
          r = Ret false ∨ r = Crashed).
Proof.
  assert (∀ E F (statements : Sqlite.mortal E F Z) (f : option (Sqlite.database E F)),
            mortal_keeps_journal statements →
            (loader_in s statements a f).2 = Ret false → engine_fails s) as Honly.
  { intros E F statements f Hj. unfold loader_in.
    case_decide; [done|].
    destruct (isnull (ld_db_path a) || isnull (ld_query a)); [done|].
    intros Hfalse. by destruct (in_transaction_in_false s statements f Hj Hfalse). }
  split; [|split; [|split; [|split; [|split]]]].
  - done.
  - apply Honly, PgLoaderFacts.keeps_journal_insert_files_statements.
  - apply Honly, PgLoaderFacts.keeps_journal_insert_entries_statements.
  - apply Honly, OldRevisionFacts.keeps_journal_old_insert_files_statements.
  - apply Honly, OldRevisionFacts.keeps_journal_old_insert_entries_statements.
  - intros Hfail Hn Hp Hq r Hr. unfold loader_in in Hr. rewrite Hp, Hq in Hr.
    rewrite !decide_False in Hr by (intros Hne; by apply Hne). simpl in Hr.
    repeat (apply elem_of_cons in Hr as [->|Hr];
            [by apply in_transaction_in_failure|]).
    by apply elem_of_nil in Hr.
Qed.

End LoaderOutcome.

(** ** The further properties on the samples *)

Module OnMoreSamples.
Import Sqlite Samples.

(** X3 on [tree], whose four names are distinct under their parents: the
    index still holds after [rows_ninth_null] is loaded. *)
Lemma names_hold_through_every_function_witness :
  names_hold (Some tree)
  ∧ names_hold (Pg.pg_sqlite_fs_insert_entries loader_call
                  (spi_select nine_columns rows_ninth_null) (Some tree)).1.
Proof.
  assert (names_hold (Some tree)) as Htree.
  { intros _. apply (bool_decide_unpack _). vm_compute. exact I. }
  split; [exact Htree|].
  apply (PgTables.names_hold_through_every_function create_call
           (file_call 7 "vault" "a/b.c4gh") (entry_call 5 "x" 1) 2 loader_call
           (spi_select nine_columns rows_ninth_null) (Some tree) Htree).
Defined.

(** X4: the entry "x" written twice into [tree]. *)
Lemma insert_entry_twice_witness :
  Pg.pg_sqlite_fs_insert_entry (entry_call 5 "x" 1)
    (Pg.pg_sqlite_fs_insert_entry (entry_call 5 "x" 1) (Some tree)).1
  = Pg.pg_sqlite_fs_insert_entry (entry_call 5 "x" 1) (Some tree).
Proof.
  rewrite (PgCompose.insert_entry_twice (entry_call 5 "x" 1) (Some tree)
             (Pg.pg_sqlite_fs_insert_entry (entry_call 5 "x" 1) (Some tree)).1).
  - vm_compute. reflexivity.
  - vm_compute. reflexivity.
Defined.

(** X5: no row of [tree] has inode 9 or parent 9. *)
Lemma delete_entry_twice_witness :
  Pg.pg_sqlite_fs_delete_entry 9 (Some tree) = (Some tree, Ret true).
Proof.
  refine (proj2 (PgCompose.delete_entry_twice 9 (Some tree)) tree
            {| rows := {[1 := Pg.root_entry; 2 := dir "a" 1; 3 := dir "b" 2; 4 := dir "c" 3]};
               names := true; listing := true |} eq_refl eq_refl _).
  apply (bool_decide_unpack _). vm_compute. exact I.
Defined.

(** X6: creation on a missing file, then again on the fresh store. *)
Lemma create_twice_and_keeps_rows_witness :
  Pg.pg_sqlite_fs_create create_call None = (Some fresh, Ret true)
  ∧ Pg.pg_sqlite_fs_create create_call (Some fresh) = (Some fresh, Ret true).
Proof.
  assert (Pg.pg_sqlite_fs_create create_call None = (Some fresh, Ret true)) as Hfirst.
  { vm_compute. reflexivity. }
  split; [exact Hfirst|].
  destruct (PgCompose.create_twice_and_keeps_rows create_call None) as (Htwice & _).
  apply Htwice. exact Hfirst.
Defined.

(** X7: [tree] removed and created again. *)
Lemma remove_then_create_witness :
  Pg.pg_sqlite_fs_create create_call (Pg.pg_sqlite_fs_remove create_call (Some tree)).1
  = (Some fresh, Ret true).
Proof. apply (PgCompose.remove_then_create create_call (Some tree)); reflexivity. Defined.

(** X8: a file with its mountpoint and path only, written into [tree]. *)
Lemma insert_file_read_back_witness :
  Pg.files_of (Pg.pg_sqlite_fs_insert_file (file_call 7 "vault" "a/b.c4gh") (Some tree)).1
    !! 7
  = Some (bare_file "vault" "a/b.c4gh").
Proof.
  refine (proj1 (proj2 (PgFileFacts.insert_file_read_back
                          (file_call 7 "vault" "a/b.c4gh") tree ∅ _ _ _ _ _ _)));
    try reflexivity; try (unfold int64; simpl; lia).
Defined.

(** X9: the file of inode 7 written twice with different paths. *)
Lemma insert_file_last_call_wins_witness :
  Pg.pg_sqlite_fs_insert_file (file_call 7 "vault" "a/moved.c4gh")
    (Pg.pg_sqlite_fs_insert_file (file_call 7 "vault" "a/b.c4gh") (Some tree)).1
  = Pg.pg_sqlite_fs_insert_file (file_call 7 "vault" "a/moved.c4gh") (Some tree).
Proof.
  apply (PgFileFacts.insert_file_last_call_wins (file_call 7 "vault" "a/b.c4gh")
           (file_call 7 "vault" "a/moved.c4gh") (Some tree)); reflexivity.
Defined.

(** X10: an inode without a row deleted from [tree_with_file]. *)
Lemma delete_file_removes_one_row_witness :
  Pg.pg_sqlite_fs_delete_file 9 (Some tree_with_file) = (Some tree_with_file, Ret true).
Proof.
  destruct (PgFileFacts.delete_file_removes_one_row 9 (Some tree_with_file)) as (_ & Hret).
  destruct (Hret tree_with_file {[7 := bare_file "vault" "a/b.c4gh"]} eq_refl eq_refl)
    as (Htrue & Hsame).
  specialize (Hsame ltac:(vm_compute; reflexivity)).
  destruct (Pg.pg_sqlite_fs_delete_file 9 (Some tree_with_file)) as [fs' r].
  simpl in *. by rewrite Hsame, Htrue.
Defined.

(** X11: the file of inode 7 written into [tree] and deleted again. *)
Lemma insert_file_then_delete_file_witness :
  Pg.pg_sqlite_fs_delete_file 7
    (Pg.pg_sqlite_fs_insert_file (file_call 7 "vault" "a/b.c4gh") (Some tree)).1
  = (Some tree, Ret true).
Proof.
  apply (PgFileFacts.insert_file_then_delete_file (file_call 7 "vault" "a/b.c4gh") tree ∅);
    reflexivity.
Defined.

(** X12: the nine columns of the samples pass; so do the same eight under
    a ninth of another type, and the seven columns of the files loader are
    refused on their count. *)
Lemma insert_entries_check_exact_witness :
  (∀ c : Pg.sqlite3,
     Pg.insert_entries_check {| attrs := nine_columns; past_end := λ _, 0 |} c
     = (c, inr tt))
  ∧ (∀ c : Pg.sqlite3, Pg.insert_entries_check seven_desc c = (c, inl 3)).
Proof.
  split; intros c.
  - apply (proj1 (BulkFacts.insert_entries_check_exact
                    {| attrs := nine_columns; past_end := λ _, 0 |} c)).
    apply (bool_decide_unpack _). vm_compute. exact I.
  - apply (proj2 (BulkFacts.insert_entries_check_exact seven_desc c)).
    intros [Hlen _]. vm_compute in Hlen. discriminate Hlen.
Defined.

(** X13: two good rows loaded into [tree] are the two single calls; with
    a third row whose name is taken, nothing is loaded. *)
Lemma insert_entries_as_single_calls_witness :
  Pg.pg_sqlite_fs_insert_entries loader_call (spi_select nine_columns rows_ninth_null)
    (Some tree) = (Some tree_with_x_y, Ret true)
  ∧ Pg.pg_sqlite_fs_insert_entries loader_call (spi_select nine_columns rows_with_clash)
      (Some tree) = (Some tree, Ret true).
Proof.
  unfold spi_select. split.
  - rewrite (BulkFacts.insert_entries_as_single_calls loader_call
               {| attrs := nine_columns; past_end := λ _, 0 |} rows_ninth_null tree).
    + vm_compute. reflexivity.
    + reflexivity.
    + reflexivity.
    + reflexivity.
    + split; reflexivity.
    + apply (bool_decide_unpack _). vm_compute. exact I.
  - rewrite (BulkFacts.insert_entries_as_single_calls loader_call
               {| attrs := nine_columns; past_end := λ _, 0 |} rows_with_clash tree).
    + vm_compute. reflexivity.
    + reflexivity.
    + reflexivity.
    + reflexivity.
    + split; reflexivity.
    + apply (bool_decide_unpack _). vm_compute. exact I.
Defined.

(** X14 with an engine that refuses what it cannot read. *)
Lemma old_truncations_witness :
  PgSqliteFs.pg_sqlite_fs_truncate_entries sample_meaning (Some old_with_files)
  = (Some old_with_files, Ret false)
  ∧ PgSqliteFs.pg_sqlite_fs_truncate_files sample_meaning (Some old_with_files)
    = (Some old_fresh, Ret true).
Proof.
  refine (proj2 (OldRevisionFacts.old_truncations sample_meaning old_with_files
                   {[7 := old_file "a/b.c4gh"; 8 := old_file "a/c.c4gh"]} _ _ _)).
  - intros d'. split; [reflexivity|]. vm_compute. discriminate.
  - intros d'. reflexivity.
  - reflexivity.
Defined.

(** X15: a file written into the fresh store of the older revision. *)
Lemma old_insert_file_read_back_witness :
  PgSqliteFs.files_of
    (PgSqliteFs.pg_sqlite_fs_insert_file (old_file_call 7 "a/b.c4gh") (Some old_fresh)).1
    !! 7
  = Some (old_file "a/b.c4gh").
Proof.
  refine (proj1 (proj2 (proj2 (OldRevisionFacts.old_insert_file_read_back
                                 (old_file_call 7 "a/b.c4gh") old_fresh ∅ _ _)
                          _ _ _ _ _)));
    try reflexivity. unfold int64. simpl. lia.
Defined.

(** X16: three rows for two inodes loaded into the fresh store of the
    older revision; the third row replaces the first. *)
Lemma old_insert_files_loads_witness :
  PgSqliteFs.pg_sqlite_fs_insert_files loader_call
    {| connect_rc := SPI_OK_CONNECT; execute_rc := SPI_OK_SELECT;
       SPI_tuptable := {| tupdesc := three_columns; vals := old_file_rows |} |}
    (Some old_fresh)
  = (Some {| files := Some {[7 := old_file "a/moved.c4gh"; 8 := old_file "a/c.c4gh"]};
             extended_attributes := None;
             entries := entries old_fresh |}, Ret true).
Proof.
  rewrite (OldRevisionFacts.old_insert_files_loads loader_call three_columns
             old_file_rows old_fresh ∅).
  - vm_compute. reflexivity.
  - reflexivity.
  - reflexivity.
  - reflexivity.
  - reflexivity.
  - apply (bool_decide_unpack _). vm_compute. exact I.
  - reflexivity.
Defined.

(** X17: two good rows for [tree] while another connection holds the
    file: the COMMIT is refused, the call returns [false] and [tree] is as
    it was. *)
Lemma loaders_return_false_only_when_the_engine_fails_witness :
  loader_in file_held
    (Pg.insert_entries_statements (spi_select nine_columns rows_ninth_null))
    loader_call (Some tree)
  = (Some tree, Ret false)
  ∧ engine_fails file_held.
Proof.
  split; [vm_compute; reflexivity|].
  refine (proj1 (proj2 (proj2
            (LoaderOutcome.loaders_return_false_only_when_the_engine_fails
               file_held loader_call (spi_select nine_columns rows_ninth_null)
               (Some tree) None))) _).
  vm_compute. reflexivity.
Defined.

End OnMoreSamples.
